(** * MonoProject: ingestion, aggregation and access control

    A shallow embedding of the Django back end of MonoProject
    (django_api/api/monobank/models.py and views.py) together with the
    properties of its jar aggregation, its webhook ingestion and its
    family-based access control.

    Conventions of the embedding:
    - a database table with a string primary key is a [gmap string row];
      a table with an automatic integer key is a list of rows carrying
      their [pk];
    - Python integers are [Z]; Python [str] is [string];
    - a Python exception is a value [Raise e] of the type [result]; code
      that writes to the database runs in the monad [M], a state monad
      over [DB] whose state survives an exception (the project does not
      wrap its tasks in database transactions);
    - the platform's time zone and the Celery broker are parameters. *)

From Stdlib Require Import ZArith Bool Ascii String.
From stdpp Require Import base decidable option list sorting gmap strings
  pretty.

Local Open Scope Z_scope.

(** ** Exceptions and results *)

(** The models, to tell [Currency.DoesNotExist] from
    [MonoCard.DoesNotExist]. *)
Inductive model : Type :=
  | CurrencyModel | CategoryModel | CategoryMSOModel | MonoAccountModel
  | MonoCardModel | MonoJarModel | MonoTransactionModel
  | JarTransactionModel.

Inductive exn : Type :=
  | ValueError          (* datetime range errors, strptime failures *)
  | KeyError            (* dict.pop of a missing key *)
  | FieldError          (* a lookup on a name that is no field *)
  | AttributeError      (* attribute access on None *)
  | DoesNotExist (m : model)             (* objects.get without a match *)
  | MultipleObjectsReturned (m : model)  (* objects.get with several *)
  | IntegrityError      (* primary key, unique or NOT NULL violation *)
  | MonoBankError       (* error reported by the bank API *)
  | ValidationError     (* pydantic: wrong request structure *)
  | MonoDataNotFound (msg : string).  (* pydantic validators *)

#[global] Instance model_eq_dec : EqDecision model.
Proof. solve_decision. Defined.

Inductive result (A : Type) : Type :=
  | Ok (a : A)
  | Raise (e : exn).
Arguments Ok {A} a.
Arguments Raise {A} e.

#[global] Instance exn_eq_dec : EqDecision exn.
Proof. solve_decision. Defined.

#[global] Instance result_ret : MRet result := fun A a => Ok a.
#[global] Instance result_bind : MBind result := fun A B f m =>
  match m with
  | Ok a => f a
  | Raise e => Raise e
  end.
#[global] Instance result_fmap : FMap result := fun A B f m =>
  match m with
  | Ok a => Ok (f a)
  | Raise e => Raise e
  end.

Definition is_ok {A} (r : result A) : bool :=
  match r with Ok _ => true | Raise _ => false end.

(** ** The proleptic Gregorian calendar of Python's [datetime] *)

Module Calendar.

Definition MINYEAR : Z := 1.
Definition MAXYEAR : Z := 9999.

(** Seconds in a day, and [date(1970, 1, 1).toordinal()]. *)
Definition SECONDS_PER_DAY : Z := 86400.
Definition EPOCH_ORDINAL : Z := 719163.

Definition _is_leap (year : Z) : bool :=
  (year mod 4 =? 0) && (negb (year mod 100 =? 0) || (year mod 400 =? 0)).

Definition _DAYS_IN_MONTH (month : Z) : Z :=
  match month with
  | 1 => 31 | 2 => 28 | 3 => 31 | 4 => 30 | 5 => 31 | 6 => 30
  | 7 => 31 | 8 => 31 | 9 => 30 | 10 => 31 | 11 => 30 | 12 => 31
  | _ => -1
  end.

Definition _DAYS_BEFORE_MONTH (month : Z) : Z :=
  match month with
  | 1 => 0 | 2 => 31 | 3 => 59 | 4 => 90 | 5 => 120 | 6 => 151
  | 7 => 181 | 8 => 212 | 9 => 243 | 10 => 273 | 11 => 304 | 12 => 334
  | _ => -1
  end.

Definition _days_before_year (year : Z) : Z :=
  let y := year - 1 in
  y * 365 + y / 4 - y / 100 + y / 400.

Definition _days_in_month (year month : Z) : Z :=
  if (month =? 2) && _is_leap year then 29 else _DAYS_IN_MONTH month.

Definition _days_before_month (year month : Z) : Z :=
  _DAYS_BEFORE_MONTH month +
  (if (2 <? month) && _is_leap year then 1 else 0).

Definition _ymd2ord (year month day : Z) : Z :=
  _days_before_year year + _days_before_month year month + day.

(** The number of days of a year (not in [datetime]; used to state how
    [_days_before_year] grows). *)
Definition days_in_year (y : Z) : Z := if _is_leap y then 366 else 365.

Definition _DI400Y : Z := 146097.
Definition _DI100Y : Z := 36524.
Definition _DI4Y : Z := 1461.

(** [_ord2ymd]: ordinal to (year, month, day), 1 being 0001-01-01. *)
Definition _ord2ymd (n : Z) : Z * Z * Z :=
  let n := n - 1 in
  let n400 := n / _DI400Y in
  let n := n mod _DI400Y in
  let year := n400 * 400 + 1 in
  let n100 := n / _DI100Y in
  let n := n mod _DI100Y in
  let n4 := n / _DI4Y in
  let n := n mod _DI4Y in
  let n1 := n / 365 in
  let n := n mod 365 in
  let year := year + n100 * 100 + n4 * 4 + n1 in
  if (n1 =? 4) || (n100 =? 4) then (year - 1, 12, 31)
  else
    let leapyear := (n1 =? 3) && (negb (n4 =? 24) || (n100 =? 3)) in
    let month := Z.shiftr (n + 50) 5 in
    let preceding :=
      _DAYS_BEFORE_MONTH month +
      (if (2 <? month) && leapyear then 1 else 0) in
    if n <? preceding then
      let month := month - 1 in
      let preceding :=
        preceding -
        (_DAYS_IN_MONTH month +
         (if (month =? 2) && leapyear then 1 else 0)) in
      (year, month, n - preceding + 1)
    else (year, month, n - preceding + 1).

(** [datetime.date]; the constructor [date_new] checks the fields as
    [_check_date_fields] does. *)
Record date : Type := Date { year : Z; month : Z; day : Z }.

#[global] Instance date_eq_dec : EqDecision date.
Proof. solve_decision. Defined.

Definition valid_date (d : date) : Prop :=
  MINYEAR ≤ year d ≤ MAXYEAR ∧ 1 ≤ month d ≤ 12 ∧
  1 ≤ day d ≤ _days_in_month (year d) (month d).

Definition check_date_fields (y m d : Z) : bool :=
  (MINYEAR <=? y) && (y <=? MAXYEAR) && (1 <=? m) && (m <=? 12) &&
  (1 <=? d) && (d <=? _days_in_month y m).

Definition date_new (y m d : Z) : result date :=
  if check_date_fields y m d then Ok (Date y m d) else Raise ValueError.

Definition toordinal (d : date) : Z := _ymd2ord (year d) (month d) (day d).

(** Dates compare as the tuples (year, month, day). *)
Definition date_lt (a b : date) : Prop :=
  year a < year b ∨
  (year a = year b ∧
   (month a < month b ∨ (month a = month b ∧ day a < day b))).

Definition date_le (a b : date) : Prop := date_lt a b ∨ a = b.

#[global] Instance date_lt_dec : RelDecision date_lt.
Proof. intros a b. unfold date_lt. apply _. Defined.
#[global] Instance date_le_dec : RelDecision date_le.
Proof. intros a b. unfold date_le. apply _. Defined.

(** A naive [datetime.datetime], to the second. *)
Record datetime : Type := DateTime {
  dt_date : date;
  dt_hour : Z;
  dt_minute : Z;
  dt_second : Z
}.

Section LocalTime.
(** The platform's time zone: [utcoffset t] is the offset, in
    seconds east of UTC, in force at the instant [t] (what
    [time.localtime] applies), and [mktime l] is the instant that
    the wall clock reading [l], in seconds since 1970-01-01T00:00
    local time, denotes (what [time.mktime] returns). *)
Variable utcoffset : Z → Z.
Variable mktime : Z → Z.

(** [datetime.fromtimestamp(t)] for an integer [t]. *)
Definition fromtimestamp (t : Z) : result datetime :=
  let l := t + utcoffset t in
  let '(y, m, d) := _ord2ymd (l / SECONDS_PER_DAY + EPOCH_ORDINAL) in
  let s := l mod SECONDS_PER_DAY in
  dte ← date_new y m d;
  Ok (DateTime dte (s / 3600) (s mod 3600 / 60) (s mod 60)).

(** [int(datetime.combine(d, datetime.min.time()).timestamp())] *)
Definition midnight_timestamp (d : date) : Z :=
  mktime ((toordinal d - EPOCH_ORDINAL) * SECONDS_PER_DAY).
End LocalTime.

End Calendar.

Import Calendar.

(** What the Python runtime supplies: the time zone of the process (see
    [Calendar.fromtimestamp] and [Calendar.midnight_timestamp]) and
    [strptime s] for [datetime.strptime(s, "%Y-%m-%d").date()], which
    raises [ValueError] on a string that does not match the format or
    that names no date. *)
Record Runtime : Type := {
  utcoffset : Z → Z;
  mktime : Z → Z;
  strptime : string → result date
}.

(** ** The relational data model (monobank/models.py) *)

(** Rows of the tables with an automatic primary key carry it in [*_pk];
    a foreign key holds the primary key of the row it refers to. *)

Record Currency : Type := {
  cur_pk : Z;
  cur_code : Z;                      (* unique *)
  cur_name : string;
  cur_flag : option string;
  cur_symbol : option string
}.

Record Category : Type := {
  cat_pk : Z;
  cat_name : string;                 (* unique *)
  cat_symbol : option string;
  cat_user_defined : bool
}.

Record CategoryMSO : Type := {
  mso_pk : Z;
  mso_category : Z;                  (* -> Category *)
  mso_mso : Z                        (* unique *)
}.

(** [MonoAccount] with the [tg_id] of its one-to-one [user]. *)
Record MonoAccount : Type := {
  acc_pk : Z;
  acc_user_tg_id : string;
  acc_mono_token : string;           (* unique *)
  acc_active : bool
}.

(** The rows of [MonoCard], [MonoJar], [MonoTransaction] and
    [JarTransaction] are stored under their [id] in a [gmap]. *)
Record MonoCard : Type := {
  card_monoaccount : Z;              (* -> MonoAccount *)
  card_send_id : string;
  card_currency : Z;                 (* -> Currency *)
  card_cashback_type : string;
  card_balance : Z;
  card_credit_limit : Z;
  card_masked_pan : option (list string);
  card_type : string;
  card_iban : string;
  card_is_active : bool
}.

Record MonoJar : Type := {
  jar_monoaccount : Z;               (* -> MonoAccount *)
  jar_send_id : string;
  jar_title : string;
  jar_currency : Z;                  (* -> Currency *)
  jar_balance : Z;
  jar_goal : option Z;
  jar_is_budget : bool;
  jar_is_active : bool;
  jar_invested : Z
}.

Record MonoTransaction : Type := {
  tx_time : Z;
  tx_description : option string;
  tx_mcc : Z;                        (* -> CategoryMSO *)
  tx_original_mcc : option Z;
  tx_amount : Z;
  tx_operation_amount : option Z;
  tx_currency : option Z;            (* -> Currency, SET_NULL *)
  tx_commission_rate : option Z;
  tx_balance : Z;
  tx_hold : bool;
  tx_receipt_id : option string;
  tx_account : string;               (* -> MonoCard *)
  tx_cashback_amount : Z;
  tx_comment : option string
}.

Record JarTransaction : Type := {
  jtx_account : string;              (* -> MonoJar *)
  jtx_time : Z;
  jtx_description : option string;
  jtx_mcc : Z;                       (* -> CategoryMSO *)
  jtx_original_mcc : option Z;
  jtx_amount : Z;
  jtx_operation_amount : option Z;
  jtx_currency : option Z;           (* -> Currency, SET_NULL *)
  jtx_commission_rate : option Z;
  jtx_cashback_amount : Z;
  jtx_balance : Z;
  jtx_hold : bool;
  jtx_comment : option string
}.

#[global] Instance Currency_eq_dec : EqDecision Currency.
Proof. solve_decision. Defined.
#[global] Instance Category_eq_dec : EqDecision Category.
Proof. solve_decision. Defined.
#[global] Instance CategoryMSO_eq_dec : EqDecision CategoryMSO.
Proof. solve_decision. Defined.
#[global] Instance MonoAccount_eq_dec : EqDecision MonoAccount.
Proof. solve_decision. Defined.
#[global] Instance MonoCard_eq_dec : EqDecision MonoCard.
Proof. solve_decision. Defined.
#[global] Instance MonoJar_eq_dec : EqDecision MonoJar.
Proof. solve_decision. Defined.
#[global] Instance MonoTransaction_eq_dec : EqDecision MonoTransaction.
Proof. solve_decision. Defined.
#[global] Instance JarTransaction_eq_dec : EqDecision JarTransaction.
Proof. solve_decision. Defined.

(** *** Payloads

    The dictionaries of the bank API after [decamelize]: a key of the
    dictionary is a field of the record, [None] when the key is absent.
    Keys that are not fields of the model they feed are not modelled. *)

Record CardData : Type := {
  cd_id : option string;
  cd_send_id : option string;
  cd_currency_code : option Z;
  cd_cashback_type : option string;
  cd_balance : option Z;
  cd_credit_limit : option Z;
  cd_masked_pan : option (list string);
  cd_type : option string;
  cd_iban : option string
}.

Record JarData : Type := {
  jd_id : option string;
  jd_send_id : option string;
  jd_title : option string;
  jd_description : option string;
  jd_currency_code : option Z;
  jd_balance : option Z;
  jd_goal : option Z
}.

(** A statement item, for a card or a jar. *)
Record TransactionDict : Type := {
  td_id : option string;
  td_time : option Z;
  td_description : option string;
  td_mcc : option Z;
  td_original_mcc : option Z;
  td_amount : option Z;
  td_operation_amount : option Z;
  td_currency_code : option Z;
  td_commission_rate : option Z;
  td_cashback_amount : option Z;
  td_balance : option Z;
  td_hold : option bool;
  td_receipt_id : option string;
  td_comment : option string
}.

(** The answer of [/personal/client-info]: [ci_other] tells whether the
    dictionary has keys besides "accounts" and "jars". *)
Record ClientInfo : Type := {
  ci_accounts : option (list CardData);
  ci_jars : option (list JarData);
  ci_other : bool
}.

(** *** Celery messages

    [task.apply_async(args=...)] only publishes a message; the task body
    runs later in a worker. *)
Inductive Task : Type :=
  | Task_create_card_from_webhook
      (tg_id : string) (card_data : CardData) (update_transactions : bool)
  | Task_create_jar_from_webhook
      (tg_id : string) (jar_data : JarData) (update_transactions : bool)
  | Task_create_transaction_from_webhook
      (card_id : string) (transaction_data : TransactionDict)
  | Task_create_jar_transaction_from_webhook
      (card_id : string) (transaction_data : TransactionDict).

(** *** The database and the broker *)

Record DB : Type := {
  currencies : list Currency;
  categories : list Category;
  category_msos : list CategoryMSO;
  mono_accounts : list MonoAccount;
  mono_cards : gmap string MonoCard;
  mono_jars : gmap string MonoJar;
  mono_transactions : gmap string MonoTransaction;
  jar_transactions : gmap string JarTransaction;
  celery_queue : list Task
}.

Definition set_currencies (v : list Currency) (db : DB) : DB :=
  {| currencies := v; categories := categories db;
     category_msos := category_msos db; mono_accounts := mono_accounts db;
     mono_cards := mono_cards db; mono_jars := mono_jars db;
     mono_transactions := mono_transactions db;
     jar_transactions := jar_transactions db;
     celery_queue := celery_queue db |}.

Definition set_categories (v : list Category) (db : DB) : DB :=
  {| currencies := currencies db; categories := v;
     category_msos := category_msos db; mono_accounts := mono_accounts db;
     mono_cards := mono_cards db; mono_jars := mono_jars db;
     mono_transactions := mono_transactions db;
     jar_transactions := jar_transactions db;
     celery_queue := celery_queue db |}.

Definition set_category_msos (v : list CategoryMSO) (db : DB) : DB :=
  {| currencies := currencies db; categories := categories db;
     category_msos := v; mono_accounts := mono_accounts db;
     mono_cards := mono_cards db; mono_jars := mono_jars db;
     mono_transactions := mono_transactions db;
     jar_transactions := jar_transactions db;
     celery_queue := celery_queue db |}.

Definition set_mono_cards (v : gmap string MonoCard) (db : DB) : DB :=
  {| currencies := currencies db; categories := categories db;
     category_msos := category_msos db; mono_accounts := mono_accounts db;
     mono_cards := v; mono_jars := mono_jars db;
     mono_transactions := mono_transactions db;
     jar_transactions := jar_transactions db;
     celery_queue := celery_queue db |}.

Definition set_mono_jars (v : gmap string MonoJar) (db : DB) : DB :=
  {| currencies := currencies db; categories := categories db;
     category_msos := category_msos db; mono_accounts := mono_accounts db;
     mono_cards := mono_cards db; mono_jars := v;
     mono_transactions := mono_transactions db;
     jar_transactions := jar_transactions db;
     celery_queue := celery_queue db |}.

Definition set_mono_transactions
    (v : gmap string MonoTransaction) (db : DB) : DB :=
  {| currencies := currencies db; categories := categories db;
     category_msos := category_msos db; mono_accounts := mono_accounts db;
     mono_cards := mono_cards db; mono_jars := mono_jars db;
     mono_transactions := v;
     jar_transactions := jar_transactions db;
     celery_queue := celery_queue db |}.

Definition set_jar_transactions
    (v : gmap string JarTransaction) (db : DB) : DB :=
  {| currencies := currencies db; categories := categories db;
     category_msos := category_msos db; mono_accounts := mono_accounts db;
     mono_cards := mono_cards db; mono_jars := mono_jars db;
     mono_transactions := mono_transactions db;
     jar_transactions := v;
     celery_queue := celery_queue db |}.

Definition set_celery_queue (v : list Task) (db : DB) : DB :=
  {| currencies := currencies db; categories := categories db;
     category_msos := category_msos db; mono_accounts := mono_accounts db;
     mono_cards := mono_cards db; mono_jars := mono_jars db;
     mono_transactions := mono_transactions db;
     jar_transactions := jar_transactions db;
     celery_queue := v |}.

(** ** The monad of database code *)

Definition M (A : Type) : Type := DB → result A * DB.

#[global] Instance M_ret : MRet M := fun A a db => (Ok a, db).
#[global] Instance M_bind : MBind M := fun A B f m db =>
  match m db with
  | (Ok a, db') => f a db'
  | (Raise e, db') => (Raise e, db')
  end.

Definition get_db : M DB := fun db => (Ok db, db).
Definition modify_db (f : DB → DB) : M unit := fun db => (Ok tt, f db).
Definition raise {A} (e : exn) : M A := fun db => (Raise e, db).
Definition lift {A} (r : result A) : M A := fun db => (r, db).

(** [try: m except E: h], where [catches] tells the instances of [E]. *)
Definition try_except {A} (m : M A) (catches : exn → bool) (h : M A)
    : M A := fun db =>
  match m db with
  | (Raise e, db') => if catches e then h db' else (Raise e, db')
  | r => r
  end.

Definition is_exn (e : exn) : exn → bool := fun e' => bool_decide (e' = e).

(** [ObjectDoesNotExist], the base class of every [DoesNotExist]. *)
Definition ObjectDoesNotExist (e : exn) : bool :=
  match e with DoesNotExist _ => true | _ => false end.

(** [d.pop(key)] of a key that may be absent. *)
Definition pop {A} (v : option A) : M A :=
  match v with Some a => mret a | None => raise KeyError end.

(** The next value of an automatic primary key. *)
Definition next_pk (pks : list Z) : Z := 1 + foldr Z.max 0 pks.

(** ** Ingestion (models.py) *)

(** A keyword argument of [objects.get]: an absent key does not
    constrain the row. *)
Definition kw_eq {A} `{EqDecision A} (kw : option A) (x : A) : bool :=
  match kw with None => true | Some a => bool_decide (a = x) end.

(** The same for a column that may hold NULL. *)
Definition kw_eq_null {A} `{EqDecision A} (kw : option A) (x : option A)
    : bool :=
  match kw with None => true | Some a => bool_decide (x = Some a) end.

(** [objects.get] over the rows that a lookup selects. *)
Definition get_one {A} (m : model) (rows : list A) : M A :=
  match rows with
  | [] => raise (DoesNotExist m)
  | [r] => mret r
  | _ => raise (MultipleObjectsReturned m)
  end.

(** [Currency.objects.get(code=code)] *)
Definition Currency_get (code : Z) : M Currency :=
  db ← get_db;
  get_one CurrencyModel
    (filter (λ c, cur_code c = code) (currencies db)).

(** [Currency.create_unknown_currency]: a new row, unless the unique
    column [code] is taken. *)
Definition create_unknown_currency (currency_code : Z) : M Currency :=
  db ← get_db;
  if bool_decide (currency_code ∈ cur_code <$> currencies db)
  then raise IntegrityError
  else
    let new_currency :=
      {| cur_pk := next_pk (cur_pk <$> currencies db);
         cur_code := currency_code; cur_name := "XXX";
         cur_flag := None; cur_symbol := None |} in
    modify_db (set_currencies (currencies db ++ [new_currency]));;
    mret new_currency.

(** The name of the category of unknown merchant codes. *)
Definition OTHER_CATEGORY : string := "Інше".

(** [Category.objects.get_or_create(name=name)] *)
Definition Category_get_or_create (name : string) : M Category :=
  db ← get_db;
  try_except
    (get_one CategoryModel
       (filter (λ c, cat_name c = name) (categories db)))
    (is_exn (DoesNotExist CategoryModel))
    (let category :=
       {| cat_pk := next_pk (cat_pk <$> categories db); cat_name := name;
          cat_symbol := None; cat_user_defined := false |} in
     modify_db (set_categories (categories db ++ [category]));;
     mret category).

(** [CategoryMSO.objects.get(mso=mso)] *)
Definition CategoryMSO_get (mso : Z) : M CategoryMSO :=
  db ← get_db;
  get_one CategoryMSOModel
    (filter (λ c, mso_mso c = mso) (category_msos db)).

(** [CategoryMSO.objects.create(category=category, mso=mso)] *)
Definition CategoryMSO_create (category : Category) (mso : Z)
    : M CategoryMSO :=
  db ← get_db;
  if bool_decide (mso ∈ mso_mso <$> category_msos db)
  then raise IntegrityError
  else
    let row :=
      {| mso_pk := next_pk (mso_pk <$> category_msos db);
         mso_category := cat_pk category; mso_mso := mso |} in
    modify_db (set_category_msos (category_msos db ++ [row]));;
    mret row.

(** [MonoAccount.objects.get(user__tg_id=tg_id)] *)
Definition MonoAccount_get_by_tg_id (tg_id : string) : M MonoAccount :=
  db ← get_db;
  get_one MonoAccountModel
    (filter (λ a, acc_user_tg_id a = tg_id) (mono_accounts db)).

(** [obj.monoaccount]: the row a foreign key refers to. *)
Definition MonoAccount_get_by_pk (pk : Z) : M MonoAccount :=
  db ← get_db;
  get_one MonoAccountModel
    (filter (λ a, acc_pk a = pk) (mono_accounts db)).

(** [Model.objects.get(id=id)] on a table keyed by [id]; [id=None]
    matches no row. *)
Definition get_by_id {A} (m : model) (table : DB → gmap string A)
    (id : option string) : M (string * A) :=
  db ← get_db;
  match id with
  | None => raise (DoesNotExist m)
  | Some i =>
      match table db !! i with
      | Some row => mret (i, row)
      | None => raise (DoesNotExist m)
      end
  end.

(** [apply_async]: publish a message. *)
Definition apply_async (t : Task) : M unit :=
  db ← get_db;
  modify_db (set_celery_queue (celery_queue db ++ [t])).

(** [for x in xs: body(x)] *)
Fixpoint for_each {A} (xs : list A) (body : A → M unit) : M unit :=
  match xs with
  | [] => mret tt
  | x :: xs' => body x;; for_each xs' body
  end.

(** The bank API and the clock, as the code sees them: [client_info tok]
    is what [/personal/client-info] answers to the token [tok], and
    [statement tok id from to] what [/personal/statement/id/from/to]
    answers; [Raise MonoBankError] stands for a 403 or for an answer
    with an [errorDescription]. [time_now] is [int(time.time())]. *)
Record BankAPI : Type := {
  time_now : Z;
  client_info : string → result ClientInfo;
  statement : string → string → Z → Z → result (list TransactionDict)
}.

(** Python's truth value of an optional integer and of an optional
    string. *)
Definition truthy_int (v : option Z) : bool :=
  match v with Some n => negb (n =? 0) | None => false end.

Definition truthy_str (v : option string) : bool :=
  match v with Some s => negb (String.eqb s "") | None => false end.

(** The period of a statement request: 30 days. *)
Definition requested_period : Z := 2592000.

Definition statement_window (bank : BankAPI) (from_unix to_unix : option Z)
    : Z * Z :=
  let to_unix :=
    if truthy_int to_unix then default 0 to_unix else time_now bank in
  let from_unix :=
    if truthy_int from_unix then default 0 from_unix
    else to_unix - requested_period in
  (from_unix, to_unix).

(** [try: currency = Currency.objects.get(code=int(currency_code))
     except Currency.DoesNotExist:
         currency = Currency.create_unknown_currency(currency_code)] *)
Definition resolve_currency (currency_code : Z) : M Currency :=
  try_except (Currency_get currency_code)
    (is_exn (DoesNotExist CurrencyModel))
    (create_unknown_currency currency_code).

Module MonoCard.

(** [setattr(mono_card, key, value)] for every key of [card_data], then
    [is_active = True]. *)
Definition setattrs (card_data : CardData) (mono_card : MonoCard)
    : MonoCard :=
  {| card_monoaccount := card_monoaccount mono_card;
     card_send_id := default (card_send_id mono_card) (cd_send_id card_data);
     card_currency := card_currency mono_card;
     card_cashback_type :=
       default (card_cashback_type mono_card) (cd_cashback_type card_data);
     card_balance := default (card_balance mono_card) (cd_balance card_data);
     card_credit_limit :=
       default (card_credit_limit mono_card) (cd_credit_limit card_data);
     card_masked_pan :=
       match cd_masked_pan card_data with
       | Some v => Some v
       | None => card_masked_pan mono_card
       end;
     card_type := default (card_type mono_card) (cd_type card_data);
     card_iban := default (card_iban mono_card) (cd_iban card_data);
     card_is_active := true |}.

(** The rows that [get(monoaccount=.., currency=.., **card_data)]
    selects, [card_data] holding [is_active = True]. *)
Definition lookup_matches (mono_account : MonoAccount) (currency : Currency)
    (card_data : CardData) (entry : string * MonoCard) : bool :=
  let '(id, c) := entry in
  bool_decide (card_monoaccount c = acc_pk mono_account) &&
  bool_decide (card_currency c = cur_pk currency) &&
  kw_eq (cd_id card_data) id &&
  kw_eq (cd_send_id card_data) (card_send_id c) &&
  kw_eq (cd_cashback_type card_data) (card_cashback_type c) &&
  kw_eq (cd_balance card_data) (card_balance c) &&
  kw_eq (cd_credit_limit card_data) (card_credit_limit c) &&
  kw_eq_null (cd_masked_pan card_data) (card_masked_pan c) &&
  kw_eq (cd_type card_data) (card_type c) &&
  kw_eq (cd_iban card_data) (card_iban c) &&
  bool_decide (card_is_active c = true).

(** [MonoCard(monoaccount=.., currency=.., **card_data)]: the row to
    insert, or nothing when a column without default is missing. *)
Definition new_row (mono_account : MonoAccount) (currency : Currency)
    (card_data : CardData) : option (string * MonoCard) :=
  balance ← cd_balance card_data;
  credit_limit ← cd_credit_limit card_data;
  Some (default "" (cd_id card_data),
        {| card_monoaccount := acc_pk mono_account;
           card_send_id := default "" (cd_send_id card_data);
           card_currency := cur_pk currency;
           card_cashback_type := default "" (cd_cashback_type card_data);
           card_balance := balance;
           card_credit_limit := credit_limit;
           card_masked_pan := cd_masked_pan card_data;
           card_type := default "" (cd_type card_data);
           card_iban := default "" (cd_iban card_data);
           card_is_active := true |}).

(** [MonoCard.objects.get_or_create(monoaccount=.., currency=..,
    **card_data)] *)
Definition get_or_create (mono_account : MonoAccount) (currency : Currency)
    (card_data : CardData) : M (string * MonoCard) :=
  db ← get_db;
  try_except
    (get_one MonoCardModel
       (filter (λ e, lookup_matches mono_account currency card_data e)
          (map_to_list (mono_cards db))))
    (is_exn (DoesNotExist MonoCardModel))
    (match new_row mono_account currency card_data with
     | None => raise IntegrityError
     | Some (id, row) =>
         match mono_cards db !! id with
         | Some _ => raise IntegrityError
         | None =>
             modify_db (set_mono_cards (<[id := row]> (mono_cards db)));;
             mret (id, row)
         end
     end).

(** [MonoCard.get_transactions] *)
Definition get_transactions (bank : BankAPI) (self : string * MonoCard)
    (from_unix to_unix : option Z) : M (list TransactionDict) :=
  let '(from_unix, to_unix) := statement_window bank from_unix to_unix in
  monoaccount ← MonoAccount_get_by_pk (card_monoaccount self.2);
  data ← lift (statement bank (acc_mono_token monoaccount) self.1
                 from_unix to_unix);
  for_each data (λ transaction,
    apply_async (Task_create_transaction_from_webhook self.1 transaction));;
  mret data.

(** The second [try] of [create_card_from_webhook]:
    [try: mono_card = MonoCard.objects.get(id=card_data.get("id")); ...;
          mono_card.save()
     except MonoCard.DoesNotExist:
          card_data["is_active"] = True
          mono_card, _ = MonoCard.objects.get_or_create(...)] *)
Definition update_or_create (mono_account : MonoAccount)
    (currency : Currency) (card_data : CardData) : M (string * MonoCard) :=
  try_except
    (mono_card ← get_by_id MonoCardModel mono_cards (cd_id card_data);
     let updated := setattrs card_data mono_card.2 in
     db ← get_db;
     modify_db (set_mono_cards (<[mono_card.1 := updated]> (mono_cards db)));;
     mret (mono_card.1, updated))
    (is_exn (DoesNotExist MonoCardModel))
    (get_or_create mono_account currency card_data).

(** [MonoCard.create_card_from_webhook] *)
Definition create_card_from_webhook (bank : BankAPI) (tg_id : string)
    (card_data : CardData) (update_transactions : bool) : M unit :=
  mono_account ← MonoAccount_get_by_tg_id tg_id;
  currency_code ← pop (cd_currency_code card_data);
  currency ← resolve_currency currency_code;
  mono_card ← update_or_create mono_account currency card_data;
  if update_transactions
  then get_transactions bank mono_card None None;; mret tt
  else mret tt.

End MonoCard.

Module MonoJar.

(** [setattr(mono_jar, key, value)] for every key of [jar_data], the key
    "description" being popped before, then [is_active = True]. *)
Definition setattrs (jar_data : JarData) (mono_jar : MonoJar) : MonoJar :=
  {| jar_monoaccount := jar_monoaccount mono_jar;
     jar_send_id := default (jar_send_id mono_jar) (jd_send_id jar_data);
     jar_title := default (jar_title mono_jar) (jd_title jar_data);
     jar_currency := jar_currency mono_jar;
     jar_balance := default (jar_balance mono_jar) (jd_balance jar_data);
     jar_goal :=
       match jd_goal jar_data with
       | Some v => Some v
       | None => jar_goal mono_jar
       end;
     jar_is_budget := jar_is_budget mono_jar;
     jar_is_active := true;
     jar_invested := jar_invested mono_jar |}.

Definition lookup_matches (mono_account : MonoAccount) (currency : Currency)
    (jar_data : JarData) (entry : string * MonoJar) : bool :=
  let '(id, j) := entry in
  bool_decide (jar_monoaccount j = acc_pk mono_account) &&
  bool_decide (jar_currency j = cur_pk currency) &&
  kw_eq (jd_id jar_data) id &&
  kw_eq (jd_send_id jar_data) (jar_send_id j) &&
  kw_eq (jd_title jar_data) (jar_title j) &&
  kw_eq (jd_balance jar_data) (jar_balance j) &&
  kw_eq_null (jd_goal jar_data) (jar_goal j) &&
  bool_decide (jar_is_active j = true).

Definition new_row (mono_account : MonoAccount) (currency : Currency)
    (jar_data : JarData) : option (string * MonoJar) :=
  balance ← jd_balance jar_data;
  Some (default "" (jd_id jar_data),
        {| jar_monoaccount := acc_pk mono_account;
           jar_send_id := default "" (jd_send_id jar_data);
           jar_title := default "" (jd_title jar_data);
           jar_currency := cur_pk currency;
           jar_balance := balance;
           jar_goal := jd_goal jar_data;
           jar_is_budget := false;
           jar_is_active := true;
           jar_invested := 0 |}).

(** [MonoJar.objects.get_or_create(monoaccount=.., currency=..,
    **jar_data)] *)
Definition get_or_create (mono_account : MonoAccount) (currency : Currency)
    (jar_data : JarData) : M (string * MonoJar) :=
  db ← get_db;
  try_except
    (get_one MonoJarModel
       (filter (λ e, lookup_matches mono_account currency jar_data e)
          (map_to_list (mono_jars db))))
    (is_exn (DoesNotExist MonoJarModel))
    (match new_row mono_account currency jar_data with
     | None => raise IntegrityError
     | Some (id, row) =>
         match mono_jars db !! id with
         | Some _ => raise IntegrityError
         | None =>
             modify_db (set_mono_jars (<[id := row]> (mono_jars db)));;
             mret (id, row)
         end
     end).

(** [MonoJar.get_transactions] *)
Definition get_transactions (bank : BankAPI) (self : string * MonoJar)
    (from_unix to_unix : option Z) : M (list TransactionDict) :=
  let '(from_unix, to_unix) := statement_window bank from_unix to_unix in
  monoaccount ← MonoAccount_get_by_pk (jar_monoaccount self.2);
  data ← lift (statement bank (acc_mono_token monoaccount) self.1
                 from_unix to_unix);
  for_each data (λ transaction,
    apply_async
      (Task_create_jar_transaction_from_webhook self.1 transaction));;
  mret data.

(** The second [try] of [create_jar_from_webhook]:
    [try: mono_jar = MonoJar.objects.get(id=jar_data.get("id")); ...;
          mono_jar.save()
     except MonoJar.DoesNotExist:
          jar_data["is_active"] = True
          mono_jar, _ = MonoJar.objects.get_or_create(...)] *)
Definition update_or_create (mono_account : MonoAccount)
    (currency : Currency) (jar_data : JarData) : M (string * MonoJar) :=
  try_except
    (mono_jar ← get_by_id MonoJarModel mono_jars (jd_id jar_data);
     let updated := setattrs jar_data mono_jar.2 in
     db ← get_db;
     modify_db (set_mono_jars (<[mono_jar.1 := updated]> (mono_jars db)));;
     mret (mono_jar.1, updated))
    (is_exn (DoesNotExist MonoJarModel))
    (get_or_create mono_account currency jar_data).

(** [MonoJar.create_jar_from_webhook] *)
Definition create_jar_from_webhook (bank : BankAPI) (tg_id : string)
    (jar_data : JarData) (update_transactions : bool) : M unit :=
  mono_account ← MonoAccount_get_by_tg_id tg_id;
  pop (jd_description jar_data);;
  currency_code ← pop (jd_currency_code jar_data);
  currency ← resolve_currency currency_code;
  mono_jar ← update_or_create mono_account currency jar_data;
  if update_transactions
  then get_transactions bank mono_jar None None;; mret tt
  else mret tt.

(** The summary of a month, the dictionary that [get_month_summary]
    returns. *)
Record Summary : Type := {
  start_balance : Z;
  budget : Z;
  end_balance : Z;
  spent : Z
}.

#[global] Instance Summary_eq_dec : EqDecision Summary.
Proof. solve_decision. Defined.

(** [order_by("time", "id")] on the entries of [JarTransaction]; the
    ids compare byte by byte, as under the C collation. *)
Definition by_time_id (a b : string * JarTransaction) : Prop :=
  jtx_time a.2 < jtx_time b.2 ∨
  (jtx_time a.2 = jtx_time b.2 ∧ String.le a.1 b.1).

#[global] Instance by_time_id_dec : RelDecision by_time_id.
Proof. intros a b. unfold by_time_id. apply _. Defined.

(** [order_by("-amount")] on a column of amounts. *)
Definition by_amount_desc (a b : Z) : Prop := b ≤ a.

#[global] Instance by_amount_desc_dec : RelDecision by_amount_desc.
Proof. intros a b. unfold by_amount_desc. apply _. Defined.

(** [JarTransaction.objects.filter(account=self)] *)
Definition transactions_of (db : DB) (self : string)
    : list (string * JarTransaction) :=
  filter (λ e, jtx_account e.2 = self) (map_to_list (jar_transactions db)).

(** The loop of [get_available_months] over the timestamps. *)
Fixpoint collect_year_month (rt : Runtime) (timestamps : list Z)
    (unique_year_month : gset (Z * Z)) : result (gset (Z * Z)) :=
  match timestamps with
  | [] => Ok unique_year_month
  | ts :: timestamps' =>
      dt ← fromtimestamp (utcoffset rt) ts;
      collect_year_month rt timestamps'
        ({[ (year (dt_date dt), month (dt_date dt)) ]} ∪ unique_year_month)
  end.

(** [MonoJar.get_available_months] *)
Definition get_available_months (rt : Runtime) (db : DB) (self : string)
    : result (list date) :=
  let timestamps := (λ e, jtx_time e.2) <$> transactions_of db self in
  unique_year_month ← collect_year_month rt timestamps ∅;
  dates ← mapM (λ ym, date_new ym.1 ym.2 1) (elements unique_year_month);
  Ok (merge_sort date_le dates).

(** The queryset of [get_month_summary]:
    [filter(account=self, time__gte=start_ts, time__lt=end_ts)
     .order_by("time", "id")] *)
Definition month_queryset (db : DB) (self : string) (start_ts end_ts : Z)
    : list (string * JarTransaction) :=
  merge_sort by_time_id
    (filter (λ e, start_ts ≤ jtx_time e.2 ∧ jtx_time e.2 < end_ts)
       (transactions_of db self)).

(** [MonoJar.get_month_summary] *)
Definition get_month_summary (rt : Runtime) (db : DB) (self : string)
    (month : string + date) : result Summary :=
  month_date ←
    match month with
    | inl s => strptime rt s
    | inr d => Ok d
    end;
  month_start ← date_new (year month_date) (Calendar.month month_date) 1;
  next_month_start ←
    (if Calendar.month month_start =? 12
     then date_new (year month_start + 1) 1 1
     else date_new (year month_start) (Calendar.month month_start + 1) 1);
  let start_ts := midnight_timestamp (mktime rt) month_start in
  let end_ts := midnight_timestamp (mktime rt) next_month_start in
  let qs := month_queryset db self start_ts end_ts in
  if bool_decide (qs = [])
  then Ok {| start_balance := 0; budget := 0; end_balance := 0; spent := 0 |}
  else
    match head qs, last qs with
    | Some first_tx, Some last_tx =>
        let positive_budget :=
          head (merge_sort by_amount_desc
                  (filter (λ a, 0 < a) ((λ e, jtx_amount e.2) <$> qs))) in
        let budget := default 0 positive_budget in
        let start_balance := jtx_balance first_tx.2 in
        let end_balance := jtx_balance last_tx.2 in
        let spent := start_balance - end_balance - budget in
        Ok {| start_balance := start_balance; budget := budget;
              end_balance := end_balance; spent := spent |}
    | _, _ => Raise AttributeError
    end.

End MonoJar.

(** The merchant code of a statement item and its [CategoryMSO], shared
    by the two transaction tasks:
    [try: mso = transaction_data.pop("mcc")
     except KeyError: mso = CategoryMSO.objects.count()], then
    [try: mcc = CategoryMSO.objects.get(mso=mso)
     except ObjectDoesNotExist: ... create under the category "Інше"]. *)
Definition resolve_mcc (transaction_data : TransactionDict)
    : M CategoryMSO :=
  mso ←
    try_except (pop (td_mcc transaction_data)) (is_exn KeyError)
      (db ← get_db; mret (Z.of_nat (length (category_msos db))));
  try_except (CategoryMSO_get mso) ObjectDoesNotExist
    (category ← Category_get_or_create OTHER_CATEGORY;
     CategoryMSO_create category mso).

Module MonoTransaction.

Definition lookup_matches (account : string) (mcc : CategoryMSO)
    (currency : Currency) (td : TransactionDict)
    (entry : string * MonoTransaction) : bool :=
  let '(id, t) := entry in
  bool_decide (tx_account t = account) &&
  bool_decide (tx_mcc t = mso_pk mcc) &&
  bool_decide (tx_currency t = Some (cur_pk currency)) &&
  kw_eq (td_id td) id &&
  kw_eq (td_time td) (tx_time t) &&
  kw_eq_null (td_description td) (tx_description t) &&
  kw_eq_null (td_original_mcc td) (tx_original_mcc t) &&
  kw_eq (td_amount td) (tx_amount t) &&
  kw_eq_null (td_operation_amount td) (tx_operation_amount t) &&
  kw_eq_null (td_commission_rate td) (tx_commission_rate t) &&
  kw_eq (td_cashback_amount td) (tx_cashback_amount t) &&
  kw_eq (td_balance td) (tx_balance t) &&
  kw_eq (td_hold td) (tx_hold t) &&
  kw_eq_null (td_receipt_id td) (tx_receipt_id t) &&
  kw_eq_null (td_comment td) (tx_comment t).

Definition new_row (account : string) (mcc : CategoryMSO)
    (currency : Currency) (td : TransactionDict)
    : option (string * MonoTransaction) :=
  time ← td_time td;
  amount ← td_amount td;
  balance ← td_balance td;
  hold ← td_hold td;
  cashback_amount ← td_cashback_amount td;
  Some (default "" (td_id td),
        {| tx_time := time;
           tx_description := td_description td;
           tx_mcc := mso_pk mcc;
           tx_original_mcc := td_original_mcc td;
           tx_amount := amount;
           tx_operation_amount := td_operation_amount td;
           tx_currency := Some (cur_pk currency);
           tx_commission_rate := td_commission_rate td;
           tx_balance := balance;
           tx_hold := hold;
           tx_receipt_id := td_receipt_id td;
           tx_account := account;
           tx_cashback_amount := cashback_amount;
           tx_comment := td_comment td |}).

(** [MonoTransaction.objects.get_or_create(account=.., mcc=..,
    currency=.., **transaction_data)] *)
Definition get_or_create (account : string) (mcc : CategoryMSO)
    (currency : Currency) (td : TransactionDict)
    : M (string * MonoTransaction) :=
  db ← get_db;
  try_except
    (get_one MonoTransactionModel
       (filter (λ e, lookup_matches account mcc currency td e)
          (map_to_list (mono_transactions db))))
    (is_exn (DoesNotExist MonoTransactionModel))
    (match new_row account mcc currency td with
     | None => raise IntegrityError
     | Some (id, row) =>
         match mono_transactions db !! id with
         | Some _ => raise IntegrityError
         | None =>
             modify_db
               (set_mono_transactions (<[id := row]> (mono_transactions db)));;
             mret (id, row)
         end
     end).

(** [MonoTransaction.create_transaction_from_webhook] *)
Definition create_transaction_from_webhook (card_id : string)
    (transaction_data : TransactionDict) : M unit :=
  account ← get_by_id MonoCardModel mono_cards (Some card_id);
  mcc ← resolve_mcc transaction_data;
  currency_code ← pop (td_currency_code transaction_data);
  currency ← resolve_currency currency_code;
  try_except
    (get_or_create account.1 mcc currency transaction_data;; mret tt)
    (is_exn IntegrityError)
    (mret tt).

End MonoTransaction.

Module JarTransaction.

Definition lookup_matches (account : string) (mcc : CategoryMSO)
    (currency : Currency) (td : TransactionDict)
    (entry : string * JarTransaction) : bool :=
  let '(id, t) := entry in
  bool_decide (jtx_account t = account) &&
  bool_decide (jtx_mcc t = mso_pk mcc) &&
  bool_decide (jtx_currency t = Some (cur_pk currency)) &&
  kw_eq (td_id td) id &&
  kw_eq (td_time td) (jtx_time t) &&
  kw_eq_null (td_description td) (jtx_description t) &&
  kw_eq_null (td_original_mcc td) (jtx_original_mcc t) &&
  kw_eq (td_amount td) (jtx_amount t) &&
  kw_eq_null (td_operation_amount td) (jtx_operation_amount t) &&
  kw_eq_null (td_commission_rate td) (jtx_commission_rate t) &&
  kw_eq (td_cashback_amount td) (jtx_cashback_amount t) &&
  kw_eq (td_balance td) (jtx_balance t) &&
  kw_eq (td_hold td) (jtx_hold t) &&
  kw_eq_null (td_comment td) (jtx_comment t).

Definition new_row (account : string) (mcc : CategoryMSO)
    (currency : Currency) (td : TransactionDict)
    : option (string * JarTransaction) :=
  time ← td_time td;
  amount ← td_amount td;
  balance ← td_balance td;
  hold ← td_hold td;
  cashback_amount ← td_cashback_amount td;
  Some (default "" (td_id td),
        {| jtx_account := account;
           jtx_time := time;
           jtx_description := td_description td;
           jtx_mcc := mso_pk mcc;
           jtx_original_mcc := td_original_mcc td;
           jtx_amount := amount;
           jtx_operation_amount := td_operation_amount td;
           jtx_currency := Some (cur_pk currency);
           jtx_commission_rate := td_commission_rate td;
           jtx_cashback_amount := cashback_amount;
           jtx_balance := balance;
           jtx_hold := hold;
           jtx_comment := td_comment td |}).

(** [JarTransaction.objects.get_or_create(account=.., mcc=..,
    currency=.., **transaction_data)]; the model has no field
    [receipt_id]. *)
Definition get_or_create (account : string) (mcc : CategoryMSO)
    (currency : Currency) (td : TransactionDict)
    : M (string * JarTransaction) :=
  db ← get_db;
  if bool_decide (is_Some (td_receipt_id td)) then raise FieldError
  else
    try_except
      (get_one JarTransactionModel
         (filter (λ e, lookup_matches account mcc currency td e)
            (map_to_list (jar_transactions db))))
      (is_exn (DoesNotExist JarTransactionModel))
      (match new_row account mcc currency td with
       | None => raise IntegrityError
       | Some (id, row) =>
           match jar_transactions db !! id with
           | Some _ => raise IntegrityError
           | None =>
               modify_db
                 (set_jar_transactions (<[id := row]> (jar_transactions db)));;
               mret (id, row)
           end
       end).

(** [JarTransaction.create_jar_transaction_from_webhook] *)
Definition create_jar_transaction_from_webhook (card_id : string)
    (transaction_data : TransactionDict) : M unit :=
  account ← get_by_id MonoJarModel mono_jars (Some card_id);
  mcc ← resolve_mcc transaction_data;
  currency_code ← pop (td_currency_code transaction_data);
  currency ← resolve_currency currency_code;
  get_or_create account.1 mcc currency transaction_data;;
  mret tt.

End JarTransaction.

Module MonoAccount.

(** [not data] for the optional dictionary of [create_cards_jars]. *)
Definition falsy (data : option ClientInfo) : bool :=
  match data with
  | None => true
  | Some d =>
      negb (bool_decide (is_Some (ci_accounts d))) &&
      negb (bool_decide (is_Some (ci_jars d))) && negb (ci_other d)
  end.

(** [MonoAccount.get_cards_jars] *)
Definition get_cards_jars (bank : BankAPI) (self : MonoAccount)
    : M ClientInfo :=
  lift (client_info bank (acc_mono_token self)).

(** [[x.get("id") for x in xs if x.get("id")]] *)
Definition truthy_ids {A} (get_id : A → option string) (xs : list A)
    : list string :=
  omap (λ x, if truthy_str (get_id x) then get_id x else None) xs.

(** [MonoCard.objects.filter(monoaccount=self)
     .exclude(id__in=active_card_ids).update(is_active=False)] *)
Definition deactivate_card (self : MonoAccount)
    (active_card_ids : list string) (id : string) (c : MonoCard)
    : MonoCard :=
  if bool_decide (card_monoaccount c = acc_pk self) &&
     negb (bool_decide (id ∈ active_card_ids))
  then
    {| card_monoaccount := card_monoaccount c;
       card_send_id := card_send_id c;
       card_currency := card_currency c;
       card_cashback_type := card_cashback_type c;
       card_balance := card_balance c;
       card_credit_limit := card_credit_limit c;
       card_masked_pan := card_masked_pan c;
       card_type := card_type c;
       card_iban := card_iban c;
       card_is_active := false |}
  else c.

Definition deactivate_jar (self : MonoAccount)
    (active_jar_ids : list string) (id : string) (j : MonoJar) : MonoJar :=
  if bool_decide (jar_monoaccount j = acc_pk self) &&
     negb (bool_decide (id ∈ active_jar_ids))
  then
    {| jar_monoaccount := jar_monoaccount j;
       jar_send_id := jar_send_id j;
       jar_title := jar_title j;
       jar_currency := jar_currency j;
       jar_balance := jar_balance j;
       jar_goal := jar_goal j;
       jar_is_budget := jar_is_budget j;
       jar_is_active := false;
       jar_invested := jar_invested j |}
  else j.

(** [MonoAccount.create_cards_jars] *)
Definition create_cards_jars (bank : BankAPI) (self : MonoAccount)
    (data : option ClientInfo) : M unit :=
  data ←
    (if falsy data then get_cards_jars bank self
     else match data with
          | Some d => mret d
          | None => get_cards_jars bank self
          end);
  let cards := default [] (ci_accounts data) in
  let jars := default [] (ci_jars data) in
  let active_card_ids := truthy_ids cd_id cards in
  let active_jar_ids := truthy_ids jd_id jars in
  db ← get_db;
  modify_db
    (set_mono_cards
       (map_imap (λ id c, Some (deactivate_card self active_card_ids id c))
          (mono_cards db)));;
  db ← get_db;
  modify_db
    (set_mono_jars
       (map_imap (λ id j, Some (deactivate_jar self active_jar_ids id j))
          (mono_jars db)));;
  for_each cards (λ card,
    apply_async
      (Task_create_card_from_webhook (acc_user_tg_id self) card true));;
  for_each jars (λ jar,
    apply_async
      (Task_create_jar_from_webhook (acc_user_tg_id self) jar true)).

End MonoAccount.

(** ** The REST layer (views.py) *)

(** *** Strings of query parameters *)

(** [s.split(",")] *)
Fixpoint split_comma_go (cur : string) (s : string) : list string :=
  match s with
  | EmptyString => [String.rev cur]
  | String c s' =>
      if Ascii.eqb c ","%char
      then String.rev cur :: split_comma_go EmptyString s'
      else split_comma_go (String c cur) s'
  end.

Definition split_comma (s : string) : list string :=
  split_comma_go EmptyString s.

(** [c.lower()] on ASCII letters. *)
Definition lower_ascii (c : ascii) : ascii :=
  let n := N_of_ascii c in
  if ((65 <=? n) && (n <=? 90))%N then ascii_of_N (n + 32) else c.

Fixpoint lower (s : string) : string :=
  match s with
  | EmptyString => EmptyString
  | String c s' => String (lower_ascii c) (lower s')
  end.

(** [str(v).lower() in ("1", "true", "yes") if v is not None else False] *)
Definition flag_param (v : option string) : bool :=
  match v with
  | Some s => bool_decide (lower s ∈ ["1"; "true"; "yes"])
  | None => false
  end.

(** *** Users and requests *)

Record User : Type := {
  tg_id : string;
  is_superuser : bool
}.

(** The family links of account/models.py, which is not among the
    sources at hand, enter through the two methods that the views call:
    [get_related_tg_ids u] is
    [u.get_related_tg_ids(include_self=True, recursive=False)], and
    [expand_tg_ids_with_family ids] is
    [User.expand_tg_ids_with_family(ids)], which may raise. *)
Record FamilyLinks : Type := {
  get_related_tg_ids : User → list string;
  expand_tg_ids_with_family : list string → result (list string)
}.

Record Request : Type := {
  user : User;
  action : string;
  q_users : option string;
  q_with_family : option string;
  q_is_budget : option string;
  q_cards : option string;
  q_jars : option string;
  q_time_from : option string
}.

Inductive ResponseData : Type :=
  | NoData
  | ErrorData (error : string)
  | SummaryData (summary : MonoJar.Summary).

Record Response : Type := {
  status : Z;
  data : ResponseData
}.

(** *** MonoBankAccessMixin *)

(** [try: ids = User.expand_tg_ids_with_family(ids)
     except Exception: pass] *)
Definition expand_or_keep (fam : FamilyLinks) (ids : list string)
    : list string :=
  match expand_tg_ids_with_family fam ids with
  | Ok expanded => expanded
  | Raise _ => ids
  end.

(** [MonoBankAccessMixin.get_accessible_user_tg_ids]: [None] stands for
    no filtering. *)
Definition get_accessible_user_tg_ids (fam : FamilyLinks) (request : Request)
    (users_param : option string) (with_family : bool)
    : option (list string) :=
  if is_superuser (user request) then
    if truthy_str users_param && bool_decide (action request = "list")
    then
      let user_ids := split_comma (default "" users_param) in
      let user_ids :=
        if with_family then expand_or_keep fam user_ids else user_ids in
      Some user_ids
    else None
  else
    let accessible_ids : gset string :=
      list_to_set (get_related_tg_ids fam (user request)) in
    if truthy_str users_param then
      let requested_ids : gset string :=
        list_to_set (split_comma (default "" users_param)) in
      let requested_ids : gset string :=
        if with_family
        then list_to_set (expand_or_keep fam (elements requested_ids))
        else requested_ids in
      Some (elements (requested_ids ∩ accessible_ids))
    else Some (elements accessible_ids).

(** [monoaccount__user__tg_id]: the tg_id of the user owning the
    account with the key [pk], through the inner joins of the ORM. *)
Definition owner_tg_id (db : DB) (pk : Z) : option string :=
  acc_user_tg_id <$> head (filter (λ a, acc_pk a = pk) (mono_accounts db)).

(** [queryset.filter(<owner>__tg_id__in=accessible_tg_ids)], when
    [accessible_tg_ids] is not [None]. *)
Definition owned_by (db : DB) (accessible_tg_ids : option (list string))
    (pk : option Z) : Prop :=
  match accessible_tg_ids with
  | None => True
  | Some ids =>
      match pk ≫= owner_tg_id db with
      | Some tg => tg ∈ ids
      | None => False
      end
  end.

#[global] Instance owned_by_dec db ids pk : Decision (owned_by db ids pk).
Proof. unfold owned_by. destruct ids; [destruct (_ ≫= _)|]; apply _. Defined.

(** [order_by("id")] *)
Definition by_id {A} (a b : string * A) : Prop := String.le a.1 b.1.

#[global] Instance by_id_dec {A} : RelDecision (@by_id A).
Proof. intros a b. unfold by_id. apply _. Defined.

Module MonoCardViewSet.

(** [MonoCardViewSet.get_queryset] *)
Definition get_queryset (fam : FamilyLinks) (db : DB) (request : Request)
    : list (string * MonoCard) :=
  let users := q_users request in
  let queryset :=
    merge_sort by_id
      (filter (λ e, card_is_active e.2 = true)
         (map_to_list (mono_cards db))) in
  let accessible_tg_ids :=
    get_accessible_user_tg_ids fam request users false in
  filter (λ e, owned_by db accessible_tg_ids (Some (card_monoaccount e.2)))
    queryset.

End MonoCardViewSet.

Module MonoJarViewSet.

(** [MonoJarViewSet.get_queryset] *)
Definition get_queryset (fam : FamilyLinks) (db : DB) (request : Request)
    : list (string * MonoJar) :=
  let users := q_users request in
  let is_budget := q_is_budget request in
  let with_family_bool := flag_param (q_with_family request) in
  let queryset :=
    merge_sort by_id
      (filter (λ e, jar_is_active e.2 = true)
         (map_to_list (mono_jars db))) in
  let accessible_tg_ids :=
    get_accessible_user_tg_ids fam request users with_family_bool in
  let queryset :=
    filter (λ e, owned_by db accessible_tg_ids (Some (jar_monoaccount e.2)))
      queryset in
  match is_budget with
  | Some _ =>
      let is_budget_bool := flag_param is_budget in
      filter (λ e, jar_is_budget e.2 = is_budget_bool) queryset
  | None => queryset
  end.

(** [MonoJarViewSet.available_months], for the [jar] that
    [self.get_object()] returned. *)
Definition available_months (rt : Runtime) (db : DB) (jar : string)
    : result (list date) :=
  MonoJar.get_available_months rt db jar.

(** [MonoJarViewSet.month_summary], for the [jar] that
    [self.get_object()] returned and the query parameter [month];
    [Raise] is an exception that leaves the view. *)
Definition month_summary (rt : Runtime) (db : DB) (jar : string)
    (month_str : option string) : result Response :=
  if negb (truthy_str month_str) then
    Ok {| status := 400;
          data := ErrorData
                    "query param 'month' is required (e.g. 2025-07-01)" |}
  else
    match strptime rt (default "" month_str) with
    | Raise _ =>
        Ok {| status := 400;
              data := ErrorData
                        "invalid 'month' format, expected YYYY-MM-01" |}
    | Ok parsed =>
        if negb (day parsed =? 1) then
          Ok {| status := 400;
                data := ErrorData
                  "month must be the first day of month: YYYY-MM-01" |}
        else
          summary ← MonoJar.get_month_summary rt db jar (inr parsed);
          Ok {| status := 200; data := SummaryData summary |}
    end.

End MonoJarViewSet.

Module MonoJarTransactionViewSet.

(** [order_by("-time", "id")] *)
Definition by_time_desc_id (a b : string * JarTransaction) : Prop :=
  jtx_time b.2 < jtx_time a.2 ∨
  (jtx_time a.2 = jtx_time b.2 ∧ String.le a.1 b.1).

#[global] Instance by_time_desc_id_dec : RelDecision by_time_desc_id.
Proof. intros a b. unfold by_time_desc_id. apply _. Defined.

(** [MonoJarTransactionViewSet.get_queryset] *)
Definition get_queryset (rt : Runtime) (fam : FamilyLinks) (db : DB)
    (request : Request) : list (string * JarTransaction) :=
  let users := q_users request in
  let jar_ids := q_jars request in
  let time_from := q_time_from request in
  let queryset :=
    merge_sort by_time_desc_id (map_to_list (jar_transactions db)) in
  let queryset :=
    if truthy_str jar_ids
    then filter (λ e, jtx_account e.2 ∈ split_comma (default "" jar_ids))
           queryset
    else queryset in
  let queryset :=
    if truthy_str time_from then
      match strptime rt (default "" time_from) with
      | Ok dt =>
          let epoch_from := midnight_timestamp (mktime rt) dt in
          filter (λ e, epoch_from ≤ jtx_time e.2) queryset
      | Raise _ => queryset
      end
    else queryset in
  let accessible_tg_ids :=
    get_accessible_user_tg_ids fam request users false in
  filter
    (λ e, owned_by db accessible_tg_ids
            (jar_monoaccount <$> mono_jars db !! jtx_account e.2))
    queryset.

End MonoJarTransactionViewSet.

Module MonoTransactionViewSet.

(** [order_by("-time", "id")] *)
Definition by_time_desc_id (a b : string * MonoTransaction) : Prop :=
  tx_time b.2 < tx_time a.2 ∨
  (tx_time a.2 = tx_time b.2 ∧ String.le a.1 b.1).

#[global] Instance by_time_desc_id_dec : RelDecision by_time_desc_id.
Proof. intros a b. unfold by_time_desc_id. apply _. Defined.

(** [MonoTransactionViewSet.get_queryset] *)
Definition get_queryset (fam : FamilyLinks) (db : DB) (request : Request)
    : list (string * MonoTransaction) :=
  let users := q_users request in
  let card_ids := q_cards request in
  let queryset :=
    merge_sort by_time_desc_id (map_to_list (mono_transactions db)) in
  let queryset :=
    if truthy_str card_ids
    then filter (λ e, tx_account e.2 ∈ split_comma (default "" card_ids))
           queryset
    else queryset in
  let accessible_tg_ids :=
    get_accessible_user_tg_ids fam request users false in
  filter
    (λ e, owned_by db accessible_tg_ids
            (card_monoaccount <$> mono_cards db !! tx_account e.2))
    queryset.

End MonoTransactionViewSet.

(** *** The transaction webhook *)

(** The body of a webhook request after [TransactionData.parse_obj]
    (monobank/pydantic.py, which is not among the sources at hand): the
    card or jar instance that the body names, and the statement item
    with its [CategoryMSO] and [Currency] resolved to rows. *)
Inductive Account : Type :=
  | CardAccount (id : string) (card : MonoCard)
  | JarAccount (id : string) (jar : MonoJar).

Record StatementItem : Type := {
  si_id : string;
  si_time : Z;
  si_description : option string;
  si_mcc : Z;
  si_original_mcc : option Z;
  si_amount : Z;
  si_operation_amount : option Z;
  si_currency : option Z;
  si_commission_rate : option Z;
  si_balance : Z;
  si_hold : bool;
  si_receipt_id : option string;
  si_cashback_amount : Z;
  si_comment : option string
}.

Record TransactionData : Type := {
  account : Account;
  statement_item : StatementItem
}.

Module TransactionWebhookApiView.

Definition account_id (a : Account) : string :=
  match a with CardAccount id _ => id | JarAccount id _ => id end.

(** [account.monoaccount] *)
Definition account_monoaccount (a : Account) : Z :=
  match a with
  | CardAccount _ card => card_monoaccount card
  | JarAccount _ jar => jar_monoaccount jar
  end.

(** [TransactionWebhookApiView._process_card_transaction];
    [transaction.save()] writes the row under its [id]. *)
Definition _process_card_transaction (transaction_data : TransactionData)
    : M unit :=
  let statement_item := statement_item transaction_data in
  let transaction :=
    {| tx_account := account_id (account transaction_data);
       tx_time := si_time statement_item;
       tx_description := si_description statement_item;
       tx_mcc := si_mcc statement_item;
       tx_original_mcc := si_original_mcc statement_item;
       tx_amount := si_amount statement_item;
       tx_operation_amount := si_operation_amount statement_item;
       tx_currency := si_currency statement_item;
       tx_commission_rate := si_commission_rate statement_item;
       tx_balance := si_balance statement_item;
       tx_hold := si_hold statement_item;
       tx_receipt_id := si_receipt_id statement_item;
       tx_cashback_amount := si_cashback_amount statement_item;
       tx_comment := si_comment statement_item |} in
  db ← get_db;
  modify_db
    (set_mono_transactions
       (<[si_id statement_item := transaction]> (mono_transactions db))).

(** [TransactionWebhookApiView._process_jar_transaction]; the comment
    of the statement item is not passed on. *)
Definition _process_jar_transaction (transaction_data : TransactionData)
    : M unit :=
  let statement_item := statement_item transaction_data in
  let transaction :=
    {| jtx_account := account_id (account transaction_data);
       jtx_time := si_time statement_item;
       jtx_description := si_description statement_item;
       jtx_mcc := si_mcc statement_item;
       jtx_original_mcc := si_original_mcc statement_item;
       jtx_amount := si_amount statement_item;
       jtx_operation_amount := si_operation_amount statement_item;
       jtx_currency := si_currency statement_item;
       jtx_commission_rate := si_commission_rate statement_item;
       jtx_balance := si_balance statement_item;
       jtx_hold := si_hold statement_item;
       jtx_cashback_amount := si_cashback_amount statement_item;
       jtx_comment := None |} in
  db ← get_db;
  modify_db
    (set_jar_transactions
       (<[si_id statement_item := transaction]> (jar_transactions db))).

Definition is_ValidationError (e : exn) : bool :=
  match e with ValidationError => true | _ => false end.

Definition is_MonoDataNotFound (e : exn) : bool :=
  match e with MonoDataNotFound _ => true | _ => false end.

(** The handler of [except MonoDataNotFound as err]. *)
Definition not_found_response (e : exn) : Response :=
  {| status := 404;
     data := ErrorData
       ("Some data not found: " +:+
        match e with MonoDataNotFound msg => msg | _ => "" end) |}.

(** [TransactionWebhookApiView.post]: [user_key] is the query parameter
    "token" and [parse_obj] the outcome of
    [TransactionData.parse_obj(request.data)]. A result [Raise] is an
    exception that leaves the view. *)
Definition post (user_key : option string)
    (parse_obj : result TransactionData) : M Response :=
  if negb (truthy_str user_key) then
    mret {| status := 403;
            data := ErrorData "token query param is not specified" |}
  else
    let body : M Response :=
      parsed_data ← lift parse_obj;
      monoaccount ←
        MonoAccount_get_by_pk (account_monoaccount (account parsed_data));
      if negb (String.eqb (acc_mono_token monoaccount)
                 (default "" user_key))
      then
        mret {| status := 403;
                data := ErrorData "invalid token or account missmatch" |}
      else
        db ← get_db;
        match account parsed_data with
        | CardAccount _ _ =>
            if bool_decide
                 (is_Some (mono_transactions db
                             !! si_id (statement_item parsed_data)))
            then mret {| status := 200; data := NoData |}
            else
              _process_card_transaction parsed_data;;
              mret {| status := 201; data := NoData |}
        | JarAccount _ _ =>
            if bool_decide
                 (is_Some (jar_transactions db
                             !! si_id (statement_item parsed_data)))
            then mret {| status := 200; data := NoData |}
            else
              _process_jar_transaction parsed_data;;
              mret {| status := 201; data := NoData |}
        end in
    fun db =>
      match body db with
      | (Raise e, db') =>
          if is_ValidationError e then
            (Ok {| status := 422;
                   data := ErrorData "Wrong request structure" |}, db')
          else if is_MonoDataNotFound e then (Ok (not_found_response e), db')
          else (Raise e, db')
      | r => r
      end.

End TransactionWebhookApiView.

(** ** Definitions used to state the properties *)

(** [datetime.strptime(s, "%Y-%m-%d").date()] on ASCII strings, after
    the regular expression that [_strptime] builds for the format:
    four digits, a month [1[0-2]|0[1-9]|[1-9]], a day
    [3[01]|[12]\d|0[1-9]|[1-9]| [1-9]], nothing more, and then the
    checks of the [date] constructor. *)
Definition digit_val (c : ascii) : option Z :=
  let n := N_of_ascii c in
  if ((48 <=? n) && (n <=? 57))%N then Some (Z.of_N n - 48) else None.

Definition digit_in (lo hi : Z) (c : ascii) : option Z :=
  match digit_val c with
  | Some v => if (lo <=? v) && (v <=? hi) then Some v else None
  | None => None
  end.

Definition parse_year (l : list ascii) : option (Z * list ascii) :=
  match l with
  | c1 :: c2 :: c3 :: c4 :: r =>
      d1 ← digit_val c1; d2 ← digit_val c2;
      d3 ← digit_val c3; d4 ← digit_val c4;
      Some (d1 * 1000 + d2 * 100 + d3 * 10 + d4, r)
  | _ => None
  end.

Definition dash : ascii := "-"%char.

Definition parse_dash (l : list ascii) : option (list ascii) :=
  match l with
  | c :: r => if Ascii.eqb c dash then Some r else None
  | [] => None
  end.

(** The month and the dash after it: the alternatives in their order,
    each to be followed by the dash. *)
Definition parse_month (l : list ascii) : option (Z * list ascii) :=
  let two (lo1 hi1 lo2 hi2 : Z) :=
    match l with
    | c1 :: c2 :: r =>
        d1 ← digit_in lo1 hi1 c1; d2 ← digit_in lo2 hi2 c2;
        r' ← parse_dash r; Some (d1 * 10 + d2, r')
    | _ => None
    end in
  let one :=
    match l with
    | c1 :: r => d1 ← digit_in 1 9 c1; r' ← parse_dash r; Some (d1, r')
    | _ => None
    end in
  match two 1 1 0 2 with
  | Some v => Some v
  | None =>
      match two 0 0 1 9 with
      | Some v => Some v
      | None => one
      end
  end.

(** The day: the first alternative that matches. *)
Definition parse_day (l : list ascii) : option (Z * list ascii) :=
  let two (lo1 hi1 lo2 hi2 : Z) :=
    match l with
    | c1 :: c2 :: r =>
        d1 ← digit_in lo1 hi1 c1; d2 ← digit_in lo2 hi2 c2;
        Some (d1 * 10 + d2, r)
    | _ => None
    end in
  let one :=
    match l with
    | c1 :: r => d1 ← digit_in 1 9 c1; Some (d1, r)
    | _ => None
    end in
  let space_one :=
    match l with
    | c1 :: c2 :: r =>
        if Ascii.eqb c1 " "%char
        then d2 ← digit_in 1 9 c2; Some (d2, r)
        else None
    | _ => None
    end in
  match two 3 3 0 1 with
  | Some v => Some v
  | None =>
      match two 1 2 0 9 with
      | Some v => Some v
      | None =>
          match two 0 0 1 9 with
          | Some v => Some v
          | None =>
              match one with
              | Some v => Some v
              | None => space_one
              end
          end
      end
  end.

Definition strptime_ascii (s : string) : result date :=
  let parsed :=
    '(y, r) ← parse_year (list_ascii_of_string s);
    r ← parse_dash r;
    '(m, r) ← parse_month r;
    '(d, r) ← parse_day r;
    if bool_decide (r = []) then Some (y, m, d) else None in
  match parsed with
  | Some (y, m, d) => date_new y m d
  | None => Raise ValueError
  end.

(** A process whose time zone is UTC. *)
Definition utc_runtime : Runtime :=
  {| utcoffset := λ _, 0; mktime := λ l, l; strptime := strptime_ascii |}.

(** A process in a zone with the fixed offset [off], in seconds east of
    UTC. *)
Definition fixed_offset_runtime (off : Z) : Runtime :=
  {| utcoffset := λ _, off; mktime := λ l, l - off;
     strptime := strptime_ascii |}.

(** The month after the month of [d], as [get_month_summary] steps to
    it. *)
Definition next_month (d : date) : Z * Z :=
  if month d =? 12 then (year d + 1, 1) else (year d, month d + 1).

(** The timestamps at which the month of [d] starts and ends for
    [get_month_summary]: local midnight of its first day and of the first
    day of the next month. *)
Definition month_start_ts (rt : Runtime) (d : date) : Z :=
  midnight_timestamp (mktime rt) (Date (year d) (month d) 1).

Definition month_end_ts (rt : Runtime) (d : date) : Z :=
  midnight_timestamp (mktime rt)
    (Date (next_month d).1 (next_month d).2 1).

(** [e] is a stored transaction of the jar [self] in the month of
    [d]. *)
Definition in_month (rt : Runtime) (db : DB) (self : string) (d : date)
    (e : string * JarTransaction) : Prop :=
  jar_transactions db !! e.1 = Some e.2 ∧ jtx_account e.2 = self ∧
  month_start_ts rt d ≤ jtx_time e.2 < month_end_ts rt d.

(** December 9999, the last month of [datetime.date]. *)
Definition last_month (d : date) : Prop := year d = MAXYEAR ∧ month d = 12.

(** The summary of a month without transactions. *)
Definition zero_summary : MonoJar.Summary :=
  {| MonoJar.start_balance := 0; MonoJar.budget := 0;
     MonoJar.end_balance := 0; MonoJar.spent := 0 |}.

(** An empty database. *)
Definition empty_db : DB :=
  {| currencies := []; categories := []; category_msos := [];
     mono_accounts := []; mono_cards := ∅; mono_jars := ∅;
     mono_transactions := ∅; jar_transactions := ∅; celery_queue := [] |}.

(** What the docstring of [get_month_summary] promises of the summary
    [s] of the month of [d]: the balances of the earliest and of the
    latest transaction of the month (by time, then id), the largest
    positive amount of the month or 0 as budget, and what was spent. *)
Definition summarises (rt : Runtime) (db : DB) (self : string) (d : date)
    (s : MonoJar.Summary) : Prop :=
  (∃ first_tx,
     in_month rt db self d first_tx ∧
     (∀ e, in_month rt db self d e → MonoJar.by_time_id first_tx e) ∧
     MonoJar.start_balance s = jtx_balance first_tx.2) ∧
  (∃ last_tx,
     in_month rt db self d last_tx ∧
     (∀ e, in_month rt db self d e → MonoJar.by_time_id e last_tx) ∧
     MonoJar.end_balance s = jtx_balance last_tx.2) ∧
  ((MonoJar.budget s = 0 ∧
    ∀ e, in_month rt db self d e → jtx_amount e.2 ≤ 0) ∨
   (0 < MonoJar.budget s ∧
    (∃ e, in_month rt db self d e ∧ jtx_amount e.2 = MonoJar.budget s) ∧
    ∀ e, in_month rt db self d e → jtx_amount e.2 ≤ MonoJar.budget s)) ∧
  MonoJar.spent s =
    MonoJar.start_balance s - MonoJar.end_balance s - MonoJar.budget s.

(** The jar [self] has a stored transaction whose time, read in local
    time, falls in the month [m] of the year [y]. *)
Definition has_transaction_in (rt : Runtime) (db : DB) (self : string)
    (y m : Z) : Prop :=
  ∃ (e : string * JarTransaction) (dt : datetime),
    jar_transactions db !! e.1 = Some e.2 ∧ jtx_account e.2 = self ∧
    fromtimestamp (utcoffset rt) (jtx_time e.2) = Ok dt ∧
    year (dt_date dt) = y ∧ month (dt_date dt) = m.

(** Every stored transaction of the jar [self] has a time that
    [datetime.fromtimestamp] can represent. *)
Definition times_representable (rt : Runtime) (db : DB) (self : string)
    : Prop :=
  ∀ (id : string) (tx : JarTransaction),
    jar_transactions db !! id = Some tx → jtx_account tx = self →
    ∃ dt, fromtimestamp (utcoffset rt) (jtx_time tx) = Ok dt.

(** The statement item of [td] is already stored: as a
    [MonoTransaction] when [td] names a card, as a [JarTransaction] when
    it names a jar. *)
Definition already_stored (db : DB) (td : TransactionData) : Prop :=
  match account td with
  | CardAccount _ _ =>
      is_Some (mono_transactions db !! si_id (statement_item td))
  | JarAccount _ _ =>
      is_Some (jar_transactions db !! si_id (statement_item td))
  end.

(** A valid request to the webhook: a token, a body that parses to
    [td], and the token is that of the [MonoAccount] that owns the
    account of [td]. *)
Definition valid_post (db : DB) (user_key : option string)
    (parse_obj : result TransactionData) (td : TransactionData) : Prop :=
  ∃ (k : string) (owner : MonoAccount),
    user_key = Some k ∧ k ≠ "" ∧ parse_obj = Ok td ∧
    MonoAccount_get_by_pk
      (TransactionWebhookApiView.account_monoaccount (account td)) db =
      (Ok owner, db) ∧
    acc_mono_token owner = k.

(** A request whose token is not that of the owner of the account that
    the body names. *)
Definition foreign_token (db : DB) (user_key : option string)
    (parse_obj : result TransactionData) : Prop :=
  ∃ (k : string) (td : TransactionData) (owner : MonoAccount),
    user_key = Some k ∧ parse_obj = Ok td ∧
    MonoAccount_get_by_pk
      (TransactionWebhookApiView.account_monoaccount (account td)) db =
      (Ok owner, db) ∧
    acc_mono_token owner ≠ k.

(** [db'] holds exactly one transaction more than [db]: the statement
    item of [td], in the table of its kind of account. *)
Definition one_new_transaction (db db' : DB) (td : TransactionData) : Prop :=
  let id := si_id (statement_item td) in
  match account td with
  | CardAccount _ _ =>
      mono_transactions db !! id = None ∧
      is_Some (mono_transactions db' !! id) ∧
      (∀ i, i ≠ id → mono_transactions db' !! i = mono_transactions db !! i) ∧
      size (mono_transactions db') = S (size (mono_transactions db)) ∧
      jar_transactions db' = jar_transactions db
  | JarAccount _ _ =>
      jar_transactions db !! id = None ∧
      is_Some (jar_transactions db' !! id) ∧
      (∀ i, i ≠ id → jar_transactions db' !! i = jar_transactions db !! i) ∧
      size (jar_transactions db') = S (size (jar_transactions db)) ∧
      mono_transactions db' = mono_transactions db
  end.

(** The tg_ids that a request asks for with the non-empty parameter
    [users = s]: the items of [s], expanded through the family links
    when [with_family] is set and the expansion does not fail. *)
Definition requested_tg_ids (fam : FamilyLinks) (s : string)
    (with_family : bool) : list string :=
  if with_family then
    match expand_tg_ids_with_family fam
            (elements (list_to_set (split_comma s) : gset string)) with
    | Ok expanded => expanded
    | Raise _ => split_comma s
    end
  else split_comma s.

(** The user with the tg_id [tg] owns the account with the key [pk]. *)
Definition owned_by_tg_id (db : DB) (pk : option Z) (tg : string) : Prop :=
  pk ≫= owner_tg_id db = Some tg.

(** The database up to its queue of messages. *)
Definition same_tables (db db' : DB) : Prop :=
  currencies db' = currencies db ∧ categories db' = categories db ∧
  category_msos db' = category_msos db ∧
  mono_accounts db' = mono_accounts db ∧ mono_cards db' = mono_cards db ∧
  mono_jars db' = mono_jars db ∧
  mono_transactions db' = mono_transactions db ∧
  jar_transactions db' = jar_transactions db.

(** The row [c] carries every field that the payload [cd] has. *)
Definition card_carries (cd : CardData) (c : MonoCard) : Prop :=
  (∀ v, cd_send_id cd = Some v → card_send_id c = v) ∧
  (∀ v, cd_cashback_type cd = Some v → card_cashback_type c = v) ∧
  (∀ v, cd_balance cd = Some v → card_balance c = v) ∧
  (∀ v, cd_credit_limit cd = Some v → card_credit_limit c = v) ∧
  (∀ v, cd_masked_pan cd = Some v → card_masked_pan c = Some v) ∧
  (∀ v, cd_type cd = Some v → card_type c = v) ∧
  (∀ v, cd_iban cd = Some v → card_iban c = v).

Definition jar_carries (jd : JarData) (j : MonoJar) : Prop :=
  (∀ v, jd_send_id jd = Some v → jar_send_id j = v) ∧
  (∀ v, jd_title jd = Some v → jar_title j = v) ∧
  (∀ v, jd_balance jd = Some v → jar_balance j = v) ∧
  (∀ v, jd_goal jd = Some v → jar_goal j = Some v).

(** A card payload of the bank API: it has the keys "id" and
    "currency_code" and the columns without default, "balance" and
    "credit_limit". *)
Definition card_payload (cd : CardData) (id : string) (code : Z) : Prop :=
  cd_id cd = Some id ∧ cd_currency_code cd = Some code ∧
  is_Some (cd_balance cd) ∧ is_Some (cd_credit_limit cd).

(** A jar payload of the bank API: it has the keys "id", "description"
    and "currency_code" and the column without default, "balance". *)
Definition jar_payload (jd : JarData) (id : string) (code : Z) : Prop :=
  jd_id jd = Some id ∧ is_Some (jd_description jd) ∧
  jd_currency_code jd = Some code ∧ is_Some (jd_balance jd).

(** The constraints that the database keeps: the codes of the currencies
    and the merchant codes are unique, and so are the names of the
    categories. *)
Definition unique_columns (db : DB) : Prop :=
  NoDup (cur_code <$> currencies db) ∧
  NoDup (mso_mso <$> category_msos db) ∧
  NoDup (cat_name <$> categories db).

(** From [db] to [db'], the currency code [code] was resolved to the row
    with the key [pk]: a row that was stored already, the table being
    unchanged, or one new row with the name "XXX". *)
Definition currency_resolved (db db' : DB) (code pk : Z) : Prop :=
  ∃ cur,
    cur ∈ currencies db' ∧ cur_code cur = code ∧ cur_pk cur = pk ∧
    ((cur ∈ currencies db ∧ currencies db' = currencies db) ∨
     ((code ∉ cur_code <$> currencies db) ∧ cur_name cur = "XXX" ∧
      currencies db' = currencies db ++ [cur])).

(** From [db] to [db'], the merchant code [mso] was resolved to the
    [CategoryMSO] with the key [pk]: a row that was stored already, the
    tables being unchanged, or one new row under the category "Інше". *)
Definition mcc_resolved (db db' : DB) (mso pk : Z) : Prop :=
  ∃ m,
    m ∈ category_msos db' ∧ mso_mso m = mso ∧ mso_pk m = pk ∧
    ((m ∈ category_msos db ∧ category_msos db' = category_msos db ∧
      categories db' = categories db) ∨
     ((mso ∉ mso_mso <$> category_msos db) ∧
      category_msos db' = category_msos db ++ [m] ∧
      ∃ cat, cat ∈ categories db' ∧ cat_name cat = OTHER_CATEGORY ∧
             mso_category m = cat_pk cat)).

(** A statement item of the bank API for a transaction that is not
    stored yet: it has the keys "id", "mcc" and "currency_code" and the
    columns without default. *)
Definition statement_payload (td : TransactionDict) (id : string)
    (mso code : Z) : Prop :=
  td_id td = Some id ∧ td_mcc td = Some mso ∧
  td_currency_code td = Some code ∧
  is_Some (td_time td) ∧ is_Some (td_amount td) ∧
  is_Some (td_balance td) ∧ is_Some (td_hold td) ∧
  is_Some (td_cashback_amount td).

(** *** Sample data *)

Definition sample_jar_transaction (account : string) (time amount balance : Z)
    : JarTransaction :=
  {| jtx_account := account; jtx_time := time; jtx_description := None;
     jtx_mcc := 1; jtx_original_mcc := None; jtx_amount := amount;
     jtx_operation_amount := None; jtx_currency := Some 1;
     jtx_commission_rate := None; jtx_cashback_amount := 0;
     jtx_balance := balance; jtx_hold := false; jtx_comment := None |}.

(** A jar with three transactions in January 1970 and one in February,
    next to a transaction of another jar. *)
Definition sample_jar_transactions : gmap string JarTransaction :=
  <["a" := sample_jar_transaction "pre_created_jar_id" 100 (-500) 9500]>
  (<["b" := sample_jar_transaction "pre_created_jar_id" 100 2000 11500]>
  (<["c" := sample_jar_transaction "pre_created_jar_id" 5000 300 11800]>
  (<["d" := sample_jar_transaction "pre_created_jar_id" 2678405 (-800) 11000]>
  (<["e" := sample_jar_transaction "family_jar_id" 50 70000 70000]> ∅)))).

(** Three users with their accounts: the owner of the cards and jars
    of the tests, a member of the owner's family, and a stranger. *)
Definition sample_accounts : list MonoAccount :=
  [ {| acc_pk := 1; acc_user_tg_id := "precreated_user_tg_id";
       acc_mono_token := "precreated_token"; acc_active := true |};
    {| acc_pk := 2; acc_user_tg_id := "family_member_tg_id";
       acc_mono_token := "family_token"; acc_active := true |};
    {| acc_pk := 3; acc_user_tg_id := "some_user";
       acc_mono_token := "some_token"; acc_active := true |} ].

Definition sample_currency : Currency :=
  {| cur_pk := 1; cur_code := 980; cur_name := "UAH";
     cur_flag := None; cur_symbol := Some "грн" |}.

Definition sample_card (monoaccount : Z) (is_active : bool) : MonoCard :=
  {| card_monoaccount := monoaccount; card_send_id := "send";
     card_currency := 1; card_cashback_type := "UAH"; card_balance := 3000;
     card_credit_limit := 0; card_masked_pan := Some ["537541******1234"];
     card_type := "black"; card_iban := "UA00"; card_is_active := is_active |}.

Definition sample_jar (monoaccount : Z) (title : string) (balance : Z)
    (is_active : bool) : MonoJar :=
  {| jar_monoaccount := monoaccount; jar_send_id := "send";
     jar_title := title; jar_currency := 1; jar_balance := balance;
     jar_goal := Some (balance + 1); jar_is_budget := false;
     jar_is_active := is_active; jar_invested := 0 |}.

Definition sample_cards : gmap string MonoCard :=
  <["pre_created_card_id" := sample_card 1 true]>
  (<["old_card_id" := sample_card 1 true]>
  (<["family_card_id" := sample_card 2 true]>
  (<["stranger_card_id" := sample_card 3 true]> ∅))).

Definition sample_jars : gmap string MonoJar :=
  <["pre_created_jar_id" := sample_jar 1 "pre_created_title" 1000 true]>
  (<["pre_created_jar_id2" := sample_jar 1 "pre_created_title2" 2000 true]>
  (<["family_jar_id" := sample_jar 2 "family_jar_title" 4000 true]>
  (<["stranger_jar_id" := sample_jar 3 "stranger_title" 5000 true]> ∅))).

Definition sample_db : DB :=
  {| currencies := [sample_currency];
     categories :=
       [ {| cat_pk := 1; cat_name := "Продукти"; cat_symbol := None;
            cat_user_defined := false |} ];
     category_msos := [ {| mso_pk := 1; mso_category := 1; mso_mso := 5411 |} ];
     mono_accounts := sample_accounts;
     mono_cards := sample_cards;
     mono_jars := sample_jars;
     mono_transactions := ∅;
     jar_transactions := sample_jar_transactions;
     celery_queue := [] |}.

(** The family of the tests: the owner and one family member see each
    other; expansion adds the family of every tg_id. *)
Definition sample_related (tg : string) : list string :=
  if String.eqb tg "precreated_user_tg_id"
  then ["precreated_user_tg_id"; "family_member_tg_id"]
  else if String.eqb tg "family_member_tg_id"
  then ["family_member_tg_id"; "precreated_user_tg_id"]
  else [tg].

Definition sample_family : FamilyLinks :=
  {| get_related_tg_ids := λ u, sample_related (tg_id u);
     expand_tg_ids_with_family := λ ids, Ok (ids ≫= sample_related) |}.

Definition sample_request (tg : string) (superuser : bool)
    (users with_family : option string) : Request :=
  {| user := {| tg_id := tg; is_superuser := superuser |};
     action := "list"; q_users := users; q_with_family := with_family;
     q_is_budget := None; q_cards := None; q_jars := None;
     q_time_from := None |}.

(** Payloads of the bank API. *)
Definition sample_card_data (id : string) (currency_code balance : Z)
    : CardData :=
  {| cd_id := Some id; cd_send_id := Some "send2";
     cd_currency_code := Some currency_code;
     cd_cashback_type := Some "UAH"; cd_balance := Some balance;
     cd_credit_limit := Some 0;
     cd_masked_pan := Some ["444111******0001"]; cd_type := Some "white";
     cd_iban := Some "UA11" |}.

Definition sample_jar_data (id : string) (currency_code balance : Z)
    : JarData :=
  {| jd_id := Some id; jd_send_id := Some "send2";
     jd_title := Some "renamed"; jd_description := Some "";
     jd_currency_code := Some currency_code; jd_balance := Some balance;
     jd_goal := Some 5000 |}.

Definition sample_client_info : ClientInfo :=
  {| ci_accounts :=
       Some [sample_card_data "pre_created_card_id" 980 100;
             sample_card_data "new_card_id" 980 200];
     ci_jars := Some [sample_jar_data "pre_created_jar_id" 980 300];
     ci_other := true |}.

(** A bank that answers nothing: the samples pass their payloads. *)
Definition silent_bank : BankAPI :=
  {| time_now := 1754000000;
     client_info := λ _, Raise MonoBankError;
     statement := λ _ _ _ _, Ok [] |}.

Definition sample_owner : MonoAccount :=
  {| acc_pk := 1; acc_user_tg_id := "precreated_user_tg_id";
     acc_mono_token := "precreated_token"; acc_active := true |}.

(** A statement item as the webhook receives it, after parsing. *)
Definition sample_statement_item (id : string) : StatementItem :=
  {| si_id := id; si_time := 1754000000; si_description := Some "АТБ";
     si_mcc := 1; si_original_mcc := Some 5411; si_amount := -12350;
     si_operation_amount := Some (-12350); si_currency := Some 1;
     si_commission_rate := Some 0; si_balance := 287650; si_hold := true;
     si_receipt_id := None; si_cashback_amount := 0; si_comment := None |}.

Definition sample_card_post : TransactionData :=
  {| account := CardAccount "pre_created_card_id" (sample_card 1 true);
     statement_item := sample_statement_item "statement_1" |}.

Definition sample_jar_post : TransactionData :=
  {| account :=
       JarAccount "pre_created_jar_id"
         (sample_jar 1 "pre_created_title" 1000 true);
     statement_item := sample_statement_item "statement_2" |}.

(** A jar with one transaction on 9999-12-01, ten seconds after
    midnight UTC. *)
Definition late_db : DB :=
  set_jar_transactions
    {[ "z" :=
         sample_jar_transaction "pre_created_jar_id" 253399622410 100 100 ]}
    empty_db.

(** A jar with a transaction whose time is in milliseconds. *)
Definition millis_db : DB :=
  set_jar_transactions
    {[ "m" :=
         sample_jar_transaction "pre_created_jar_id" 1754000000000 100 100 ]}
    empty_db.

(** ** Further code of models.py *)

Module Category.

(** [Category.create_custom_category(name, symbol)]; the default of
    [symbol] is supplied by the caller. The lengths of the columns,
    which only the database backend checks, are not modelled. *)
Definition create_custom_category (name symbol : string) : M Category :=
  db ← get_db;
  if bool_decide (name ∈ cat_name <$> categories db)
  then raise ValueError
  else
    let category :=
      {| cat_pk := next_pk (cat_pk <$> categories db); cat_name := name;
         cat_symbol := Some symbol; cat_user_defined := true |} in
    modify_db (set_categories (categories db ++ [category]));;
    CategoryMSO_create category (999000 + cat_pk category);;
    mret category.

End Category.

(** [Meta.ordering = ["-id"]] of [MonoAccount]. *)
Definition by_pk_desc (a b : MonoAccount) : Prop := acc_pk b ≤ acc_pk a.

#[global] Instance by_pk_desc_dec : RelDecision by_pk_desc.
Proof. intros a b. unfold by_pk_desc. apply _. Defined.

(** [MonoAccount.update_users], the periodic task. *)
Definition update_users (bank : BankAPI) : M unit :=
  users ← (db ← get_db; mret (merge_sort by_pk_desc (mono_accounts db)));
  for_each users (λ user, MonoAccount.create_cards_jars bank user None).

(** The row [c] with [is_active = False]. *)
Definition inactive_card (c : MonoCard) : MonoCard :=
  {| card_monoaccount := card_monoaccount c; card_send_id := card_send_id c;
     card_currency := card_currency c;
     card_cashback_type := card_cashback_type c;
     card_balance := card_balance c;
     card_credit_limit := card_credit_limit c;
     card_masked_pan := card_masked_pan c; card_type := card_type c;
     card_iban := card_iban c; card_is_active := false |}.

Definition inactive_jar (j : MonoJar) : MonoJar :=
  {| jar_monoaccount := jar_monoaccount j; jar_send_id := jar_send_id j;
     jar_title := jar_title j; jar_currency := jar_currency j;
     jar_balance := jar_balance j; jar_goal := jar_goal j;
     jar_is_budget := jar_is_budget j; jar_is_active := false;
     jar_invested := jar_invested j |}.

(** From [db] to [db'] no card and no jar was added, removed or changed
    except for being marked inactive, no other table was written, and
    the queue only grew. *)
Definition only_deactivated (db db' : DB) : Prop :=
  (∀ id, mono_cards db' !! id = None ↔ mono_cards db !! id = None) ∧
  (∀ id c c', mono_cards db !! id = Some c → mono_cards db' !! id = Some c' →
     c' = c ∨ c' = inactive_card c) ∧
  (∀ id, mono_jars db' !! id = None ↔ mono_jars db !! id = None) ∧
  (∀ id j j', mono_jars db !! id = Some j → mono_jars db' !! id = Some j' →
     j' = j ∨ j' = inactive_jar j) ∧
  currencies db' = currencies db ∧ categories db' = categories db ∧
  category_msos db' = category_msos db ∧
  mono_accounts db' = mono_accounts db ∧
  mono_transactions db' = mono_transactions db ∧
  jar_transactions db' = jar_transactions db ∧
  ∃ published, celery_queue db' = celery_queue db ++ published.

(** What a worker does with a message: it calls the task that the
    message names, with its arguments. *)
Definition run_task (bank : BankAPI) (t : Task) : M unit :=
  match t with
  | Task_create_card_from_webhook tg_id card_data update_transactions =>
      MonoCard.create_card_from_webhook bank tg_id card_data
        update_transactions
  | Task_create_jar_from_webhook tg_id jar_data update_transactions =>
      MonoJar.create_jar_from_webhook bank tg_id jar_data update_transactions
  | Task_create_transaction_from_webhook card_id transaction_data =>
      MonoTransaction.create_transaction_from_webhook card_id transaction_data
  | Task_create_jar_transaction_from_webhook card_id transaction_data =>
      JarTransaction.create_jar_transaction_from_webhook card_id
        transaction_data
  end.

(** ** Further code of views.py *)

(** *** IsOwnerOrFamilyOrAdminPermission *)

(** The objects that a view hands to [has_object_permission]:
    [OtherObject] stands for an object that has neither [monoaccount]
    nor [account.monoaccount]. *)
Inductive ViewObject : Type :=
  | CardObject (card : MonoCard)
  | JarObject (jar : MonoJar)
  | CardTransactionObject (transaction : MonoTransaction)
  | JarTransactionObject (transaction : JarTransaction)
  | OtherObject.

Module IsOwnerOrFamilyOrAdminPermission.

(** [bool(request.user)]: a user object, anonymous or not, is true. *)
Definition has_permission (request : Request) : bool := true.

(** The [target_tg_id] of an object; [hasattr] is false for a foreign
    key whose row is missing, which leads to the branch
    [else: return False]. *)
Definition target_tg_id (db : DB) (obj : ViewObject) : option string :=
  match obj with
  | CardObject card => owner_tg_id db (card_monoaccount card)
  | JarObject jar => owner_tg_id db (jar_monoaccount jar)
  | CardTransactionObject transaction =>
      card ← mono_cards db !! tx_account transaction;
      owner_tg_id db (card_monoaccount card)
  | JarTransactionObject transaction =>
      jar ← mono_jars db !! jtx_account transaction;
      owner_tg_id db (jar_monoaccount jar)
  | OtherObject => None
  end.

Definition has_object_permission (fam : FamilyLinks) (db : DB)
    (request : Request) (obj : ViewObject) : bool :=
  if is_superuser (user request) then true
  else
    match target_tg_id db obj with
    | None => false
    | Some target =>
        let user_accessible_ids : gset string :=
          list_to_set (get_related_tg_ids fam (user request)) in
        bool_decide (target ∈ user_accessible_ids)
    end.

End IsOwnerOrFamilyOrAdminPermission.

(** *** The detail actions of [MonoJarViewSet] *)

(** The exceptions of [get_object], which the framework answers with
    the status 404 and 403. *)
Inductive HttpException : Type := Http404 | PermissionDenied.

(** A value of [request.data]: null, a boolean, an integer or a string
    (numbers with a fraction, arrays and objects are not modelled). *)
Inductive JSON : Type :=
  | JNull
  | JBool (b : bool)
  | JInt (n : Z)
  | JStr (s : string).

(** [str(v)] *)
Definition py_str (v : JSON) : string :=
  match v with
  | JNull => "None"
  | JBool true => "True"
  | JBool false => "False"
  | JInt n => pretty n
  | JStr s => s
  end.

(** The truth value of [v], as in [if not v]. *)
Definition py_truthy (v : JSON) : bool :=
  match v with
  | JNull => false
  | JBool b => b
  | JInt n => negb (n =? 0)
  | JStr s => negb (String.eqb s "")
  end.

(** What a detail action of [MonoJarViewSet] answers. *)
Inductive JarResponse : Type :=
  | JarStatus (status : Z)
  | JarError (status : Z) (error : string)
  | JarSerialized (jar : string * MonoJar).

Definition with_invested (invested : Z) (j : MonoJar) : MonoJar :=
  {| jar_monoaccount := jar_monoaccount j; jar_send_id := jar_send_id j;
     jar_title := jar_title j; jar_currency := jar_currency j;
     jar_balance := jar_balance j; jar_goal := jar_goal j;
     jar_is_budget := jar_is_budget j; jar_is_active := jar_is_active j;
     jar_invested := invested |}.

Definition with_is_budget (is_budget : bool) (j : MonoJar) : MonoJar :=
  {| jar_monoaccount := jar_monoaccount j; jar_send_id := jar_send_id j;
     jar_title := jar_title j; jar_currency := jar_currency j;
     jar_balance := jar_balance j; jar_goal := jar_goal j;
     jar_is_budget := is_budget; jar_is_active := jar_is_active j;
     jar_invested := jar_invested j |}.

Module JarActions.

(** [self.get_object()]: the row of the queryset with the primary key
    of the URL, or 404; then the object permission, or 403. *)
Definition get_object (fam : FamilyLinks) (db : DB) (request : Request)
    (pk : string) : HttpException + string * MonoJar :=
  match head (filter (λ e, e.1 = pk)
                (MonoJarViewSet.get_queryset fam db request)) with
  | None => inl Http404
  | Some jar =>
      if IsOwnerOrFamilyOrAdminPermission.has_object_permission fam db
           request (JarObject jar.2)
      then inr jar else inl PermissionDenied
  end.

(** [MonoJarViewSet.set_invested]; [invested] is the integer under the
    key "invested", [None] when the key is missing or null. *)
Definition set_invested (fam : FamilyLinks) (request : Request)
    (pk : string) (invested : option Z) : M (HttpException + JarResponse) :=
  db ← get_db;
  match get_object fam db request pk with
  | inl e => mret (inl e)
  | inr jar =>
      match invested with
      | None => raise IntegrityError
      | Some v =>
          modify_db
            (set_mono_jars
               (<[jar.1 := with_invested v jar.2]> (mono_jars db)));;
          mret (inr (JarStatus 200))
      end
  end.

(** [MonoJarViewSet.set_budget_status] *)
Definition set_budget_status (fam : FamilyLinks) (request : Request)
    (pk : string) (is_budget : option JSON)
    : M (HttpException + JarResponse) :=
  db ← get_db;
  match get_object fam db request pk with
  | inl e => mret (inl e)
  | inr jar =>
      match is_budget with
      | None | Some JNull =>
          mret (inr (JarError 400 "is_budget parameter is required"))
      | Some v =>
          let is_budget_bool :=
            bool_decide (lower (py_str v) ∈ ["1"; "true"; "yes"]) in
          let jar' := with_is_budget is_budget_bool jar.2 in
          modify_db (set_mono_jars (<[jar.1 := jar']> (mono_jars db)));;
          mret (inr (JarSerialized (jar.1, jar')))
      end
  end.

End JarActions.

(** *** DailyReportSchedulerApiView *)

(** The two tables of django_celery_beat that the view writes:
    the crontab schedules, and the periodic tasks under their unique
    name, with the fields that the view names ([args] is the list
    that [json.dumps] serialises; a task holds no solar and no clocked
    schedule). *)
Record CrontabSchedule : Type := {
  cron_pk : Z;
  cron_minute : string;
  cron_hour : string;
  cron_day_of_week : string;
  cron_day_of_month : string;
  cron_month_of_year : string
}.

Record PeriodicTask : Type := {
  pt_task : string;
  pt_interval : option Z;
  pt_crontab : option Z;             (* -> CrontabSchedule *)
  pt_args : list string;
  pt_enabled : bool
}.

#[global] Instance CrontabSchedule_eq_dec : EqDecision CrontabSchedule.
Proof. solve_decision. Defined.
#[global] Instance PeriodicTask_eq_dec : EqDecision PeriodicTask.
Proof. solve_decision. Defined.

Record Beat : Type := {
  crontabs : list CrontabSchedule;
  periodic_tasks : gmap string PeriodicTask
}.

(** What the view answers: an error, the registration of a task, or
    its removal ("deleted" or "disabled"). *)
Inductive SchedulerResponse : Type :=
  | SchedulerError (status : Z) (error : string)
  | Registered (status : Z) (task : string) (schedule : string)
      (tg_id : string)
  | Unregistered (status : Z) (message : string) (task : string).

(** The one exception of this view that no handler catches:
    [CrontabSchedule.MultipleObjectsReturned]. *)
Inductive BeatError : Type := CrontabMultipleObjectsReturned.

Module DailyReportSchedulerApiView.

Definition task_path : string :=
  "monobank.tasks.send_daily_mono_transactions_report".

(** [f"Daily mono transactions report for TG {tg_id}"] *)
Definition task_name (tg_id : JSON) : string :=
  "Daily mono transactions report for TG " +:+ py_str tg_id.

(** The schedule "daily at 21:00", as a lookup. *)
Definition is_daily_21 (c : CrontabSchedule) : Prop :=
  cron_minute c = "0" ∧ cron_hour c = "21" ∧ cron_day_of_week c = "*" ∧
  cron_day_of_month c = "*" ∧ cron_month_of_year c = "*".

#[global] Instance is_daily_21_dec c : Decision (is_daily_21 c).
Proof. unfold is_daily_21. apply _. Defined.

(** [CrontabSchedule.objects.get_or_create(minute=0, hour=21,
    day_of_week="*", day_of_month="*", month_of_year="*")] *)
Definition get_or_create_schedule (beat : Beat)
    : (BeatError + CrontabSchedule) * Beat :=
  match filter is_daily_21 (crontabs beat) with
  | [] =>
      let schedule :=
        {| cron_pk := next_pk (cron_pk <$> crontabs beat);
           cron_minute := "0"; cron_hour := "21"; cron_day_of_week := "*";
           cron_day_of_month := "*"; cron_month_of_year := "*" |} in
      (inr schedule,
       {| crontabs := crontabs beat ++ [schedule];
          periodic_tasks := periodic_tasks beat |})
  | [schedule] => (inr schedule, beat)
  | _ => (inl CrontabMultipleObjectsReturned, beat)
  end.

(** The row that [post] creates, and that it restores on a task that
    exists. *)
Definition daily_task (schedule : CrontabSchedule) (tg_id : JSON)
    : PeriodicTask :=
  {| pt_task := task_path; pt_interval := None;
     pt_crontab := Some (cron_pk schedule); pt_args := [py_str tg_id];
     pt_enabled := true |}.

(** [DailyReportSchedulerApiView.post]: [scheduler_available] tells
    whether django_celery_beat can be imported, [tg_id] is the value of
    the key "tg_id" of the body. *)
Definition post (scheduler_available : bool) (tg_id : option JSON)
    (beat : Beat) : (BeatError + SchedulerResponse) * Beat :=
  if negb scheduler_available then
    (inr (SchedulerError 500 "scheduler is not available"), beat)
  else
    match tg_id with
    | None => (inr (SchedulerError 400 "tg_id is required"), beat)
    | Some tg_id =>
        if negb (py_truthy tg_id) then
          (inr (SchedulerError 400 "tg_id is required"), beat)
        else
          match get_or_create_schedule beat with
          | (inl e, beat) => (inl e, beat)
          | (inr schedule, beat) =>
              let task_name := task_name tg_id in
              let created :=
                bool_decide (periodic_tasks beat !! task_name = None) in
              (inr (Registered (if created then 201 else 200) task_name
                      "daily at 21:00" (py_str tg_id)),
               {| crontabs := crontabs beat;
                  periodic_tasks :=
                    <[task_name := daily_task schedule tg_id]>
                      (periodic_tasks beat) |})
          end
    end.

Definition disabled (task : PeriodicTask) : PeriodicTask :=
  {| pt_task := pt_task task; pt_interval := pt_interval task;
     pt_crontab := pt_crontab task; pt_args := pt_args task;
     pt_enabled := false |}.

(** [DailyReportSchedulerApiView.delete]: [delete] is the value of the
    key "delete" of the body. *)
Definition delete (scheduler_available : bool) (tg_id delete : option JSON)
    (beat : Beat) : (BeatError + SchedulerResponse) * Beat :=
  if negb scheduler_available then
    (inr (SchedulerError 500 "scheduler is not available"), beat)
  else
    match tg_id with
    | None => (inr (SchedulerError 400 "tg_id is required"), beat)
    | Some tg_id =>
        if negb (py_truthy tg_id) then
          (inr (SchedulerError 400 "tg_id is required"), beat)
        else
          let task_name := task_name tg_id in
          match periodic_tasks beat !! task_name with
          | None => (inr (SchedulerError 404 "task not found"), beat)
          | Some task =>
              let should_delete :=
                match delete with
                | Some v => py_truthy v
                | None => false
                end in
              if should_delete then
                (inr (Unregistered 200 "deleted" task_name),
                 {| crontabs := crontabs beat;
                    periodic_tasks :=
                      base.delete task_name (periodic_tasks beat) |})
              else
                (inr (Unregistered 200 "disabled" task_name),
                 {| crontabs := crontabs beat;
                    periodic_tasks :=
                      <[task_name := disabled task]> (periodic_tasks beat) |})
          end
    end.

End DailyReportSchedulerApiView.

(** *** Dates as text *)

(** The decimal digit of the units of [n]. *)
Definition digit (n : Z) : ascii := ascii_of_N (Z.to_N (48 + n mod 10)).

(** ["%02d" % n] and ["%04d" % n] for the fields of a date
    ([0 ≤ n < 100] and [0 ≤ n < 10000]). *)
Definition fmt02 (n : Z) : string :=
  String (digit (n / 10)) (String (digit n) EmptyString).

Definition fmt04 (n : Z) : string :=
  String (digit (n / 1000)) (String (digit (n / 100)) (fmt02 n)).

(** [d.isoformat()] *)
Definition isoformat (d : date) : string :=
  fmt04 (year d) +:+ "-" +:+ fmt02 (month d) +:+ "-" +:+ fmt02 (day d).

(** [MonoJarViewSet.available_months], with its body: the months as
    ISO dates. *)
Definition available_months_body (rt : Runtime) (db : DB) (jar : string)
    : result (list string) :=
  match MonoJarViewSet.available_months rt db jar with
  | Ok months => Ok (isoformat <$> months)
  | Raise e => Raise e
  end.

Module TestEndpoint.

(** [TestEndpoint.get]: for every stored jar its title, its available
    months and the summary of each of them. *)
Definition get (rt : Runtime) (db : DB)
    : result (list (string * list date * list MonoJar.Summary)) :=
  mapM (λ e : string * MonoJar,
          months ← MonoJar.get_available_months rt db e.1;
          months' ← MonoJar.get_available_months rt db e.1;
          summaries ←
            mapM (λ month, MonoJar.get_month_summary rt db e.1 (inr month))
              months';
          Ok (jar_title e.2, months, summaries))
    (map_to_list (mono_jars db)).

End TestEndpoint.

(** ** Definitions used to state the further properties *)

(** The merchant code that a statement item is filed under: its "mcc",
    or the number of stored merchant codes when it has none. *)
Definition mso_of (td : TransactionDict) (db : DB) : Z :=
  default (Z.of_nat (length (category_msos db))) (td_mcc td).

(** The tables that the transaction tasks never write. *)
Definition same_entities (db db' : DB) : Prop :=
  mono_accounts db' = mono_accounts db ∧ mono_cards db' = mono_cards db ∧
  mono_jars db' = mono_jars db ∧ celery_queue db' = celery_queue db.

(** The stored row [old] has the values of the statement item [td] in
    the columns that the item names (the account, the merchant code
    and the currency apart). *)
Definition jar_row_agrees (td : TransactionDict) (old : JarTransaction)
    : bool :=
  kw_eq (td_time td) (jtx_time old) &&
  kw_eq_null (td_description td) (jtx_description old) &&
  kw_eq_null (td_original_mcc td) (jtx_original_mcc old) &&
  kw_eq (td_amount td) (jtx_amount old) &&
  kw_eq_null (td_operation_amount td) (jtx_operation_amount old) &&
  kw_eq_null (td_commission_rate td) (jtx_commission_rate old) &&
  kw_eq (td_cashback_amount td) (jtx_cashback_amount old) &&
  kw_eq (td_balance td) (jtx_balance old) &&
  kw_eq (td_hold td) (jtx_hold old) &&
  kw_eq_null (td_comment td) (jtx_comment old).

Definition digit_or_dash (c : ascii) : bool :=
  let n := N_of_ascii c in
  (((48 <=? n) && (n <=? 57)) || (n =? 45))%N.

Fixpoint digits_only (s : string) : bool :=
  match s with
  | EmptyString => true
  | String c s' => digit_or_dash c && digits_only s'
  end.

(** The flag that [set_budget_status] reads from a value. *)
Definition budget_flag (v : JSON) : bool :=
  bool_decide (lower (py_str v) ∈ ["1"; "true"; "yes"]).

(** The schedule "daily at 21:00" is stored at most once. *)
Definition one_daily_schedule (beat : Beat) : Prop :=
  (length (filter DailyReportSchedulerApiView.is_daily_21 (crontabs beat))
   ≤ 1)%nat.

(** *** Further sample data *)

(** A statement item of the bank API, as a dictionary. *)
Definition sample_transaction_dict (id : string) (receipt_id : option string)
    : TransactionDict :=
  {| td_id := Some id; td_time := Some 1754000000;
     td_description := Some "coffee"; td_mcc := Some 5814;
     td_original_mcc := Some 5814; td_amount := Some (-9500);
     td_operation_amount := Some (-250); td_currency_code := Some 978;
     td_commission_rate := Some 0; td_cashback_amount := Some 0;
     td_balance := Some 100000; td_hold := Some true;
     td_receipt_id := receipt_id; td_comment := None |}.

(** A bank whose statement of every account holds two items. *)
Definition statement_bank : BankAPI :=
  {| time_now := 1754000000;
     client_info := λ _, Raise MonoBankError;
     statement := λ _ _ _ _,
       Ok [sample_transaction_dict "tx1" None;
           sample_transaction_dict "tx2" None] |}.

(** A scheduler without schedules and tasks. *)
Definition empty_beat : Beat := {| crontabs := []; periodic_tasks := ∅ |}.

(** * Properties *)

(** ** Orders *)

#[global] Instance by_time_id_refl : Reflexive MonoJar.by_time_id.
Proof. intros a. right. split; [done | reflexivity]. Qed.

#[global] Instance by_time_id_trans : Transitive MonoJar.by_time_id.
Proof.
  intros a b c [Hab | [Hab Hab']] [Hbc | [Hbc Hbc']].
  - left. lia.
  - left. lia.
  - left. lia.
  - right. split; [lia | by etrans].
Qed.

#[global] Instance by_time_id_total : Total MonoJar.by_time_id.
Proof.
  intros a b. unfold MonoJar.by_time_id.
  destruct (Z.lt_trichotomy (jtx_time a.2) (jtx_time b.2)) as [H | [H | H]].
  - left. by left.
  - destruct (total String.le a.1 b.1); [left | right]; right; split; done.
  - right. by left.
Qed.

Lemma by_time_id_antisym (a b : string * JarTransaction) :
  MonoJar.by_time_id a b → MonoJar.by_time_id b a → a.1 = b.1.
Proof.
  intros [H1 | [H1 H1']] [H2 | [H2 H2']]; try lia.
  by apply (anti_symm String.le).
Qed.

#[global] Instance by_amount_desc_refl : Reflexive MonoJar.by_amount_desc.
Proof. intros a. unfold MonoJar.by_amount_desc. lia. Qed.

#[global] Instance by_amount_desc_trans : Transitive MonoJar.by_amount_desc.
Proof. intros a b c. unfold MonoJar.by_amount_desc. lia. Qed.

#[global] Instance by_amount_desc_total : Total MonoJar.by_amount_desc.
Proof. intros a b. unfold MonoJar.by_amount_desc. lia. Qed.

(** ** Sorted lists: the head is least and the last is greatest *)

Section SortedEnds.
Context {A : Type} (R : relation A) `{!∀ x y, Decision (R x y)}.
Context `{!Reflexive R, !Transitive R, !Total R}.

Lemma merge_sort_elem_of (l : list A) (x : A) :
  x ∈ merge_sort R l ↔ x ∈ l.
Proof. by rewrite merge_sort_Permutation. Qed.

Lemma merge_sort_nil_iff (l : list A) : merge_sort R l = [] ↔ l = [].
Proof.
  split; intros Hnil.
  - apply Permutation_nil_r. rewrite <- Hnil.
    by rewrite merge_sort_Permutation.
  - apply Permutation_nil_r. rewrite merge_sort_Permutation.
    by rewrite Hnil.
Qed.

Lemma strongly_sorted_head (l : list A) (x y : A) :
  StronglySorted R l → head l = Some x → y ∈ l → R x y.
Proof.
  intros Hs Hh Hy. destruct l as [| z l]; simplify_eq/=.
  apply StronglySorted_cons in Hs as [Hall _].
  apply elem_of_cons in Hy as [-> | Hy]; [reflexivity |].
  by eapply Forall_forall in Hall.
Qed.

Lemma strongly_sorted_last (l : list A) (x y : A) :
  StronglySorted R l → last l = Some x → y ∈ l → R y x.
Proof.
  intros Hs Hl Hy. apply last_Some in Hl as [l' ->].
  apply elem_of_app in Hy as [Hy | Hy].
  - eapply StronglySorted_app_1_elem_of; [done | done | set_solver].
  - apply list_elem_of_singleton in Hy as ->. reflexivity.
Qed.

Lemma merge_sort_head_least (l : list A) (x y : A) :
  head (merge_sort R l) = Some x → y ∈ l → x ∈ l ∧ R x y.
Proof.
  intros Hh Hy. split.
  - apply merge_sort_elem_of. by eapply head_Some_elem_of.
  - eapply strongly_sorted_head; [| done | by apply merge_sort_elem_of].
    by apply StronglySorted_merge_sort.
Qed.

Lemma merge_sort_last_greatest (l : list A) (x y : A) :
  last (merge_sort R l) = Some x → y ∈ l → x ∈ l ∧ R y x.
Proof.
  intros Hl Hy. split.
  - apply merge_sort_elem_of. by eapply last_Some_elem_of.
  - eapply strongly_sorted_last; [| done | by apply merge_sort_elem_of].
    by apply StronglySorted_merge_sort.
Qed.
End SortedEnds.

(** Closed arithmetic facts about concrete dates are settled by
    evaluation. *)
Ltac by_evaluation :=
  vm_compute; repeat split;
  solve [ reflexivity | discriminate | intros ?; discriminate
        | intros [? ?]; discriminate ].

(** ** The date constructor *)

Lemma days_in_month_ge_28 (y m : Z) : 1 ≤ m ≤ 12 → 28 ≤ _days_in_month y m.
Proof.
  intros Hm. unfold _days_in_month.
  assert (m = 1 ∨ m = 2 ∨ m = 3 ∨ m = 4 ∨ m = 5 ∨ m = 6 ∨ m = 7 ∨ m = 8 ∨
          m = 9 ∨ m = 10 ∨ m = 11 ∨ m = 12) as Hcases by lia.
  destruct (_is_leap y);
    repeat (destruct Hcases as [-> | Hcases]; [simpl; lia |]);
    subst m; simpl; lia.
Qed.

Lemma check_date_fields_true (y m d : Z) :
  check_date_fields y m d = true ↔ valid_date (Date y m d).
Proof.
  unfold check_date_fields, valid_date. simpl.
  rewrite !andb_true_iff, !Z.leb_le. tauto.
Qed.

Lemma date_new_Ok (y m d : Z) (dt : date) :
  date_new y m d = Ok dt ↔ dt = Date y m d ∧ valid_date (Date y m d).
Proof.
  unfold date_new. destruct (check_date_fields y m d) eqn:Hc.
  - apply check_date_fields_true in Hc.
    split; [intros [= <-] | intros [-> _]]; done.
  - split; [done |]. intros [_ Hv]. apply check_date_fields_true in Hv.
    congruence.
Qed.

Lemma date_new_first (y m : Z) :
  MINYEAR ≤ y ≤ MAXYEAR → 1 ≤ m ≤ 12 → date_new y m 1 = Ok (Date y m 1).
Proof.
  intros Hy Hm. apply date_new_Ok. split; [done |].
  repeat split; simpl; try lia.
  pose proof (days_in_month_ge_28 y m Hm). lia.
Qed.

Lemma date_new_year_out_of_range (y m d : Z) :
  MAXYEAR < y → date_new y m d = Raise ValueError.
Proof.
  intros Hy. unfold date_new, check_date_fields.
  destruct (MINYEAR <=? y); simpl; [| done].
  by destruct (Z.leb_spec y MAXYEAR); [lia |].
Qed.

(** ** [MonoJar.get_month_summary] *)

Section MonthSummary.
Context (rt : Runtime) (db : DB) (self : string).

Lemma elem_of_transactions_of (e : string * JarTransaction) :
  e ∈ MonoJar.transactions_of db self ↔
  jar_transactions db !! e.1 = Some e.2 ∧ jtx_account e.2 = self.
Proof.
  unfold MonoJar.transactions_of. rewrite list_elem_of_filter.
  destruct e as [id tx]. rewrite elem_of_map_to_list. simpl. tauto.
Qed.

Lemma elem_of_month_queryset (start_ts end_ts : Z)
    (e : string * JarTransaction) :
  e ∈ MonoJar.month_queryset db self start_ts end_ts ↔
  jar_transactions db !! e.1 = Some e.2 ∧ jtx_account e.2 = self ∧
  start_ts ≤ jtx_time e.2 < end_ts.
Proof.
  unfold MonoJar.month_queryset.
  rewrite merge_sort_elem_of, list_elem_of_filter, elem_of_transactions_of.
  tauto.
Qed.

Lemma elem_of_month_queryset_in_month (d : date)
    (e : string * JarTransaction) :
  e ∈ MonoJar.month_queryset db self (month_start_ts rt d)
        (month_end_ts rt d) ↔
  in_month rt db self d e.
Proof. apply elem_of_month_queryset. Qed.

(** The two dates that bound the month, when the month is not the last
    one. *)
Lemma month_bounds_ok (d : date) :
  valid_date d → ¬ last_month d →
  date_new (year d) (month d) 1 = Ok (Date (year d) (month d) 1) ∧
  date_new (next_month d).1 (next_month d).2 1 =
    Ok (Date (next_month d).1 (next_month d).2 1).
Proof.
  intros (Hy & Hm & _) Hlast. unfold last_month in Hlast.
  split; [by apply date_new_first |].
  unfold next_month, MINYEAR, MAXYEAR in *.
  destruct (Z.eqb_spec (month d) 12); simpl;
    apply date_new_first; unfold MINYEAR, MAXYEAR; lia.
Qed.

(** [get_month_summary] on a date, once the two bounds are built. *)
Lemma get_month_summary_unfold (d : date) :
  valid_date d → ¬ last_month d →
  MonoJar.get_month_summary rt db self (inr d) =
  let qs :=
    MonoJar.month_queryset db self (month_start_ts rt d)
      (month_end_ts rt d) in
  if bool_decide (qs = []) then Ok zero_summary
  else
    match head qs, last qs with
    | Some first_tx, Some last_tx =>
        let budget :=
          default 0
            (head (merge_sort MonoJar.by_amount_desc
                     (filter (λ a, 0 < a) ((λ e, jtx_amount e.2) <$> qs)))) in
        Ok {| MonoJar.start_balance := jtx_balance first_tx.2;
              MonoJar.budget := budget;
              MonoJar.end_balance := jtx_balance last_tx.2;
              MonoJar.spent :=
                jtx_balance first_tx.2 - jtx_balance last_tx.2 - budget |}
    | _, _ => Raise AttributeError
    end.
Proof.
  intros Hv Hlast. destruct (month_bounds_ok d Hv Hlast) as [Hs He].
  unfold MonoJar.get_month_summary. simpl.
  rewrite Hs. simpl.
  unfold next_month in He. simpl in He.
  unfold month_end_ts, next_month.
  destruct (month d =? 12); simpl in *; rewrite He; reflexivity.
Qed.

(** The budget: the largest positive amount of the queryset, or 0. *)
Lemma positive_budget_spec (qs : list (string * JarTransaction)) :
  let b :=
    default 0
      (head (merge_sort MonoJar.by_amount_desc
               (filter (λ a, 0 < a) ((λ e, jtx_amount e.2) <$> qs)))) in
  (b = 0 ∧ ∀ e, e ∈ qs → jtx_amount e.2 ≤ 0) ∨
  (0 < b ∧ (∃ e, e ∈ qs ∧ jtx_amount e.2 = b) ∧
   ∀ e, e ∈ qs → jtx_amount e.2 ≤ b).
Proof.
  set (amounts := filter (λ a, 0 < a) ((λ e, jtx_amount e.2) <$> qs)).
  simpl. destruct (head (merge_sort MonoJar.by_amount_desc amounts))
    as [b |] eqn:Hhead; simpl.
  - right.
    assert (b ∈ amounts) as Hb.
    { eapply (merge_sort_elem_of MonoJar.by_amount_desc).
      by eapply head_Some_elem_of. }
    pose proof Hb as Hb'. unfold amounts in Hb'.
    apply list_elem_of_filter in Hb' as [Hpos Hin].
    apply list_elem_of_fmap in Hin as (e & -> & He).
    split; [done |]. split; [by exists e |].
    intros e' He'.
    destruct (decide (0 < jtx_amount e'.2)) as [Hp | Hn]; [| lia].
    assert (jtx_amount e'.2 ∈ amounts) as Hin'.
    { unfold amounts. apply list_elem_of_filter. split; [done |].
      apply list_elem_of_fmap. by exists e'. }
    destruct (merge_sort_head_least MonoJar.by_amount_desc amounts _ _
                Hhead Hin') as [_ Hle].
    exact Hle.
  - left. split; [done |]. intros e He.
    destruct (decide (0 < jtx_amount e.2)) as [Hp | Hn]; [| lia].
    assert (jtx_amount e.2 ∈ amounts) as Hin.
    { unfold amounts. apply list_elem_of_filter. split; [done |].
      apply list_elem_of_fmap. by exists e. }
    apply (merge_sort_elem_of MonoJar.by_amount_desc) in Hin.
    destruct (merge_sort MonoJar.by_amount_desc amounts); [| done].
    by apply elem_of_nil in Hin.
Qed.
End MonthSummary.

(** For December 9999 the first day of the next month is no date, and
    [get_month_summary] raises, whatever is stored. *)
Lemma get_month_summary_last_month_raises (rt : Runtime) (db : DB)
    (self : string) (d : date) :
  valid_date d → last_month d →
  MonoJar.get_month_summary rt db self (inr d) = Raise ValueError.
Proof.
  intros (Hy & Hm & _) [Hyear Hmonth]. unfold MonoJar.get_month_summary.
  simpl. rewrite date_new_first by done. simpl. rewrite Hmonth. simpl.
  rewrite date_new_year_out_of_range; [done |]. rewrite Hyear. lia.
Qed.

(** A month given as a string is the month that the string parses
    to. *)
Lemma get_month_summary_of_string (rt : Runtime) (db : DB) (self : string)
    (s : string) (d : date) :
  strptime rt s = Ok d →
  MonoJar.get_month_summary rt db self (inl s) =
  MonoJar.get_month_summary rt db self (inr d).
Proof. intros Hs. unfold MonoJar.get_month_summary. by rewrite Hs. Qed.

Example sample_summary_january :
  MonoJar.get_month_summary utc_runtime sample_db "pre_created_jar_id"
    (inr (Date 1970 1 1)) =
  Ok {| MonoJar.start_balance := 9500; MonoJar.budget := 2000;
        MonoJar.end_balance := 11800; MonoJar.spent := -4300 |}.
Proof. vm_compute. reflexivity. Qed.

Example sample_summary_february :
  MonoJar.get_month_summary utc_runtime sample_db "pre_created_jar_id"
    (inl "1970-02-01") =
  Ok {| MonoJar.start_balance := 11000; MonoJar.budget := 0;
        MonoJar.end_balance := 11000; MonoJar.spent := 0 |}.
Proof. vm_compute. reflexivity. Qed.

Example sample_summary_march :
  MonoJar.get_month_summary utc_runtime sample_db "pre_created_jar_id"
    (inr (Date 1970 3 1)) = Ok zero_summary.
Proof. vm_compute. reflexivity. Qed.







(** ** [MonoJar.get_available_months] *)

#[global] Instance date_le_refl : Reflexive date_le.
Proof. intros a. by right. Qed.

#[global] Instance date_le_trans : Transitive date_le.
Proof.
  intros a b c [Hab | ->] [Hbc | ->]; [| by left | by left | by right].
  left. unfold date_lt in *. lia.
Qed.

#[global] Instance date_le_total : Total date_le.
Proof.
  intros [y1 m1 d1] [y2 m2 d2]. unfold date_le, date_lt. simpl.
  destruct (Z.lt_trichotomy y1 y2) as [? | [-> | ?]];
    [left; left; lia | | right; left; lia].
  destruct (Z.lt_trichotomy m1 m2) as [? | [-> | ?]];
    [left; left; lia | | right; left; lia].
  destruct (Z.lt_trichotomy d1 d2) as [? | [-> | ?]];
    [left; left; lia | | right; left; lia].
  left. by right.
Qed.

Lemma date_lt_irrefl (a : date) : ¬ date_lt a a.
Proof. unfold date_lt. lia. Qed.

(** A sorted list without duplicates ascends strictly. *)
Lemma strongly_sorted_date_lt (l : list date) :
  StronglySorted date_le l → NoDup l → StronglySorted date_lt l.
Proof.
  induction 1 as [| a l Hs IH Hall]; intros Hnd; [constructor |].
  apply NoDup_cons in Hnd as [Hnotin Hnd].
  constructor; [by apply IH |].
  apply Forall_forall. intros b Hb.
  eapply Forall_forall in Hall; [| exact Hb].
  destruct Hall as [Hlt | ->]; done.
Qed.

(** [mapM] in the monad [result], when no call raises. *)
Lemma mapM_result_Ok {A B} (f : A → result B) (g : A → B) (l : list A) :
  (∀ x, x ∈ l → f x = Ok (g x)) → mapM f l = Ok (g <$> l).
Proof.
  induction l as [| x l IH]; intros Hf; [done |].
  simpl. rewrite (Hf x) by left. simpl.
  rewrite IH by (intros y Hy; apply Hf; by right). done.
Qed.

Lemma fromtimestamp_Ok_valid (off : Z → Z) (t : Z) (dt : datetime) :
  fromtimestamp off t = Ok dt → valid_date (dt_date dt).
Proof.
  unfold fromtimestamp.
  destruct (_ord2ymd _) as [[y m] d].
  destruct (date_new y m d) as [dte |] eqn:Hnew; simpl; [| done].
  intros [= <-]. simpl. apply date_new_Ok in Hnew as [-> Hv]. done.
Qed.

Section AvailableMonths.
Context (rt : Runtime).

(** The set that the loop of [get_available_months] builds. *)
Lemma collect_year_month_Ok (timestamps : list Z) (acc : gset (Z * Z)) :
  (∀ ts, ts ∈ timestamps → ∃ dt, fromtimestamp (utcoffset rt) ts = Ok dt) →
  ∃ S, MonoJar.collect_year_month rt timestamps acc = Ok S ∧
       ∀ ym, ym ∈ S ↔
         ym ∈ acc ∨
         ∃ ts dt, ts ∈ timestamps ∧
                  fromtimestamp (utcoffset rt) ts = Ok dt ∧
                  ym = (year (dt_date dt), month (dt_date dt)).
Proof.
  revert acc. induction timestamps as [| ts l IH]; intros acc Hok; simpl.
  - exists acc. split; [done |]. intros ym. split; [by left |].
    intros [? | (ts & dt & Hin & _)]; [done |]. by apply elem_of_nil in Hin.
  - destruct (Hok ts) as [dt Hdt]; [left |]. rewrite Hdt. simpl.
    destruct (IH ({[(year (dt_date dt), month (dt_date dt))]} ∪ acc))
      as (S & HS & Hmem).
    { intros ts' Hts'. apply Hok. by right. }
    exists S. split; [done |]. intros ym. rewrite Hmem.
    rewrite elem_of_union, elem_of_singleton. split.
    + intros [[-> | Hacc] | (ts' & dt' & Hin & Hdt' & ->)].
      * right. exists ts, dt. split; [left | done].
      * by left.
      * right. exists ts', dt'. split; [by right | done].
    + intros [Hacc | (ts' & dt' & Hin & Hdt' & ->)]; [left; by right |].
      apply elem_of_cons in Hin as [-> | Hin].
      * left. left. congruence.
      * right. by exists ts', dt'.
Qed.

End AvailableMonths.


(** A check of [times_representable] that evaluates. *)
Lemma times_representable_check (rt : Runtime) (db : DB) (self : string) :
  forallb (λ e, is_ok (fromtimestamp (utcoffset rt) (jtx_time e.2)))
    (MonoJar.transactions_of db self) = true →
  times_representable rt db self.
Proof.
  intros Hall id tx Hlk Hacc.
  rewrite forallb_forall in Hall.
  specialize (Hall (id, tx)). simpl in Hall.
  destruct (fromtimestamp (utcoffset rt) (jtx_time tx)) as [dt |];
    [by exists dt |].
  exfalso. apply Bool.diff_false_true, Hall.
  apply list_elem_of_In, elem_of_transactions_of. done.
Qed.

Example sample_available_months :
  MonoJar.get_available_months utc_runtime sample_db "pre_created_jar_id" =
  Ok [Date 1970 1 1; Date 1970 2 1].
Proof. vm_compute. reflexivity. Qed.

Example sample_available_months_other_zone :
  MonoJar.get_available_months (fixed_offset_runtime (-18000)) sample_db
    "pre_created_jar_id" =
  Ok [Date 1969 12 1; Date 1970 1 1].
Proof. vm_compute. reflexivity. Qed.



(** ** [MonoJarViewSet.month_summary] *)

(** Before December 9999, [get_month_summary] returns a summary for
    every date. *)
Lemma get_month_summary_total (rt : Runtime) (db : DB) (self : string)
    (d : date) :
  valid_date d → ¬ last_month d →
  ∃ s, MonoJar.get_month_summary rt db self (inr d) = Ok s.
Proof.
  intros Hv Hlast.
  rewrite (get_month_summary_unfold rt db self d Hv Hlast). simpl.
  case_bool_decide as Hnil; [by eexists |].
  destruct (head _) eqn:Hhead; [| by apply head_None in Hhead].
  destruct (last _) eqn:Hlst; [| by apply last_None in Hlst].
  by eexists.
Qed.

Example month_summary_view_owner :
  MonoJarViewSet.month_summary utc_runtime sample_db "pre_created_jar_id"
    (Some "1970-01-01") =
  Ok {| status := 200;
        data := SummaryData
          {| MonoJar.start_balance := 9500; MonoJar.budget := 2000;
             MonoJar.end_balance := 11800; MonoJar.spent := -4300 |} |}.
Proof. vm_compute. reflexivity. Qed.

Example month_summary_view_missing_month :
  MonoJarViewSet.month_summary utc_runtime sample_db "pre_created_jar_id"
    None =
  Ok {| status := 400;
        data := ErrorData
                  "query param 'month' is required (e.g. 2025-07-01)" |}.
Proof. reflexivity. Qed.

Example month_summary_view_invalid_format :
  MonoJarViewSet.month_summary utc_runtime sample_db "pre_created_jar_id"
    (Some "invalid-date") =
  Ok {| status := 400;
        data := ErrorData "invalid 'month' format, expected YYYY-MM-01" |}.
Proof. vm_compute. reflexivity. Qed.

Example month_summary_view_wrong_day :
  MonoJarViewSet.month_summary utc_runtime sample_db "pre_created_jar_id"
    (Some "2025-07-15") =
  Ok {| status := 400;
        data := ErrorData
                  "month must be the first day of month: YYYY-MM-01" |}.
Proof. vm_compute. reflexivity. Qed.



(** ** The transaction webhook *)

Section Webhook.
Import TransactionWebhookApiView.

Lemma post_without_token (user_key : option string)
    (parse_obj : result TransactionData) (db : DB) :
  truthy_str user_key = false →
  post user_key parse_obj db =
    (Ok {| status := 403;
           data := ErrorData "token query param is not specified" |}, db).
Proof. intros Hk. unfold post. by rewrite Hk. Qed.

Lemma post_foreign_token (user_key : option string)
    (parse_obj : result TransactionData) (db : DB) :
  foreign_token db user_key parse_obj →
  ∃ r, post user_key parse_obj db = (Ok r, db) ∧ status r = 403.
Proof.
  intros (k & td & owner & -> & -> & Howner & Hne).
  unfold post. simpl.
  destruct (String.eqb_spec k "") as [-> | Hk]; simpl.
  - (* an empty token is answered like a missing one *)
    by eexists.
  - unfold mbind, M_bind, lift. simpl. rewrite Howner.
    apply String.eqb_neq in Hne. rewrite Hne. by eexists.
Qed.

(** A valid request for a statement item that is already stored. *)
Lemma post_already_stored (user_key : option string)
    (parse_obj : result TransactionData) (td : TransactionData) (db : DB) :
  valid_post db user_key parse_obj td → already_stored db td →
  post user_key parse_obj db = (Ok {| status := 200; data := NoData |}, db).
Proof.
  intros (k & owner & -> & Hk & -> & Howner & Htok) Hstored.
  unfold post. simpl. apply String.eqb_neq in Hk. rewrite Hk. simpl.
  unfold mbind, M_bind, lift. simpl. rewrite Howner.
  apply String.eqb_eq in Htok. rewrite Htok. simpl.
  unfold already_stored in Hstored.
  destruct (account td); simpl; rewrite bool_decide_true by done; done.
Qed.

(** A valid request for a statement item that is not stored yet. *)
Lemma post_new (user_key : option string)
    (parse_obj : result TransactionData) (td : TransactionData) (db : DB) :
  valid_post db user_key parse_obj td → ¬ already_stored db td →
  ∃ db', post user_key parse_obj db =
           (Ok {| status := 201; data := NoData |}, db') ∧
         one_new_transaction db db' td ∧
         valid_post db' user_key parse_obj td ∧ already_stored db' td.
Proof.
  intros (k & owner & -> & Hk & -> & Howner & Htok) Hnew.
  unfold post. simpl. pose proof Hk as Hk'.
  apply String.eqb_neq in Hk'. rewrite Hk'. simpl.
  unfold mbind, M_bind, lift. simpl. rewrite Howner.
  pose proof Htok as Htok'. apply String.eqb_eq in Htok'. rewrite Htok'.
  simpl. unfold already_stored, one_new_transaction, valid_post in *.
  destruct (account td) as [id card | id jar] eqn:Hacc; simpl;
    rewrite bool_decide_false by done; simpl;
    (eexists; split; [reflexivity |]);
    apply eq_None_not_Some in Hnew.
  - split; [| split].
    + simpl. split; [done |]. split; [by rewrite lookup_insert_eq |].
      split; [by intros i Hi; rewrite lookup_insert_ne |].
      split; [by apply map_size_insert_None | done].
    + exists k, owner. repeat split; try done.
      unfold MonoAccount_get_by_pk, mbind, M_bind, get_db in *. simpl in *.
      destruct (get_one _ _ db) as [[o | e] db0] eqn:Hget; simplify_eq.
      unfold get_one in *.
      destruct (filter _ (mono_accounts db)) as [| a [| b l]];
        unfold mret, M_ret, raise in *; simplify_eq; done.
    + simpl. by rewrite lookup_insert_eq.
  - split; [| split].
    + simpl. split; [done |]. split; [by rewrite lookup_insert_eq |].
      split; [by intros i Hi; rewrite lookup_insert_ne |].
      split; [by apply map_size_insert_None | done].
    + exists k, owner. repeat split; try done.
      unfold MonoAccount_get_by_pk, mbind, M_bind, get_db in *. simpl in *.
      destruct (get_one _ _ db) as [[o | e] db0] eqn:Hget; simplify_eq.
      unfold get_one in *.
      destruct (filter _ (mono_accounts db)) as [| a [| b l]];
        unfold mret, M_ret, raise in *; simplify_eq; done.
    + simpl. by rewrite lookup_insert_eq.
Qed.
End Webhook.

Example post_card_statement_twice :
  let '(r1, db1) :=
    TransactionWebhookApiView.post (Some "precreated_token")
      (Ok sample_card_post) sample_db in
  let '(r2, db2) :=
    TransactionWebhookApiView.post (Some "precreated_token")
      (Ok sample_card_post) db1 in
  r1 = Ok {| status := 201; data := NoData |} ∧
  r2 = Ok {| status := 200; data := NoData |} ∧
  db2 = db1 ∧ size (mono_transactions db1) = 1%nat.
Proof. vm_compute. repeat split; reflexivity. Qed.

Example post_wrong_structure :
  TransactionWebhookApiView.post (Some "precreated_token")
    (Raise ValidationError) sample_db =
  (Ok {| status := 422; data := ErrorData "Wrong request structure" |},
   sample_db).
Proof. reflexivity. Qed.

(** C3. For a valid request (a token, a body that parses, the token of
    the owner of the account the body names): if the statement item is
    already stored, the webhook answers 200 and the database is
    unchanged; if it is not, the webhook answers 201 and stores exactly
    one new transaction; in both cases the same request, sent again,
    is answered 200 and leaves the state that the first request left. *)
Theorem webhook_post_idempotent (user_key : option string)
    (parse_obj : result TransactionData) (td : TransactionData) (db : DB) :
  valid_post db user_key parse_obj td →
  (already_stored db td →
   TransactionWebhookApiView.post user_key parse_obj db =
     (Ok {| status := 200; data := NoData |}, db)) ∧
  (¬ already_stored db td →
   ∃ db', TransactionWebhookApiView.post user_key parse_obj db =
            (Ok {| status := 201; data := NoData |}, db') ∧
          one_new_transaction db db' td) ∧
  (∃ r1 db1,
     TransactionWebhookApiView.post user_key parse_obj db = (Ok r1, db1) ∧
     TransactionWebhookApiView.post user_key parse_obj db1 =
       (Ok {| status := 200; data := NoData |}, db1)).
Proof.
  intros Hvalid. split; [| split].
  - by apply (post_already_stored _ _ td).
  - intros Hnew.
    destruct (post_new user_key parse_obj td db Hvalid Hnew)
      as (db' & Hpost & Hone & _). by exists db'.
  - assert (Decision (already_stored db td)) as [Hst | Hnew].
    { unfold already_stored. destruct (account td); apply _. }
    + eexists _, db. split; by apply (post_already_stored _ _ td).
    + destruct (post_new user_key parse_obj td db Hvalid Hnew)
        as (db' & Hpost & _ & Hvalid' & Hst').
      eexists _, db'. split; [done |]. by apply (post_already_stored _ _ td).
Qed.

Lemma webhook_post_idempotent_witness :
  valid_post sample_db (Some "precreated_token") (Ok sample_jar_post)
    sample_jar_post ∧
  (already_stored sample_db sample_jar_post →
   TransactionWebhookApiView.post (Some "precreated_token")
     (Ok sample_jar_post) sample_db =
     (Ok {| status := 200; data := NoData |}, sample_db)) ∧
  (¬ already_stored sample_db sample_jar_post →
   ∃ db', TransactionWebhookApiView.post (Some "precreated_token")
            (Ok sample_jar_post) sample_db =
            (Ok {| status := 201; data := NoData |}, db') ∧
          one_new_transaction sample_db db' sample_jar_post) ∧
  (∃ r1 db1,
     TransactionWebhookApiView.post (Some "precreated_token")
       (Ok sample_jar_post) sample_db = (Ok r1, db1) ∧
     TransactionWebhookApiView.post (Some "precreated_token")
       (Ok sample_jar_post) db1 =
       (Ok {| status := 200; data := NoData |}, db1)).
Proof.
  assert (valid_post sample_db (Some "precreated_token") (Ok sample_jar_post)
            sample_jar_post) as Hvalid.
  { exists "precreated_token".
    exists {| acc_pk := 1; acc_user_tg_id := "precreated_user_tg_id";
              acc_mono_token := "precreated_token"; acc_active := true |}.
    repeat split; try reflexivity. discriminate. }
  split; [exact Hvalid |].
  exact (webhook_post_idempotent _ _ _ _ Hvalid).
Defined.

(** C9. A request to the webhook without a token, or with a token that
    is not the [mono_token] of the account owning the card or jar that
    the body names, is answered 403 and leaves the database as it was:
    no [MonoTransaction] and no [JarTransaction] is added, removed or
    changed. *)
Theorem webhook_post_forbidden (user_key : option string)
    (parse_obj : result TransactionData) (db : DB) :
  truthy_str user_key = false ∨ foreign_token db user_key parse_obj →
  ∃ r db',
    TransactionWebhookApiView.post user_key parse_obj db = (Ok r, db') ∧
    status r = 403 ∧
    mono_transactions db' = mono_transactions db ∧
    jar_transactions db' = jar_transactions db ∧
    db' = db.
Proof.
  intros [Hmissing | Hforeign].
  - eexists _, db. split; [by apply post_without_token | done].
  - destruct (post_foreign_token user_key parse_obj db Hforeign)
      as (r & Hpost & Hst).
    by exists r, db.
Qed.

Lemma webhook_post_forbidden_witness :
  (truthy_str (Some "some_token") = false ∨
   foreign_token sample_db (Some "some_token") (Ok sample_card_post)) ∧
  ∃ r db',
    TransactionWebhookApiView.post (Some "some_token") (Ok sample_card_post)
      sample_db = (Ok r, db') ∧
    status r = 403 ∧
    mono_transactions db' = mono_transactions sample_db ∧
    jar_transactions db' = jar_transactions sample_db ∧
    db' = sample_db.
Proof.
  assert (truthy_str (Some "some_token") = false ∨
          foreign_token sample_db (Some "some_token") (Ok sample_card_post))
    as Hreq.
  { right. exists "some_token", sample_card_post.
    exists {| acc_pk := 1; acc_user_tg_id := "precreated_user_tg_id";
              acc_mono_token := "precreated_token"; acc_active := true |}.
    repeat split; try reflexivity. discriminate. }
  split; [exact Hreq |].
  exact (webhook_post_forbidden _ _ _ Hreq).
Defined.

(** ** Access control *)

Example jars_list_with_family :
  (MonoJarViewSet.get_queryset sample_family sample_db
     (sample_request "precreated_user_tg_id" false
        (Some "precreated_user_tg_id") (Some "1"))).*1 =
  ["family_jar_id"; "pre_created_jar_id"; "pre_created_jar_id2"].
Proof. vm_compute. reflexivity. Qed.

Example jars_list_admin :
  (MonoJarViewSet.get_queryset sample_family sample_db
     (sample_request "admin_name" true None None)).*1 =
  ["family_jar_id"; "pre_created_jar_id"; "pre_created_jar_id2";
   "stranger_jar_id"].
Proof. vm_compute. reflexivity. Qed.

Example jars_list_stranger_asks_for_owner :
  MonoJarViewSet.get_queryset sample_family sample_db
    (sample_request "some_user" false
       (Some "precreated_user_tg_id,family_member_tg_id") (Some "true")) = [].
Proof. vm_compute. reflexivity. Qed.

Example split_comma_examples :
  split_comma "a,b,,c" = ["a"; "b"; ""; "c"] ∧ split_comma "" = [""] ∧
  split_comma "abc" = ["abc"] ∧ split_comma "," = [""; ""].
Proof. repeat split; reflexivity. Qed.

Section AccessControl.
Context (fam : FamilyLinks) (request : Request).
Hypothesis not_superuser : is_superuser (user request) = false.

Lemma accessible_without_users (users_param : option string)
    (with_family : bool) :
  truthy_str users_param = false →
  get_accessible_user_tg_ids fam request users_param with_family =
    Some (elements (list_to_set (get_related_tg_ids fam (user request))
                      : gset string)).
Proof.
  intros Hu. unfold get_accessible_user_tg_ids.
  by rewrite not_superuser, Hu.
Qed.

Lemma accessible_with_users (s : string) (with_family : bool) :
  s ≠ "" →
  ∃ ids,
    get_accessible_user_tg_ids fam request (Some s) with_family = Some ids ∧
    ∀ t, t ∈ ids ↔
         t ∈ requested_tg_ids fam s with_family ∧
         t ∈ get_related_tg_ids fam (user request).
Proof.
  intros Hs. unfold get_accessible_user_tg_ids. rewrite not_superuser.
  simpl. apply String.eqb_neq in Hs. rewrite Hs. simpl.
  eexists. split; [reflexivity |]. intros t.
  rewrite elem_of_elements, elem_of_intersection, elem_of_list_to_set.
  unfold requested_tg_ids, expand_or_keep.
  destruct with_family; [| by rewrite elem_of_list_to_set].
  rewrite elem_of_list_to_set.
  destruct (expand_tg_ids_with_family fam _); [done |].
  by rewrite elem_of_elements, elem_of_list_to_set.
Qed.

Lemma accessible_subset (users_param : option string) (with_family : bool) :
  ∃ ids,
    get_accessible_user_tg_ids fam request users_param with_family =
      Some ids ∧
    ∀ t, t ∈ ids → t ∈ get_related_tg_ids fam (user request).
Proof.
  destruct (truthy_str users_param) eqn:Hu.
  - destruct users_param as [s |]; [| done].
    assert (s ≠ "") as Hs.
    { intros ->. done. }
    destruct (accessible_with_users s with_family Hs) as (ids & Hids & Hmem).
    exists ids. split; [done |]. intros t Ht. by apply Hmem in Ht as [_ ?].
  - rewrite accessible_without_users by done. eexists. split; [done |].
    intros t. by rewrite elem_of_elements, elem_of_list_to_set.
Qed.

(** What the filter of the four list endpoints lets through. *)
Lemma owned_by_accessible (db : DB) (users_param : option string)
    (with_family : bool) (pk : option Z) :
  owned_by db
    (get_accessible_user_tg_ids fam request users_param with_family) pk →
  ∃ tg, owned_by_tg_id db pk tg ∧
        tg ∈ get_related_tg_ids fam (user request).
Proof.
  destruct (accessible_subset users_param with_family) as (ids & -> & Hsub).
  unfold owned_by, owned_by_tg_id.
  destruct (pk ≫= owner_tg_id db) as [tg |]; [| done].
  intros Htg. exists tg. split; [done |]. by apply Hsub.
Qed.
End AccessControl.

(** C4, as amended. For a requesting user who is no superuser,
    [get_accessible_user_tg_ids] returns a subset of the requester's
    accessible set (the related family tg_ids, the requester included):
    the whole set when the parameter [users] is missing or empty, and,
    for a non-empty parameter, the requested tg_ids (expanded through
    the family links when [with_family] is set and the expansion does
    not fail) that lie in that set. Hence no list endpoint (cards,
    jars, card transactions, jar transactions) returns an entity whose
    owner is outside the requester's accessible set. *)
Theorem non_superuser_access (rt : Runtime) (fam : FamilyLinks) (db : DB)
    (request : Request) :
  is_superuser (user request) = false →
  let accessible := get_related_tg_ids fam (user request) in
  (∀ users_param with_family,
     ∃ ids,
       get_accessible_user_tg_ids fam request users_param with_family =
         Some ids ∧
       (∀ t, t ∈ ids → t ∈ accessible) ∧
       (truthy_str users_param = false → ∀ t, t ∈ ids ↔ t ∈ accessible) ∧
       (∀ s, users_param = Some s → s ≠ "" →
          ∀ t, t ∈ ids ↔
               t ∈ requested_tg_ids fam s with_family ∧ t ∈ accessible)) ∧
  (∀ e, e ∈ MonoCardViewSet.get_queryset fam db request →
        ∃ tg, owned_by_tg_id db (Some (card_monoaccount e.2)) tg ∧
              tg ∈ accessible) ∧
  (∀ e, e ∈ MonoJarViewSet.get_queryset fam db request →
        ∃ tg, owned_by_tg_id db (Some (jar_monoaccount e.2)) tg ∧
              tg ∈ accessible) ∧
  (∀ e, e ∈ MonoTransactionViewSet.get_queryset fam db request →
        ∃ tg, owned_by_tg_id db
                (card_monoaccount <$> mono_cards db !! tx_account e.2) tg ∧
              tg ∈ accessible) ∧
  (∀ e, e ∈ MonoJarTransactionViewSet.get_queryset rt fam db request →
        ∃ tg, owned_by_tg_id db
                (jar_monoaccount <$> mono_jars db !! jtx_account e.2) tg ∧
              tg ∈ accessible).
Proof.
  intros Hns accessible. split; [| split; [| split; [| split]]].
  - intros users_param with_family.
    destruct (accessible_subset fam request Hns users_param with_family)
      as (ids & Hids & Hsub).
    exists ids. split; [done |]. split; [done |]. split.
    + intros Hu t.
      rewrite (accessible_without_users fam request Hns _ with_family Hu)
        in Hids.
      injection Hids as <-.
      by rewrite elem_of_elements, elem_of_list_to_set.
    + intros s -> Hs.
      destruct (accessible_with_users fam request Hns s with_family Hs)
        as (ids' & Hids' & Hmem).
      rewrite Hids in Hids'. by injection Hids' as <-.
  - intros e He. unfold MonoCardViewSet.get_queryset in He.
    apply list_elem_of_filter in He as [Hown _].
    by eapply owned_by_accessible.
  - intros e He. unfold MonoJarViewSet.get_queryset in He.
    destruct (q_is_budget request);
      [apply list_elem_of_filter in He as [_ He] |];
      apply list_elem_of_filter in He as [Hown _];
      by eapply owned_by_accessible.
  - intros e He. unfold MonoTransactionViewSet.get_queryset in He.
    apply list_elem_of_filter in He as [Hown _].
    by eapply owned_by_accessible.
  - intros e He. unfold MonoJarTransactionViewSet.get_queryset in He.
    apply list_elem_of_filter in He as [Hown _].
    by eapply owned_by_accessible.
Qed.

Lemma non_superuser_access_witness :
  let request :=
    sample_request "precreated_user_tg_id" false
      (Some "precreated_user_tg_id,some_user") (Some "1") in
  is_superuser (user request) = false ∧
  (∃ ids,
     get_accessible_user_tg_ids sample_family request (q_users request) true =
       Some ids ∧
     ∀ t, t ∈ ids → t ∈ get_related_tg_ids sample_family (user request)) ∧
  (∀ e, e ∈ MonoJarViewSet.get_queryset sample_family sample_db request →
        ∃ tg, owned_by_tg_id sample_db (Some (jar_monoaccount e.2)) tg ∧
              tg ∈ get_related_tg_ids sample_family (user request)).
Proof.
  intros request.
  pose proof (non_superuser_access utc_runtime sample_family sample_db
                request eq_refl) as (Hids & _ & Hjars & _).
  split; [reflexivity |]. split; [| exact Hjars].
  destruct (Hids (q_users request) true) as (ids & Heq & Hsub & _).
  exists ids. by split.
Defined.

(** C4, as stated, fails for a parameter [users] that is present but
    empty: the requested tg_ids, the items of the empty string, do not
    hold the requester, and yet the requester's whole accessible set is
    returned, not the intersection. *)
Lemma accessible_tg_ids_empty_users_param :
  let request :=
    sample_request "precreated_user_tg_id" false (Some "") None in
  is_superuser (user request) = false ∧
  ("precreated_user_tg_id" ∉ requested_tg_ids sample_family "" false) ∧
  (∃ ids,
     get_accessible_user_tg_ids sample_family request (q_users request)
       false = Some ids ∧
     "precreated_user_tg_id" ∈ ids).
Proof.
  split; [reflexivity |]. split.
  - vm_compute. intros Hin. apply list_elem_of_In in Hin.
    destruct Hin as [Heq | []]. discriminate.
  - eexists. split; [reflexivity |].
    apply elem_of_elements, elem_of_list_to_set. left.
Qed.

(** ** [MonoAccount.create_cards_jars] *)

(** Publishing messages touches the queue only. *)
Lemma for_each_apply_async {A} (xs : list A) (task : A → Task) (db : DB) :
  for_each xs (λ x, apply_async (task x)) db =
    (Ok tt, set_celery_queue (celery_queue db ++ (task <$> xs)) db).
Proof.
  revert db. induction xs as [| x xs IH]; intros db; simpl.
  - unfold mret, M_ret. f_equal. destruct db; simpl.
    unfold set_celery_queue; simpl. by rewrite app_nil_r.
  - unfold mbind, M_bind, apply_async, get_db, modify_db. simpl.
    rewrite IH. f_equal. unfold set_celery_queue; simpl.
    by rewrite <- app_assoc.
Qed.

(** The database after [create_cards_jars] with a payload. *)
Lemma create_cards_jars_run (bank : BankAPI) (self : MonoAccount)
    (data : ClientInfo) (db : DB) :
  MonoAccount.falsy (Some data) = false →
  let cards := default [] (ci_accounts data) in
  let jars := default [] (ci_jars data) in
  MonoAccount.create_cards_jars bank self (Some data) db =
    (Ok tt,
     {| currencies := currencies db; categories := categories db;
        category_msos := category_msos db;
        mono_accounts := mono_accounts db;
        mono_cards :=
          map_imap
            (λ id c, Some (MonoAccount.deactivate_card self
                             (MonoAccount.truthy_ids cd_id cards) id c))
            (mono_cards db);
        mono_jars :=
          map_imap
            (λ id j, Some (MonoAccount.deactivate_jar self
                             (MonoAccount.truthy_ids jd_id jars) id j))
            (mono_jars db);
        mono_transactions := mono_transactions db;
        jar_transactions := jar_transactions db;
        celery_queue :=
          celery_queue db ++
          ((λ card, Task_create_card_from_webhook (acc_user_tg_id self)
                      card true) <$> cards) ++
          ((λ jar, Task_create_jar_from_webhook (acc_user_tg_id self)
                     jar true) <$> jars) |}).
Proof.
  intros Hdata. unfold MonoAccount.create_cards_jars. rewrite Hdata.
  unfold mbind, M_bind, mret, M_ret, get_db, modify_db. simpl.
  rewrite !for_each_apply_async. simpl.
  f_equal. unfold set_celery_queue. simpl. by rewrite <- app_assoc.
Qed.

Lemma truthy_ids_elem_of {A} (get_id : A → option string) (xs : list A)
    (id : string) :
  id ∈ MonoAccount.truthy_ids get_id xs → ∃ x, x ∈ xs ∧ get_id x = Some id.
Proof.
  unfold MonoAccount.truthy_ids. intros Hin.
  apply list_elem_of_omap in Hin as (x & Hx & Hid).
  exists x. split; [done |]. by destruct (truthy_str (get_id x)).
Qed.

Example create_cards_jars_sample :
  let db' :=
    (MonoAccount.create_cards_jars silent_bank sample_owner
       (Some sample_client_info) sample_db).2 in
  card_is_active <$> mono_cards db' !! "old_card_id" = Some false ∧
  card_is_active <$> mono_cards db' !! "pre_created_card_id" = Some true ∧
  mono_cards db' !! "new_card_id" = None ∧
  jar_is_active <$> mono_jars db' !! "pre_created_jar_id2" = Some false ∧
  mono_jars db' !! "family_jar_id" = mono_jars sample_db !! "family_jar_id" ∧
  length (celery_queue db') = 3%nat.
Proof. vm_compute. repeat split; reflexivity. Qed.

(** C5. After [create_cards_jars] has run with a payload, every card
    that was stored for the account and whose id is not among the
    payload's [accounts] is inactive, every jar that was stored for the
    account and whose id is not among the payload's [jars] is inactive,
    and the cards and jars of other accounts are as they were. *)
Theorem create_cards_jars_marks_stale_inactive (bank : BankAPI)
    (self : MonoAccount) (data : ClientInfo) (db : DB) :
  MonoAccount.falsy (Some data) = false →
  ∃ db',
    MonoAccount.create_cards_jars bank self (Some data) db = (Ok tt, db') ∧
    (∀ id c,
       mono_cards db !! id = Some c → card_monoaccount c = acc_pk self →
       (∀ cd, cd ∈ default [] (ci_accounts data) → cd_id cd ≠ Some id) →
       ∃ c', mono_cards db' !! id = Some c' ∧ card_is_active c' = false) ∧
    (∀ id j,
       mono_jars db !! id = Some j → jar_monoaccount j = acc_pk self →
       (∀ jd, jd ∈ default [] (ci_jars data) → jd_id jd ≠ Some id) →
       ∃ j', mono_jars db' !! id = Some j' ∧ jar_is_active j' = false) ∧
    (∀ id c,
       mono_cards db !! id = Some c → card_monoaccount c ≠ acc_pk self →
       mono_cards db' !! id = Some c) ∧
    (∀ id j,
       mono_jars db !! id = Some j → jar_monoaccount j ≠ acc_pk self →
       mono_jars db' !! id = Some j).
Proof.
  intros Hdata. eexists. split; [by apply create_cards_jars_run |].
  simpl. split; [| split; [| split]].
  - intros id c Hc Hacc Hstale. rewrite map_lookup_imap, Hc. simpl.
    eexists. split; [reflexivity |].
    unfold MonoAccount.deactivate_card.
    rewrite bool_decide_true by done.
    rewrite bool_decide_false; [done |].
    intros (cd & Hcd & Hid)%truthy_ids_elem_of. by eapply Hstale.
  - intros id j Hj Hacc Hstale. rewrite map_lookup_imap, Hj. simpl.
    eexists. split; [reflexivity |].
    unfold MonoAccount.deactivate_jar.
    rewrite bool_decide_true by done.
    rewrite bool_decide_false; [done |].
    intros (jd & Hjd & Hid)%truthy_ids_elem_of. by eapply Hstale.
  - intros id c Hc Hacc. rewrite map_lookup_imap, Hc. simpl.
    unfold MonoAccount.deactivate_card. by rewrite bool_decide_false.
  - intros id j Hj Hacc. rewrite map_lookup_imap, Hj. simpl.
    unfold MonoAccount.deactivate_jar. by rewrite bool_decide_false.
Qed.

Lemma create_cards_jars_marks_stale_inactive_witness :
  MonoAccount.falsy (Some sample_client_info) = false ∧
  ∃ db',
    MonoAccount.create_cards_jars silent_bank sample_owner
      (Some sample_client_info) sample_db = (Ok tt, db') ∧
    (∀ id c,
       mono_cards sample_db !! id = Some c →
       card_monoaccount c = acc_pk sample_owner →
       (∀ cd, cd ∈ default [] (ci_accounts sample_client_info) →
              cd_id cd ≠ Some id) →
       ∃ c', mono_cards db' !! id = Some c' ∧ card_is_active c' = false) ∧
    (∀ id j,
       mono_jars sample_db !! id = Some j →
       jar_monoaccount j = acc_pk sample_owner →
       (∀ jd, jd ∈ default [] (ci_jars sample_client_info) →
              jd_id jd ≠ Some id) →
       ∃ j', mono_jars db' !! id = Some j' ∧ jar_is_active j' = false) ∧
    (∀ id c,
       mono_cards sample_db !! id = Some c →
       card_monoaccount c ≠ acc_pk sample_owner →
       mono_cards db' !! id = Some c) ∧
    (∀ id j,
       mono_jars sample_db !! id = Some j →
       jar_monoaccount j ≠ acc_pk sample_owner →
       mono_jars db' !! id = Some j).
Proof.
  split; [reflexivity |].
  exact (create_cards_jars_marks_stale_inactive silent_bank sample_owner
           sample_client_info sample_db eq_refl).
Defined.

(** ** Lookups on unique columns *)

Ltac run_M :=
  unfold mbind, M_bind, mret, M_ret, get_db, modify_db, raise, lift,
    try_except, pop;
  simpl.

Lemma filter_nil_intro {A} (P : A → Prop) `{!∀ x, Decision (P x)}
    (l : list A) :
  (∀ x, x ∈ l → ¬ P x) → filter P l = [].
Proof.
  intros Hnone. destruct (filter P l) as [| x l'] eqn:Hf; [done |].
  assert (x ∈ filter P l) as Hx by (rewrite Hf; left).
  apply list_elem_of_filter in Hx as [HP Hx]. by destruct (Hnone x Hx).
Qed.

(** A unique column selects at most one row. *)
Lemma filter_unique_column {A B} `{EqDecision B} (f : A → B) (v : B)
    (l : list A) :
  NoDup (f <$> l) →
  ((v ∉ f <$> l) ∧ filter (λ x, f x = v) l = []) ∨
  (∃ x, x ∈ l ∧ f x = v ∧ filter (λ x, f x = v) l = [x]).
Proof.
  induction l as [| a l IH]; intros Hnd.
  - left. split; [apply not_elem_of_nil | done].
  - rewrite fmap_cons in Hnd. apply NoDup_cons in Hnd as [Ha Hnd].
    rewrite filter_cons. destruct (decide (f a = v)) as [Hav | Hav].
    + right. exists a. split; [left |]. split; [done |]. f_equal.
      apply filter_nil_intro. intros x Hx Hxv. apply Ha.
      apply list_elem_of_fmap. exists x. split; [congruence | done].
    + destruct (IH Hnd) as [[Hv Hf] | (x & Hx & Hxv & Hf)].
      * left. split; [| done]. rewrite fmap_cons.
        intros [? | ?]%elem_of_cons; [congruence | done].
      * right. exists x. split; [by right | done].
Qed.

(** The currency of a payload: the stored one when its code is known,
    else a new one named "XXX". *)
Lemma resolve_currency_spec (code : Z) (db : DB) :
  NoDup (cur_code <$> currencies db) →
  (∃ cur, resolve_currency code db = (Ok cur, db) ∧
          cur ∈ currencies db ∧ cur_code cur = code) ∨
  ((code ∉ cur_code <$> currencies db) ∧
   let cur :=
     {| cur_pk := next_pk (cur_pk <$> currencies db); cur_code := code;
        cur_name := "XXX"; cur_flag := None; cur_symbol := None |} in
   resolve_currency code db =
     (Ok cur, set_currencies (currencies db ++ [cur]) db)).
Proof.
  intros Hnd. unfold resolve_currency, Currency_get, get_one. run_M.
  destruct (filter_unique_column cur_code code (currencies db) Hnd)
    as [[Hnew Hf] | (cur & Hin & Hcode & Hf)]; rewrite Hf; simpl.
  - right. split; [done |].
    unfold create_unknown_currency. run_M.
    by rewrite bool_decide_false.
  - left. by exists cur.
Qed.

(** ** Upserts of cards and jars *)

Lemma card_setattrs_carries (cd : CardData) (c : MonoCard) :
  card_carries cd (MonoCard.setattrs cd c) ∧
  card_is_active (MonoCard.setattrs cd c) = true.
Proof.
  unfold card_carries, MonoCard.setattrs. simpl.
  repeat split; intros v ->; done.
Qed.

Lemma card_new_row_carries (acct : MonoAccount) (cur : Currency)
    (cd : CardData) (id : string) (row : MonoCard) :
  MonoCard.new_row acct cur cd = Some (id, row) →
  id = default "" (cd_id cd) ∧ card_carries cd row ∧
  card_is_active row = true ∧ card_monoaccount row = acc_pk acct ∧
  card_currency row = cur_pk cur.
Proof.
  unfold MonoCard.new_row, card_carries.
  destruct (cd_balance cd) as [b |] eqn:Hb; simpl; [| done].
  destruct (cd_credit_limit cd) as [l |] eqn:Hl; simpl; [| done].
  intros [= <- <-]. simpl.
  repeat split; try done; intros v Hv; rewrite ?Hv; by simplify_eq/=.
Qed.

(** The second [try] of [create_card_from_webhook] writes one row, under
    the id of the payload. *)
Lemma card_update_or_create (acct : MonoAccount) (cur : Currency)
    (cd : CardData) (id : string) (code : Z) (db : DB) :
  card_payload cd id code →
  ∃ row,
    MonoCard.update_or_create acct cur cd db =
      (Ok (id, row), set_mono_cards (<[id := row]> (mono_cards db)) db) ∧
    card_is_active row = true ∧ card_carries cd row ∧
    (∀ old, mono_cards db !! id = Some old →
            row = MonoCard.setattrs cd old) ∧
    (mono_cards db !! id = None →
     card_monoaccount row = acc_pk acct ∧ card_currency row = cur_pk cur).
Proof.
  intros (Hid & _ & [b Hb] & [l Hl]).
  unfold MonoCard.update_or_create, get_by_id. run_M. rewrite Hid.
  destruct (mono_cards db !! id) as [old |] eqn:Hold; simpl.
  - exists (MonoCard.setattrs cd old).
    destruct (card_setattrs_carries cd old) as [Hc Ha].
    split; [done |]. split; [done |]. split; [done |].
    split; [by intros ? [= <-] | done].
  - unfold MonoCard.get_or_create. run_M.
    rewrite filter_nil_intro; simpl.
    2: { intros [id' c] Hin Hm. apply elem_of_map_to_list in Hin.
         unfold MonoCard.lookup_matches in Hm. rewrite Hid in Hm.
         simpl in Hm. rewrite !andb_True in Hm. destruct_and!.
         congruence. }
    destruct (MonoCard.new_row acct cur cd) as [[id' row] |] eqn:Hrow.
    2: { unfold MonoCard.new_row in Hrow. by rewrite Hb, Hl in Hrow. }
    apply card_new_row_carries in Hrow as (-> & Hc & Ha & Hacc & Hcur).
    rewrite Hid. simpl. rewrite Hold. simpl.
    exists row. done.
Qed.

Lemma jar_setattrs_carries (jd : JarData) (j : MonoJar) :
  jar_carries jd (MonoJar.setattrs jd j) ∧
  jar_is_active (MonoJar.setattrs jd j) = true.
Proof.
  unfold jar_carries, MonoJar.setattrs. simpl.
  repeat split; intros v ->; done.
Qed.

Lemma jar_new_row_carries (acct : MonoAccount) (cur : Currency)
    (jd : JarData) (id : string) (row : MonoJar) :
  MonoJar.new_row acct cur jd = Some (id, row) →
  id = default "" (jd_id jd) ∧ jar_carries jd row ∧
  jar_is_active row = true ∧ jar_monoaccount row = acc_pk acct ∧
  jar_currency row = cur_pk cur.
Proof.
  unfold MonoJar.new_row, jar_carries.
  destruct (jd_balance jd) as [b |] eqn:Hb; simpl; [| done].
  intros [= <- <-]. simpl.
  repeat split; try done; intros v Hv; rewrite ?Hv; by simplify_eq/=.
Qed.

Lemma jar_update_or_create (acct : MonoAccount) (cur : Currency)
    (jd : JarData) (id : string) (code : Z) (db : DB) :
  jar_payload jd id code →
  ∃ row,
    MonoJar.update_or_create acct cur jd db =
      (Ok (id, row), set_mono_jars (<[id := row]> (mono_jars db)) db) ∧
    jar_is_active row = true ∧ jar_carries jd row ∧
    (∀ old, mono_jars db !! id = Some old → row = MonoJar.setattrs jd old) ∧
    (mono_jars db !! id = None →
     jar_monoaccount row = acc_pk acct ∧ jar_currency row = cur_pk cur).
Proof.
  intros (Hid & _ & _ & [b Hb]).
  unfold MonoJar.update_or_create, get_by_id. run_M. rewrite Hid.
  destruct (mono_jars db !! id) as [old |] eqn:Hold; simpl.
  - exists (MonoJar.setattrs jd old).
    destruct (jar_setattrs_carries jd old) as [Hc Ha].
    split; [done |]. split; [done |]. split; [done |].
    split; [by intros ? [= <-] | done].
  - unfold MonoJar.get_or_create. run_M.
    rewrite filter_nil_intro; simpl.
    2: { intros [id' c] Hin Hm. apply elem_of_map_to_list in Hin.
         unfold MonoJar.lookup_matches in Hm. rewrite Hid in Hm.
         simpl in Hm. rewrite !andb_True in Hm. destruct_and!.
         congruence. }
    destruct (MonoJar.new_row acct cur jd) as [[id' row] |] eqn:Hrow.
    2: { unfold MonoJar.new_row in Hrow. by rewrite Hb in Hrow. }
    apply jar_new_row_carries in Hrow as (-> & Hc & Ha & Hacc & Hcur).
    rewrite Hid. simpl. rewrite Hold. simpl.
    exists row. done.
Qed.

(** Reading does not write. *)
Lemma get_one_db {A} (m : model) (rows : list A) (db : DB) :
  (get_one m rows db).2 = db.
Proof. unfold get_one. by destruct rows as [| r [| r' rows]]. Qed.

Lemma MonoAccount_get_by_pk_db (pk : Z) (db : DB) :
  (MonoAccount_get_by_pk pk db).2 = db.
Proof.
  unfold MonoAccount_get_by_pk. run_M.
  pose proof (get_one_db MonoAccountModel
                (filter (λ a, acc_pk a = pk) (mono_accounts db)) db) as Hg.
  by destruct (get_one _ _ db) as [[r | e] db']; simpl in *.
Qed.

Lemma same_tables_refl (db : DB) : same_tables db db.
Proof. by repeat split. Qed.

Lemma same_tables_queue (q : list Task) (db : DB) :
  same_tables db (set_celery_queue q db).
Proof. by repeat split. Qed.

(** Fetching the statement publishes messages and writes no table. *)
Lemma card_get_transactions_tables (bank : BankAPI)
    (self : string * MonoCard) (db : DB) :
  same_tables db (MonoCard.get_transactions bank self None None db).2.
Proof.
  unfold MonoCard.get_transactions.
  destruct (statement_window bank None None) as [from_unix to_unix].
  run_M. pose proof (MonoAccount_get_by_pk_db (card_monoaccount self.2) db).
  destruct (MonoAccount_get_by_pk _ db) as [[a | e] db']; simpl in *; subst;
    [| apply same_tables_refl].
  destruct (statement bank _ _ _ _) as [data | e]; simpl;
    [| apply same_tables_refl].
  rewrite for_each_apply_async. simpl. apply same_tables_queue.
Qed.

Lemma jar_get_transactions_tables (bank : BankAPI)
    (self : string * MonoJar) (db : DB) :
  same_tables db (MonoJar.get_transactions bank self None None db).2.
Proof.
  unfold MonoJar.get_transactions.
  destruct (statement_window bank None None) as [from_unix to_unix].
  run_M. pose proof (MonoAccount_get_by_pk_db (jar_monoaccount self.2) db).
  destruct (MonoAccount_get_by_pk _ db) as [[a | e] db']; simpl in *; subst;
    [| apply same_tables_refl].
  destruct (statement bank _ _ _ _) as [data | e]; simpl;
    [| apply same_tables_refl].
  rewrite for_each_apply_async. simpl. apply same_tables_queue.
Qed.

(** The tables after [create_card_from_webhook]: the currency of the
    payload is resolved, and then one row is written. *)
Lemma create_card_from_webhook_run (bank : BankAPI) (tg_id : string)
    (acct : MonoAccount) (cd : CardData) (id : string) (code : Z)
    (upd : bool) (db : DB) :
  MonoAccount_get_by_tg_id tg_id db = (Ok acct, db) →
  NoDup (cur_code <$> currencies db) →
  card_payload cd id code →
  ∃ cur db1 row,
    resolve_currency code db = (Ok cur, db1) ∧
    MonoCard.update_or_create acct cur cd db1 =
      (Ok (id, row), set_mono_cards (<[id := row]> (mono_cards db1)) db1) ∧
    same_tables (set_mono_cards (<[id := row]> (mono_cards db1)) db1)
      (MonoCard.create_card_from_webhook bank tg_id cd upd db).2 ∧
    (upd = false →
     (MonoCard.create_card_from_webhook bank tg_id cd upd db).1 = Ok tt).
Proof.
  intros Hacct Hnd Hpay. pose proof Hpay as (Hid & Hcode & _).
  assert (∃ cur db1, resolve_currency code db = (Ok cur, db1))
    as (cur & db1 & Hcur).
  { destruct (resolve_currency_spec code db Hnd) as [(c & Hc & _) | [_ Hc]];
      eauto. }
  destruct (card_update_or_create acct cur cd id code db1 Hpay)
    as (row & Hrow & _).
  exists cur, db1, row. split; [done |]. split; [done |].
  assert (MonoCard.create_card_from_webhook bank tg_id cd upd db =
          (if upd
           then MonoCard.get_transactions bank (id, row) None None;; mret tt
           else mret tt)
            (set_mono_cards (<[id:=row]> (mono_cards db1)) db1)) as ->.
  { unfold MonoCard.create_card_from_webhook. run_M.
    rewrite Hacct, Hcode. simpl. rewrite Hcur. simpl. rewrite Hrow.
    by destruct upd. }
  destruct upd.
  - split; [| done]. run_M.
    pose proof (card_get_transactions_tables bank (id, row)
      (set_mono_cards (<[id:=row]> (mono_cards db1)) db1)) as Hst.
    by destruct (MonoCard.get_transactions _ _ _ _ _) as [[r | e] db2].
  - split; [apply same_tables_refl | done].
Qed.

Lemma create_jar_from_webhook_run (bank : BankAPI) (tg_id : string)
    (acct : MonoAccount) (jd : JarData) (id : string) (code : Z)
    (upd : bool) (db : DB) :
  MonoAccount_get_by_tg_id tg_id db = (Ok acct, db) →
  NoDup (cur_code <$> currencies db) →
  jar_payload jd id code →
  ∃ cur db1 row,
    resolve_currency code db = (Ok cur, db1) ∧
    MonoJar.update_or_create acct cur jd db1 =
      (Ok (id, row), set_mono_jars (<[id := row]> (mono_jars db1)) db1) ∧
    same_tables (set_mono_jars (<[id := row]> (mono_jars db1)) db1)
      (MonoJar.create_jar_from_webhook bank tg_id jd upd db).2 ∧
    (upd = false →
     (MonoJar.create_jar_from_webhook bank tg_id jd upd db).1 = Ok tt).
Proof.
  intros Hacct Hnd Hpay. pose proof Hpay as (Hid & [descr Hd] & Hcode & _).
  assert (∃ cur db1, resolve_currency code db = (Ok cur, db1))
    as (cur & db1 & Hcur).
  { destruct (resolve_currency_spec code db Hnd) as [(c & Hc & _) | [_ Hc]];
      eauto. }
  destruct (jar_update_or_create acct cur jd id code db1 Hpay)
    as (row & Hrow & _).
  exists cur, db1, row. split; [done |]. split; [done |].
  assert (MonoJar.create_jar_from_webhook bank tg_id jd upd db =
          (if upd
           then MonoJar.get_transactions bank (id, row) None None;; mret tt
           else mret tt)
            (set_mono_jars (<[id:=row]> (mono_jars db1)) db1)) as ->.
  { unfold MonoJar.create_jar_from_webhook. run_M.
    rewrite Hacct, Hd, Hcode. simpl. rewrite Hcur. simpl. rewrite Hrow.
    by destruct upd. }
  destruct upd.
  - split; [| done]. run_M.
    pose proof (jar_get_transactions_tables bank (id, row)
      (set_mono_jars (<[id:=row]> (mono_jars db1)) db1)) as Hst.
    by destruct (MonoJar.get_transactions _ _ _ _ _) as [[r | e] db2].
  - split; [apply same_tables_refl | done].
Qed.

(** Resolving a currency writes no table but [Currency]. *)
Lemma resolve_currency_tables (code : Z) (db db1 : DB) (cur : Currency) :
  NoDup (cur_code <$> currencies db) →
  resolve_currency code db = (Ok cur, db1) →
  mono_cards db1 = mono_cards db ∧ mono_jars db1 = mono_jars db ∧
  mono_accounts db1 = mono_accounts db ∧
  mono_transactions db1 = mono_transactions db ∧
  jar_transactions db1 = jar_transactions db ∧
  categories db1 = categories db ∧ category_msos db1 = category_msos db.
Proof.
  intros Hnd Hres.
  destruct (resolve_currency_spec code db Hnd) as [(c & Hc & _) | [_ Hc]];
    rewrite Hc in Hres; simplify_eq; done.
Qed.


Example create_card_updates_existing :
  let db' :=
    (MonoCard.create_card_from_webhook silent_bank "precreated_user_tg_id"
       (sample_card_data "old_card_id" 980 777) false sample_db).2 in
  card_balance <$> mono_cards db' !! "old_card_id" = Some 777 ∧
  card_type <$> mono_cards db' !! "old_card_id" = Some "white" ∧
  size (mono_cards db') = size (mono_cards sample_db) ∧
  currencies db' = currencies sample_db.
Proof. vm_compute. repeat split; reflexivity. Qed.

Example create_jar_adds_new :
  let db' :=
    (MonoJar.create_jar_from_webhook silent_bank "family_member_tg_id"
       (sample_jar_data "new_jar_id" 980 300) true sample_db).2 in
  mono_jars db' !! "new_jar_id" =
    Some {| jar_monoaccount := 2; jar_send_id := "send2";
            jar_title := "renamed"; jar_currency := 1; jar_balance := 300;
            jar_goal := Some 5000; jar_is_budget := false;
            jar_is_active := true; jar_invested := 0 |} ∧
  size (mono_jars db') = S (size (mono_jars sample_db)).
Proof. vm_compute. repeat split; reflexivity. Qed.

Lemma sample_db_unique_columns : unique_columns sample_db.
Proof.
  repeat split; apply (bool_decide_unpack _); vm_compute; exact I.
Qed.


(** ** Unknown currencies and merchant codes *)

(** C7 at a stored card whose payload names an unknown currency: the
    currency 840 is created with the name "XXX", and it is not attached
    to the card, which keeps the currency it had (the row 1, code 980),
    while its other fields are updated. *)
Lemma existing_card_unknown_currency_not_attached :
  let cd := sample_card_data "old_card_id" 840 777 in
  let out :=
    MonoCard.create_card_from_webhook silent_bank "precreated_user_tg_id"
      cd false sample_db in
  out.1 = Ok tt ∧
  (840 ∉ cur_code <$> currencies sample_db) ∧
  currencies out.2 =
    currencies sample_db ++
    [{| cur_pk := 2; cur_code := 840; cur_name := "XXX";
        cur_flag := None; cur_symbol := None |}] ∧
  card_currency <$> mono_cards sample_db !! "old_card_id" = Some 1 ∧
  card_currency <$> mono_cards out.2 !! "old_card_id" = Some 1 ∧
  card_balance <$> mono_cards out.2 !! "old_card_id" = Some 777.
Proof.
  split; [vm_compute; reflexivity |]. split.
  - vm_compute. intros Hin. apply list_elem_of_In in Hin.
    destruct Hin as [Heq | []]. discriminate.
  - vm_compute. repeat split; reflexivity.
Qed.

(** The same for a stored jar. *)
Example existing_jar_unknown_currency_not_attached :
  let jd := sample_jar_data "pre_created_jar_id" 840 300 in
  let out :=
    MonoJar.create_jar_from_webhook silent_bank "precreated_user_tg_id"
      jd false sample_db in
  out.1 = Ok tt ∧
  (cur_code <$> currencies out.2) = [980; 840] ∧
  jar_currency <$> mono_jars out.2 !! "pre_created_jar_id" = Some 1.
Proof. vm_compute. repeat split; reflexivity. Qed.

(** A new card does get the currency that was created for it. *)
Example new_card_unknown_currency_attached :
  let cd := sample_card_data "new_card_id" 840 200 in
  let out :=
    MonoCard.create_card_from_webhook silent_bank "precreated_user_tg_id"
      cd false sample_db in
  out.1 = Ok tt ∧
  (cur_code <$> currencies out.2) = [980; 840] ∧
  card_currency <$> mono_cards out.2 !! "new_card_id" = Some 2.
Proof. vm_compute. repeat split; reflexivity. Qed.

(** In general: a stored card keeps its currency, whatever the payload
    says and whether or not a currency was created for it. *)
Lemma existing_card_keeps_currency (bank : BankAPI) (tg_id : string)
    (acct : MonoAccount) (cd : CardData) (id : string) (code : Z)
    (upd : bool) (old : MonoCard) (db : DB) :
  MonoAccount_get_by_tg_id tg_id db = (Ok acct, db) →
  NoDup (cur_code <$> currencies db) →
  card_payload cd id code →
  mono_cards db !! id = Some old →
  let out := MonoCard.create_card_from_webhook bank tg_id cd upd db in
  card_currency <$> mono_cards out.2 !! id = Some (card_currency old) ∧
  (code ∉ cur_code <$> currencies db →
   ∃ cur, currencies out.2 = currencies db ++ [cur] ∧
          cur_code cur = code ∧ cur_name cur = "XXX" ∧
          cur_pk cur ∉ cur_pk <$> currencies db).
Proof.
  intros Hacct Hnd Hpay Hold out.
  destruct (create_card_from_webhook_run bank tg_id acct cd id code upd db
              Hacct Hnd Hpay)
    as (cur & db1 & row & Hcur & Hrow & Hsame & _).
  destruct (resolve_currency_tables code db db1 cur Hnd Hcur) as (Hcards & _).
  destruct (card_update_or_create acct cur cd id code db1 Hpay)
    as (row' & Hrow' & _ & _ & Hupd & _).
  rewrite Hrow in Hrow'. assert (row' = row) as -> by congruence.
  rewrite Hcards in Hupd. specialize (Hupd old Hold). subst row.
  destruct Hsame as (Hcurs & _ & _ & _ & Hc & _). simpl in Hc, Hcurs.
  unfold out. rewrite Hc, Hcurs. split.
  - by rewrite lookup_insert_eq.
  - intros Hnew.
    destruct (resolve_currency_spec code db Hnd)
      as [(c & Hc' & Hin & Hcode) | [_ Hc']].
    + exfalso. apply Hnew. apply list_elem_of_fmap. by exists c.
    + simpl in Hc'. rewrite Hc' in Hcur. simplify_eq. simpl.
      eexists. split; [reflexivity |]. split; [done |]. split; [done |].
      simpl. unfold next_pk. intros Hin.
      assert (∀ l x, x ∈ l → x ≤ foldr Z.max 0 l) as Hmax.
      { clear. induction l as [| a l IH]; intros x Hx;
          [by apply elem_of_nil in Hx |].
        apply elem_of_cons in Hx as [-> | Hx]; simpl; [lia |].
        specialize (IH x Hx). lia. }
      specialize (Hmax _ _ Hin). lia.
Qed.

(** ** Currencies and merchant codes of ingested entities *)

Lemma resolve_currency_resolved (code : Z) (db : DB) :
  NoDup (cur_code <$> currencies db) →
  ∃ cur db1,
    resolve_currency code db = (Ok cur, db1) ∧
    currency_resolved db db1 code (cur_pk cur) ∧
    categories db1 = categories db ∧
    category_msos db1 = category_msos db ∧
    mono_accounts db1 = mono_accounts db ∧ mono_cards db1 = mono_cards db ∧
    mono_jars db1 = mono_jars db ∧
    mono_transactions db1 = mono_transactions db ∧
    jar_transactions db1 = jar_transactions db.
Proof.
  intros Hnd.
  destruct (resolve_currency_spec code db Hnd)
    as [(cur & Hres & Hin & Hcode) | [Hnew Hres]].
  - exists cur, db. split; [done |]. split; [| by repeat split].
    exists cur. split; [done |]. split; [done |]. split; [done |]. by left.
  - simpl in Hres. eexists _, _. split; [exact Hres |].
    split; [| by repeat split].
    exists {| cur_pk := next_pk (cur_pk <$> currencies db); cur_code := code;
              cur_name := "XXX"; cur_flag := None; cur_symbol := None |}.
    split; [| split; [| split]]; [| done | done |].
    + simpl. apply elem_of_app. right. left.
    + right. done.
Qed.

Lemma next_pk_fresh (pks : list Z) : next_pk pks ∉ pks.
Proof.
  unfold next_pk. intros Hin.
  assert (∀ l x, x ∈ l → x ≤ foldr Z.max 0 l) as Hmax.
  { clear. induction l as [| a l IH]; intros x Hx;
      [by apply elem_of_nil in Hx |].
    apply elem_of_cons in Hx as [-> | Hx]; simpl; [lia |].
    specialize (IH x Hx). lia. }
  specialize (Hmax _ _ Hin). lia.
Qed.

(** The category "Інше": the stored one, or a new one. *)
Lemma Category_get_or_create_spec (name : string) (db : DB) :
  NoDup (cat_name <$> categories db) →
  ∃ cat db1,
    Category_get_or_create name db = (Ok cat, db1) ∧
    cat ∈ categories db1 ∧ cat_name cat = name ∧
    currencies db1 = currencies db ∧ category_msos db1 = category_msos db ∧
    mono_accounts db1 = mono_accounts db ∧ mono_cards db1 = mono_cards db ∧
    mono_jars db1 = mono_jars db ∧
    mono_transactions db1 = mono_transactions db ∧
    jar_transactions db1 = jar_transactions db.
Proof.
  intros Hnd. unfold Category_get_or_create, get_one. run_M.
  destruct (filter_unique_column cat_name name (categories db) Hnd)
    as [[Hnew Hf] | (cat & Hin & Hname & Hf)]; rewrite Hf; simpl.
  - eexists _, _. split; [reflexivity |]. simpl.
    split; [apply elem_of_app; right; left | by repeat split].
  - exists cat, db. by repeat split.
Qed.

Lemma resolve_mcc_resolved (td : TransactionDict) (mso : Z) (db : DB) :
  NoDup (mso_mso <$> category_msos db) →
  NoDup (cat_name <$> categories db) →
  td_mcc td = Some mso →
  ∃ m db1,
    resolve_mcc td db = (Ok m, db1) ∧
    mcc_resolved db db1 mso (mso_pk m) ∧
    currencies db1 = currencies db ∧
    mono_accounts db1 = mono_accounts db ∧ mono_cards db1 = mono_cards db ∧
    mono_jars db1 = mono_jars db ∧
    mono_transactions db1 = mono_transactions db ∧
    jar_transactions db1 = jar_transactions db.
Proof.
  intros Hnd Hndc Hmcc. unfold resolve_mcc. rewrite Hmcc.
  unfold CategoryMSO_get, get_one. run_M.
  destruct (filter_unique_column mso_mso mso (category_msos db) Hnd)
    as [[Hnew Hf] | (m & Hin & Hmso & Hf)]; rewrite Hf; simpl.
  - destruct (Category_get_or_create_spec OTHER_CATEGORY db Hndc)
      as (cat & db1 & Hcat & Hcin & Hcname & Hcur & Hmsos & Hrest).
    rewrite Hcat. unfold CategoryMSO_create. run_M. rewrite Hmsos.
    rewrite bool_decide_false by done.
    eexists _, _. split; [reflexivity |]. simpl. split; [| by rewrite Hcur].
    exists {| mso_pk := next_pk (mso_pk <$> category_msos db);
              mso_category := cat_pk cat; mso_mso := mso |}.
    split; [| split; [| split]]; [| done | done |].
    + apply elem_of_app. right. left.
    + right. split; [done |]. split; [done |]. by exists cat.
  - exists m, db. split; [done |]. split; [| by repeat split].
    exists m. split; [done |]. split; [done |]. split; [done |]. by left.
Qed.

Lemma currency_resolved_tables (db db1 db2 : DB) (code pk : Z) :
  currencies db1 = currencies db →
  currency_resolved db1 db2 code pk → currency_resolved db db2 code pk.
Proof.
  intros Heq (cur & Hin & Hcode & Hpk & Hcase). exists cur.
  rewrite <- Heq. done.
Qed.

(** A new card transaction is stored with the currency and the merchant
    code of its statement item, each resolved to a stored row or to a
    new one. *)
Lemma create_transaction_resolves (card_id : string) (card : MonoCard)
    (td : TransactionDict) (id : string) (mso code : Z) (db : DB) :
  unique_columns db →
  mono_cards db !! card_id = Some card →
  statement_payload td id mso code →
  mono_transactions db !! id = None →
  let out := MonoTransaction.create_transaction_from_webhook card_id td db in
  out.1 = Ok tt ∧
  ∃ row pk,
    mono_transactions out.2 = <[id := row]> (mono_transactions db) ∧
    tx_account row = card_id ∧
    tx_currency row = Some pk ∧ currency_resolved db out.2 code pk ∧
    mcc_resolved db out.2 mso (tx_mcc row).
Proof.
  intros (Hndc & Hndm & Hndn) Hcard
    (Hid & Hmcc & Hcode & [t Ht] & [a Ha] & [b Hb] & [h Hh] & [c Hc]) Hnew out.
  destruct (resolve_mcc_resolved td mso db Hndm Hndn Hmcc)
    as (m & db1 & Hm & Hmres & Hcur1 & _ & _ & _ & Htx1 & _).
  assert (NoDup (cur_code <$> currencies db1)) as Hndc1 by by rewrite Hcur1.
  destruct (resolve_currency_resolved code db1 Hndc1)
    as (cur & db2 & Hc2 & Hcres & Hcat2 & Hmso2 & _ & _ & _ & Htx2 & _).
  subst out. unfold MonoTransaction.create_transaction_from_webhook, get_by_id.
  run_M. rewrite Hcard. simpl. rewrite Hm, Hcode. simpl. rewrite Hc2.
  unfold MonoTransaction.get_or_create. run_M.
  rewrite filter_nil_intro; simpl.
  2: { intros [id' x] Hin Hmatch. apply elem_of_map_to_list in Hin.
       unfold MonoTransaction.lookup_matches in Hmatch. rewrite Hid in Hmatch.
       simpl in Hmatch. rewrite !andb_True in Hmatch. destruct_and!.
       congruence. }
  unfold MonoTransaction.new_row. rewrite Ht, Ha, Hb, Hh, Hc, Hid. simpl.
  rewrite Htx2, Htx1, Hnew. simpl. split; [done |].
  eexists _, (cur_pk cur). split; [reflexivity |]. simpl.
  split; [done |]. split; [done |]. split.
  - by eapply currency_resolved_tables.
  - destruct Hmres as (m' & Hin & Hmso & Hpk & Hcase). exists m'.
    simpl. rewrite Hmso2, Hcat2. done.
Qed.

(** The same for a new jar transaction. *)
Lemma create_jar_transaction_resolves (jar_id : string) (jar : MonoJar)
    (td : TransactionDict) (id : string) (mso code : Z) (db : DB) :
  unique_columns db →
  mono_jars db !! jar_id = Some jar →
  statement_payload td id mso code → td_receipt_id td = None →
  jar_transactions db !! id = None →
  let out :=
    JarTransaction.create_jar_transaction_from_webhook jar_id td db in
  out.1 = Ok tt ∧
  ∃ row pk,
    jar_transactions out.2 = <[id := row]> (jar_transactions db) ∧
    jtx_account row = jar_id ∧
    jtx_currency row = Some pk ∧ currency_resolved db out.2 code pk ∧
    mcc_resolved db out.2 mso (jtx_mcc row).
Proof.
  intros (Hndc & Hndm & Hndn) Hjar
    (Hid & Hmcc & Hcode & [t Ht] & [a Ha] & [b Hb] & [h Hh] & [c Hc])
    Hrec Hnew out.
  destruct (resolve_mcc_resolved td mso db Hndm Hndn Hmcc)
    as (m & db1 & Hm & Hmres & Hcur1 & _ & _ & _ & _ & Htx1).
  assert (NoDup (cur_code <$> currencies db1)) as Hndc1 by by rewrite Hcur1.
  destruct (resolve_currency_resolved code db1 Hndc1)
    as (cur & db2 & Hc2 & Hcres & Hcat2 & Hmso2 & _ & _ & _ & _ & Htx2).
  subst out.
  unfold JarTransaction.create_jar_transaction_from_webhook, get_by_id.
  run_M. rewrite Hjar. simpl. rewrite Hm, Hcode. simpl. rewrite Hc2.
  unfold JarTransaction.get_or_create. run_M. rewrite Hrec. simpl.
  rewrite filter_nil_intro; simpl.
  2: { intros [id' x] Hin Hmatch. apply elem_of_map_to_list in Hin.
       unfold JarTransaction.lookup_matches in Hmatch. rewrite Hid in Hmatch.
       simpl in Hmatch. rewrite !andb_True in Hmatch. destruct_and!.
       congruence. }
  unfold JarTransaction.new_row. rewrite Ht, Ha, Hb, Hh, Hc, Hid. simpl.
  rewrite Htx2, Htx1, Hnew. simpl. split; [done |].
  eexists _, (cur_pk cur). split; [reflexivity |]. simpl.
  split; [done |]. split; [done |]. split.
  - by eapply currency_resolved_tables.
  - destruct Hmres as (m' & Hin & Hmso & Hpk & Hcase). exists m'.
    simpl. rewrite Hmso2, Hcat2. done.
Qed.

(** A new card gets the currency of its payload, resolved to a stored
    row or to a new one. *)
Lemma new_card_currency_resolved (bank : BankAPI) (tg_id : string)
    (acct : MonoAccount) (cd : CardData) (id : string) (code : Z)
    (upd : bool) (db : DB) :
  MonoAccount_get_by_tg_id tg_id db = (Ok acct, db) →
  NoDup (cur_code <$> currencies db) →
  card_payload cd id code →
  mono_cards db !! id = None →
  let out := MonoCard.create_card_from_webhook bank tg_id cd upd db in
  ∃ row,
    mono_cards out.2 !! id = Some row ∧
    card_monoaccount row = acc_pk acct ∧
    currency_resolved db out.2 code (card_currency row).
Proof.
  intros Hacct Hnd Hpay Hnew out.
  destruct (create_card_from_webhook_run bank tg_id acct cd id code upd db
              Hacct Hnd Hpay)
    as (cur & db1 & row & Hcur & Hrow & Hsame & _).
  destruct (resolve_currency_resolved code db Hnd)
    as (cur' & db1' & Hcur' & Hres & _ & _ & _ & Hcards & _).
  rewrite Hcur in Hcur'. simplify_eq.
  destruct (card_update_or_create acct cur' cd id code db1' Hpay)
    as (row' & Hrow' & _ & _ & _ & Hfresh).
  rewrite Hrow in Hrow'. assert (row' = row) as -> by congruence.
  rewrite Hcards in Hfresh. destruct (Hfresh Hnew) as [Hacc Hc].
  destruct Hsame as (Hcurs & _ & _ & _ & Hmc & _). simpl in Hmc, Hcurs.
  exists row. unfold out. rewrite Hmc, lookup_insert_eq.
  split; [done |]. split; [done |]. rewrite Hc.
  destruct Hres as (c & Hin & Hcode & Hpk & Hcase). exists c.
  by rewrite Hcurs.
Qed.

Lemma new_jar_currency_resolved (bank : BankAPI) (tg_id : string)
    (acct : MonoAccount) (jd : JarData) (id : string) (code : Z)
    (upd : bool) (db : DB) :
  MonoAccount_get_by_tg_id tg_id db = (Ok acct, db) →
  NoDup (cur_code <$> currencies db) →
  jar_payload jd id code →
  mono_jars db !! id = None →
  let out := MonoJar.create_jar_from_webhook bank tg_id jd upd db in
  ∃ row,
    mono_jars out.2 !! id = Some row ∧
    jar_monoaccount row = acc_pk acct ∧
    currency_resolved db out.2 code (jar_currency row).
Proof.
  intros Hacct Hnd Hpay Hnew out.
  destruct (create_jar_from_webhook_run bank tg_id acct jd id code upd db
              Hacct Hnd Hpay)
    as (cur & db1 & row & Hcur & Hrow & Hsame & _).
  destruct (resolve_currency_resolved code db Hnd)
    as (cur' & db1' & Hcur' & Hres & _ & _ & _ & _ & Hjars & _).
  rewrite Hcur in Hcur'. simplify_eq.
  destruct (jar_update_or_create acct cur' jd id code db1' Hpay)
    as (row' & Hrow' & _ & _ & _ & Hfresh).
  rewrite Hrow in Hrow'. assert (row' = row) as -> by congruence.
  rewrite Hjars in Hfresh. destruct (Hfresh Hnew) as [Hacc Hc].
  destruct Hsame as (Hcurs & _ & _ & _ & _ & Hmj & _). simpl in Hmj, Hcurs.
  exists row. unfold out. rewrite Hmj, lookup_insert_eq.
  split; [done |]. split; [done |]. rewrite Hc.
  destruct Hres as (c & Hin & Hcode & Hpk & Hcase). exists c.
  by rewrite Hcurs.
Qed.

Example card_transaction_unknown_currency_and_mcc :
  let td :=
    {| td_id := Some "tx1"; td_time := Some 1754000000;
       td_description := Some "coffee"; td_mcc := Some 5814;
       td_original_mcc := Some 5814; td_amount := Some (-9500);
       td_operation_amount := Some (-250); td_currency_code := Some 978;
       td_commission_rate := Some 0; td_cashback_amount := Some 0;
       td_balance := Some 100000; td_hold := Some true;
       td_receipt_id := None; td_comment := None |} in
  let out :=
    MonoTransaction.create_transaction_from_webhook "pre_created_card_id"
      td sample_db in
  out.1 = Ok tt ∧
  currencies out.2 =
    [sample_currency;
     {| cur_pk := 2; cur_code := 978; cur_name := "XXX";
        cur_flag := None; cur_symbol := None |}] ∧
  categories out.2 =
    categories sample_db ++
    [{| cat_pk := 2; cat_name := OTHER_CATEGORY; cat_symbol := None;
        cat_user_defined := false |}] ∧
  category_msos out.2 =
    category_msos sample_db ++
    [{| mso_pk := 2; mso_category := 2; mso_mso := 5814 |}] ∧
  tx_currency <$> mono_transactions out.2 !! "tx1" = Some (Some 2) ∧
  tx_mcc <$> mono_transactions out.2 !! "tx1" = Some 2.
Proof. vm_compute. repeat split; reflexivity. Qed.

(** ** The calendar: [_ord2ymd] inverts [_ymd2ord] *)

Lemma is_leap_spec (y : Z) :
  _is_leap y = true ↔ y mod 4 = 0 ∧ (y mod 100 ≠ 0 ∨ y mod 400 = 0).
Proof.
  unfold _is_leap.
  rewrite andb_true_iff, orb_true_iff, negb_true_iff, !Z.eqb_eq, Z.eqb_neq.
  tauto.
Qed.

Lemma days_before_year_succ (y : Z) :
  _days_before_year (y + 1) = _days_before_year y + days_in_year y.
Proof.
  unfold _days_before_year, days_in_year.
  destruct (_is_leap y) eqn:Hleap.
  - apply is_leap_spec in Hleap. Z.div_mod_to_equations; lia.
  - assert (¬ (y mod 4 = 0 ∧ (y mod 100 ≠ 0 ∨ y mod 400 = 0))) as Hn.
    { rewrite <- is_leap_spec. congruence. }
    Z.div_mod_to_equations; lia.
Qed.

(** The year that [_ord2ymd] finds, and the day of the year. *)
Lemma ord2ymd_year (n : Z) :
  let n0 := n - 1 in
  let n400 := n0 / 146097 in
  let r400 := n0 mod 146097 in
  let n100 := r400 / 36524 in
  let r100 := r400 mod 36524 in
  let n4 := r100 / 1461 in
  let r4 := r100 mod 1461 in
  let n1 := r4 / 365 in
  let r1 := r4 mod 365 in
  let year := n400 * 400 + 1 + n100 * 100 + n4 * 4 + n1 in
  if (n1 =? 4) || (n100 =? 4)
  then _is_leap (year - 1) = true ∧
       n0 = _days_before_year (year - 1) + 365
  else _is_leap year = ((n1 =? 3) && (negb (n4 =? 24) || (n100 =? 3))) ∧
       n0 = _days_before_year year + r1 ∧ 0 ≤ r1 < 365.
Proof.
  intros n0 n400 r400 n100 r100 n4 r4 n1 r1 year.
  assert (n0 = n400 * 146097 + r400 ∧ 0 ≤ r400 < 146097) as [H400 B400].
  { subst n400 r400. Z.div_mod_to_equations. lia. }
  assert (r400 = n100 * 36524 + r100 ∧ 0 ≤ r100 < 36524) as [H100 B100].
  { subst n100 r100. Z.div_mod_to_equations. lia. }
  assert (r100 = n4 * 1461 + r4 ∧ 0 ≤ r4 < 1461) as [H4 B4].
  { subst n4 r4. Z.div_mod_to_equations. lia. }
  assert (r4 = n1 * 365 + r1 ∧ 0 ≤ r1 < 365) as [H1 B1].
  { subst n1 r1. Z.div_mod_to_equations. lia. }
  assert (0 ≤ n100 ≤ 4 ∧ 0 ≤ n4 ≤ 24 ∧ 0 ≤ n1 ≤ 4) as (Bn100 & Bn4 & Bn1)
    by lia.
  clearbody n400 r400 n100 r100 n4 r4 n1 r1 n0.
  destruct ((n1 =? 4) || (n100 =? 4)) eqn:Hspecial.
  - apply orb_true_iff in Hspecial. rewrite !Z.eqb_eq in Hspecial.
    split.
    + apply is_leap_spec. subst year. Z.div_mod_to_equations; lia.
    + unfold _days_before_year. subst year. Z.div_mod_to_equations; lia.
  - apply orb_false_iff in Hspecial. rewrite !Z.eqb_neq in Hspecial.
    split; [| split; [| done]].
    + destruct ((n1 =? 3) && (negb (n4 =? 24) || (n100 =? 3))) eqn:Hl.
      * apply andb_true_iff in Hl as [Hn1 Hl]. apply Z.eqb_eq in Hn1.
        apply orb_true_iff in Hl.
        rewrite negb_true_iff, Z.eqb_neq, Z.eqb_eq in Hl.
        apply is_leap_spec. subst year. Z.div_mod_to_equations; lia.
      * apply andb_false_iff in Hl.
        rewrite orb_false_iff, negb_false_iff, !Z.eqb_neq, Z.eqb_eq in Hl.
        destruct (_is_leap year) eqn:Hleap; [| done]. exfalso.
        apply is_leap_spec in Hleap. subst year.
        Z.div_mod_to_equations; lia.
    + unfold _days_before_year. subst year. Z.div_mod_to_equations; lia.
Qed.

(** The month that [_ord2ymd] finds for the day [n] of a year, counted
    from 0. *)
Lemma ord2ymd_month (leap : bool) (n : Z) :
  0 ≤ n < 365 →
  let month := Z.shiftr (n + 50) 5 in
  let preceding :=
    _DAYS_BEFORE_MONTH month + (if (2 <? month) && leap then 1 else 0) in
  let mp :=
    if n <? preceding
    then (month - 1,
          preceding -
          (_DAYS_IN_MONTH (month - 1) +
           (if (month - 1 =? 2) && leap then 1 else 0)))
    else (month, preceding) in
  1 ≤ mp.1 ≤ 12 ∧
  mp.2 = _DAYS_BEFORE_MONTH mp.1 + (if (2 <? mp.1) && leap then 1 else 0) ∧
  mp.2 ≤ n <
    mp.2 + (_DAYS_IN_MONTH mp.1 + (if (mp.1 =? 2) && leap then 1 else 0)).
Proof.
  intros Hn month. subst month.
  rewrite Z.shiftr_div_pow2 by lia. change (2 ^ 5) with 32.
  set (month := (n + 50) / 32).
  assert (month * 32 ≤ n + 50 < month * 32 + 32) as Hmonth.
  { subst month. Z.div_mod_to_equations. lia. }
  assert (month = 1 ∨ month = 2 ∨ month = 3 ∨ month = 4 ∨ month = 5 ∨
          month = 6 ∨ month = 7 ∨ month = 8 ∨ month = 9 ∨ month = 10 ∨
          month = 11 ∨ month = 12) as Hcases by lia.
  clearbody month.
  destruct leap;
    repeat (destruct Hcases as [-> | Hcases];
            [simpl; match goal with
                    | |- context [?a <? ?b] => destruct (Z.ltb_spec a b)
                    end; simpl; lia |]);
    subst month; simpl;
    match goal with
    | |- context [?a <? ?b] => destruct (Z.ltb_spec a b)
    end; simpl; lia.
Qed.

Lemma days_in_month_alt (y m : Z) :
  _days_in_month y m =
  _DAYS_IN_MONTH m + (if (m =? 2) && _is_leap y then 1 else 0).
Proof.
  unfold _days_in_month. destruct (Z.eqb_spec m 2) as [-> | _]; simpl.
  - by destruct (_is_leap y).
  - lia.
Qed.

(** [_ord2ymd] inverts [_ymd2ord], and its result is a date. *)
Lemma ord2ymd_spec (n : Z) :
  ∃ y m d, _ord2ymd n = (y, m, d) ∧ 1 ≤ m ≤ 12 ∧
           1 ≤ d ≤ _days_in_month y m ∧ _ymd2ord y m d = n.
Proof.
  pose proof (ord2ymd_year n) as Hy. cbv zeta in Hy.
  unfold _ord2ymd, _DI400Y, _DI100Y, _DI4Y. cbv zeta.
  set (n400 := (n - 1) / 146097) in *.
  set (r400 := (n - 1) mod 146097) in *.
  set (n100 := r400 / 36524) in *.
  set (r100 := r400 mod 36524) in *.
  set (n4 := r100 / 1461) in *.
  set (r4 := r100 mod 1461) in *.
  set (n1 := r4 / 365) in *.
  set (r1 := r4 mod 365) in *.
  set (year := n400 * 400 + 1 + n100 * 100 + n4 * 4 + n1) in *.
  clearbody year r1 n1 r4 n4 r100 n100 r400 n400.
  destruct ((n1 =? 4) || (n100 =? 4)).
  - destruct Hy as [Hleap Hn].
    exists (year - 1), 12, 31. split; [done |]. split; [lia |].
    unfold _ymd2ord, _days_before_month, _days_in_month. rewrite Hleap. simpl.
    lia.
  - destruct Hy as (Hleap & Hn & Hr1).
    set (leapyear := (n1 =? 3) && (negb (n4 =? 24) || (n100 =? 3))) in *.
    pose proof (ord2ymd_month leapyear r1 Hr1) as Hm. cbv zeta in Hm.
    set (month := Z.shiftr (r1 + 50) 5) in *.
    set (preceding :=
           _DAYS_BEFORE_MONTH month +
           (if (2 <? month) && leapyear then 1 else 0)) in *.
    clearbody leapyear month preceding.
    destruct (r1 <? preceding); simpl in Hm;
      destruct Hm as (Hmr & Hp & Hbound);
      (eexists _, _, _; split; [reflexivity |]; split; [done |]);
      unfold _ymd2ord, _days_before_month;
      rewrite days_in_month_alt, Hleap; lia.
Qed.

Lemma days_before_year_mono (y y' : Z) :
  y ≤ y' → _days_before_year y ≤ _days_before_year y'.
Proof. unfold _days_before_year. intros Hle. Z.div_mod_to_equations. lia. Qed.

Lemma days_before_month_bounds (y m : Z) :
  1 ≤ m ≤ 12 → 0 ≤ _days_before_month y m ≤ 335.
Proof.
  intros Hm. unfold _days_before_month.
  assert (m = 1 ∨ m = 2 ∨ m = 3 ∨ m = 4 ∨ m = 5 ∨ m = 6 ∨ m = 7 ∨ m = 8 ∨
          m = 9 ∨ m = 10 ∨ m = 11 ∨ m = 12) as Hcases by lia.
  destruct (_is_leap y);
    repeat (destruct Hcases as [-> | Hcases]; [simpl; lia |]);
    subst m; simpl; lia.
Qed.

Lemma days_before_month_succ (y m : Z) :
  1 ≤ m < 12 →
  _days_before_month y (m + 1) = _days_before_month y m + _days_in_month y m.
Proof.
  intros Hm. unfold _days_before_month, _days_in_month.
  assert (m = 1 ∨ m = 2 ∨ m = 3 ∨ m = 4 ∨ m = 5 ∨ m = 6 ∨ m = 7 ∨ m = 8 ∨
          m = 9 ∨ m = 10 ∨ m = 11) as Hcases by lia.
  destruct (_is_leap y);
    repeat (destruct Hcases as [-> | Hcases]; [simpl; lia |]);
    subst m; simpl; lia.
Qed.

Lemma days_before_month_mono (y m m' : Z) :
  1 ≤ m → m ≤ m' → m' ≤ 12 →
  _days_before_month y m ≤ _days_before_month y m'.
Proof.
  intros Hm Hle Hm'.
  assert (∃ k : nat, m' = m + Z.of_nat k) as [k ->].
  { exists (Z.to_nat (m' - m)). lia. }
  clear Hle. induction k as [| k IH]; [by rewrite Z.add_0_r |].
  etrans; [apply IH; lia |].
  replace (m + Z.of_nat (S k)) with (m + Z.of_nat k + 1) by lia.
  rewrite days_before_month_succ by lia.
  pose proof (days_in_month_ge_28 y (m + Z.of_nat k)). lia.
Qed.

(** The first day of the month after [(y, m)] comes [_days_in_month y m]
    days after the first day of [(y, m)]. *)
Lemma next_month_ordinal (d : date) :
  1 ≤ month d ≤ 12 →
  _ymd2ord (next_month d).1 (next_month d).2 1 =
  _ymd2ord (year d) (month d) 1 + _days_in_month (year d) (month d).
Proof.
  intros Hm. unfold next_month, _ymd2ord.
  destruct (Z.eqb_spec (month d) 12) as [Heq | Hne]; simpl.
  - rewrite Heq, days_before_year_succ.
    unfold days_in_year, _days_before_month, _days_in_month.
    destruct (_is_leap (year d)); simpl; lia.
  - rewrite days_before_month_succ by lia. lia.
Qed.

(** Months do not overlap: earlier months end before later ones
    start. *)
Lemma month_ordinals_ordered (a b : date) :
  1 ≤ month a ≤ 12 → 1 ≤ month b ≤ 12 →
  year a < year b ∨ (year a = year b ∧ month a < month b) →
  _ymd2ord (next_month a).1 (next_month a).2 1 ≤
  _ymd2ord (year b) (month b) 1.
Proof.
  intros Ha Hb Hlt. rewrite next_month_ordinal by done. unfold _ymd2ord.
  destruct Hlt as [Hy | [Hy Hm]].
  - pose proof (days_before_year_mono (year a + 1) (year b)) as Hmono.
    rewrite days_before_year_succ in Hmono.
    pose proof (days_before_month_bounds (year b) (month b) Hb).
    assert (_days_before_month (year a) (month a) +
            _days_in_month (year a) (month a) ≤ days_in_year (year a)).
    { destruct (decide (month a = 12)) as [Heq | Hne].
      - rewrite Heq. unfold _days_before_month, _days_in_month, days_in_year.
        destruct (_is_leap (year a)); simpl; lia.
      - rewrite <- days_before_month_succ by lia.
        pose proof (days_before_month_bounds (year a) (month a + 1)).
        unfold days_in_year. destruct (_is_leap (year a)); lia. }
    lia.
  - rewrite Hy.
    pose proof (days_before_month_succ (year b) (month a)) as Hsucc.
    pose proof (days_before_month_mono (year b) (month a + 1) (month b))
      as Hmono.
    lia.
Qed.

(** The ordinals of the month [(year d, month d)] are those that
    [_ord2ymd] sends to this month. *)
Lemma ord2ymd_month_iff (d : date) (n : Z) :
  1 ≤ month d ≤ 12 →
  (∃ day, _ord2ymd n = (year d, month d, day)) ↔
  _ymd2ord (year d) (month d) 1 ≤ n <
    _ymd2ord (next_month d).1 (next_month d).2 1.
Proof.
  intros Hm. destruct (ord2ymd_spec n) as (y & m & day & Heq & Hm' & Hday & Hn).
  assert (_ymd2ord y m 1 ≤ n <
            _ymd2ord (next_month (Date y m 1)).1 (next_month (Date y m 1)).2 1)
    as Hin.
  { rewrite (next_month_ordinal (Date y m 1)) by done. simpl.
    unfold _ymd2ord in *. lia. }
  split.
  - intros (day' & Heq'). rewrite Heq in Heq'. by simplify_eq.
  - intros Hn'.
    destruct (Z.lt_trichotomy y (year d)) as [Hlt | [Hy | Hgt]].
    + pose proof (month_ordinals_ordered (Date y m 1) d Hm' Hm) as Hord.
      simpl in Hord. lia.
    + destruct (Z.lt_trichotomy m (month d)) as [Hlt | [Hmm | Hgt]].
      * pose proof (month_ordinals_ordered (Date y m 1) d Hm' Hm) as Hord.
        simpl in Hord. lia.
      * subst. by exists day.
      * pose proof (month_ordinals_ordered d (Date y m 1) Hm Hm') as Hord.
        simpl in Hord. lia.
    + pose proof (month_ordinals_ordered d (Date y m 1) Hm Hm') as Hord.
      simpl in Hord. lia.
Qed.

(** ** Months as intervals of timestamps, in a zone with a fixed
    offset *)

Lemma timestamp_in_month (off : Z) (d : date) (t : Z) :
  valid_date d →
  month_start_ts (fixed_offset_runtime off) d ≤ t <
    month_end_ts (fixed_offset_runtime off) d ↔
  ∃ dt, fromtimestamp (utcoffset (fixed_offset_runtime off)) t = Ok dt ∧
        year (dt_date dt) = year d ∧ month (dt_date dt) = month d.
Proof.
  intros (Hy & Hm & _).
  unfold month_start_ts, month_end_ts, midnight_timestamp, toordinal,
    fromtimestamp, SECONDS_PER_DAY, EPOCH_ORDINAL.
  simpl.
  set (N := (t + off) / 86400 + 719163).
  set (S := _ymd2ord (year d) (month d) 1).
  set (E := _ymd2ord (next_month d).1 (next_month d).2 1).
  assert ((S - 719163) * 86400 - off ≤ t < (E - 719163) * 86400 - off ↔
          S ≤ N < E) as ->.
  { subst N. clearbody S E. Z.div_mod_to_equations. lia. }
  subst S E. rewrite <- (ord2ymd_month_iff d N Hm).
  destruct (ord2ymd_spec N) as (y' & m' & d' & Heq & Hm' & Hd' & _).
  rewrite Heq. split.
  - intros (day & [= -> -> ->]).
    assert (date_new (year d) (month d) day =
              Ok (Date (year d) (month d) day)) as ->.
    { apply date_new_Ok. split; [done |]. unfold valid_date. simpl. tauto. }
    simpl. eexists. split; [reflexivity |]. done.
  - intros (dt & Hdt & Hyd & Hmd).
    destruct (date_new y' m' d') as [dte |] eqn:Hnew; simpl in Hdt; [| done].
    apply date_new_Ok in Hnew as [-> _]. simplify_eq. simpl in *.
    exists d'. by rewrite Hyd, Hmd.
Qed.

(** In a zone with a fixed offset, the transactions of a month for
    [get_month_summary] are those whose local date lies in the month. *)
Lemma in_month_fixed_offset (off : Z) (db : DB) (self : string) (d : date)
    (e : string * JarTransaction) :
  valid_date d →
  in_month (fixed_offset_runtime off) db self d e ↔
  jar_transactions db !! e.1 = Some e.2 ∧ jtx_account e.2 = self ∧
  ∃ dt, fromtimestamp (utcoffset (fixed_offset_runtime off))
          (jtx_time e.2) = Ok dt ∧
        year (dt_date dt) = year d ∧ month (dt_date dt) = month d.
Proof.
  intros Hv. unfold in_month.
  by rewrite (timestamp_in_month off d (jtx_time e.2) Hv).
Qed.

(** The months of [get_available_months] are the months in which
    [get_month_summary] finds a transaction. *)
Lemma has_transaction_in_fixed_offset (off : Z) (db : DB) (self : string)
    (d : date) :
  valid_date d →
  has_transaction_in (fixed_offset_runtime off) db self (year d) (month d) ↔
  ∃ e, in_month (fixed_offset_runtime off) db self d e.
Proof.
  intros Hv. unfold has_transaction_in. split.
  - intros (e & dt & Hlk & Hacc & Hdt & Hy & Hm). exists e.
    apply in_month_fixed_offset; [done |]. split; [done |].
    split; [done |]. by exists dt.
  - intros (e & He). apply in_month_fixed_offset in He; [| done].
    destruct He as (Hlk & Hacc & dt & Hdt & Hy & Hm). by exists e, dt.
Qed.

(** ** [update_users], custom categories and the transaction tasks *)

Ltac by_lookup := vm_compute; reflexivity.

Lemma inactive_card_idemp (c : MonoCard) :
  inactive_card (inactive_card c) = inactive_card c.
Proof. done. Qed.

Lemma deactivate_card_cases (self : MonoAccount) (ids : list string)
    (id : string) (c : MonoCard) :
  MonoAccount.deactivate_card self ids id c = c ∨
  MonoAccount.deactivate_card self ids id c = inactive_card c.
Proof.
  unfold MonoAccount.deactivate_card. case_match; [by right | by left].
Qed.

Lemma deactivate_jar_cases (self : MonoAccount) (ids : list string)
    (id : string) (j : MonoJar) :
  MonoAccount.deactivate_jar self ids id j = j ∨
  MonoAccount.deactivate_jar self ids id j = inactive_jar j.
Proof.
  unfold MonoAccount.deactivate_jar. case_match; [by right | by left].
Qed.

#[global] Instance only_deactivated_refl : Reflexive only_deactivated.
Proof.
  intros db. repeat split; try done.
  - intros id c c' L1 L2. left. congruence.
  - intros id c c' L1 L2. left. congruence.
  - exists []. by rewrite app_nil_r.
Qed.

#[global] Instance only_deactivated_trans : Transitive only_deactivated.
Proof.
  intros db1 db2 db3
    (Hc1 & Hc1' & Hj1 & Hj1' & Ea1 & Eb1 & Ec1 & Ed1 & Ee1 & Ef1 & q1 & Hq1)
    (Hc2 & Hc2' & Hj2 & Hj2' & Ea2 & Eb2 & Ec2 & Ed2 & Ee2 & Ef2 & q2 & Hq2).
  split; [| split; [| split; [| split]]].
  - intros id. by rewrite Hc2, Hc1.
  - intros id c c'' L1 L3.
    destruct (mono_cards db2 !! id) as [c' |] eqn:L2.
    + destruct (Hc1' id c c' L1 L2) as [-> | ->];
        destruct (Hc2' id _ c'' L2 L3) as [-> | ->]; auto.
    + apply Hc1 in L2. congruence.
  - intros id. by rewrite Hj2, Hj1.
  - intros id c c'' L1 L3.
    destruct (mono_jars db2 !! id) as [c' |] eqn:L2.
    + destruct (Hj1' id c c' L1 L2) as [-> | ->];
        destruct (Hj2' id _ c'' L2 L3) as [-> | ->]; auto.
    + apply Hj1 in L2. congruence.
  - repeat split; try congruence.
    exists (q1 ++ q2). by rewrite Hq2, Hq1, app_assoc.
Qed.

(** A loop keeps what each of its steps keeps. *)
Lemma for_each_invariant {A} (R : relation DB) `{!Reflexive R, !Transitive R}
    (xs : list A) (body : A → M unit) :
  (∀ x db, x ∈ xs → R db (body x db).2) →
  ∀ db, R db (for_each xs body db).2.
Proof.
  induction xs as [| x xs IH]; intros Hstep db; simpl; [done |].
  unfold mbind, M_bind.
  pose proof (Hstep x db ltac:(left)) as Hx.
  destruct (body x db) as [[[] | e] db1]; simpl in *; [| done].
  etrans; [exact Hx |]. apply IH. intros y db' Hy. apply Hstep. by right.
Qed.

(** A loop whose steps fail or not whatever the database: it ends
    normally when every step does. *)
Lemma for_each_Ok {A} (P : A → Prop) (xs : list A) (body : A → M unit) :
  (∀ x db, x ∈ xs → (body x db).1 = Ok tt ↔ P x) →
  ∀ db, (for_each xs body db).1 = Ok tt ↔ Forall P xs.
Proof.
  induction xs as [| x xs IH]; intros Hstep db; simpl.
  - split; [by constructor | done].
  - unfold mbind, M_bind.
    pose proof (Hstep x db ltac:(left)) as Hx.
    destruct (body x db) as [[[] | e] db1]; simpl in *.
    + rewrite IH by (intros y db' Hy; apply Hstep; by right).
      rewrite Forall_cons. split; [intros ?; split; [by apply Hx | done] |].
      by intros [_ ?].
    + rewrite Forall_cons. split; [done |]. intros [HP _].
      apply Hx in HP. done.
Qed.

(** [create_cards_jars] without a payload: the answer of the bank is the
    payload. *)
Lemma create_cards_jars_fetch (bank : BankAPI) (self : MonoAccount)
    (db : DB) :
  MonoAccount.create_cards_jars bank self None db =
  match client_info bank (acc_mono_token self) with
  | Raise e => (Raise e, db)
  | Ok data =>
      let cards := default [] (ci_accounts data) in
      let jars := default [] (ci_jars data) in
      (Ok tt,
       {| currencies := currencies db; categories := categories db;
          category_msos := category_msos db;
          mono_accounts := mono_accounts db;
          mono_cards :=
            map_imap
              (λ id c, Some (MonoAccount.deactivate_card self
                               (MonoAccount.truthy_ids cd_id cards) id c))
              (mono_cards db);
          mono_jars :=
            map_imap
              (λ id j, Some (MonoAccount.deactivate_jar self
                               (MonoAccount.truthy_ids jd_id jars) id j))
              (mono_jars db);
          mono_transactions := mono_transactions db;
          jar_transactions := jar_transactions db;
          celery_queue :=
            celery_queue db ++
            ((λ card, Task_create_card_from_webhook (acc_user_tg_id self)
                        card true) <$> cards) ++
            ((λ jar, Task_create_jar_from_webhook (acc_user_tg_id self)
                       jar true) <$> jars) |})
  end.
Proof.
  unfold MonoAccount.create_cards_jars, MonoAccount.get_cards_jars. simpl.
  unfold mbind, M_bind, mret, M_ret, get_db, modify_db, lift. simpl.
  destruct (client_info bank (acc_mono_token self)) as [data | e]; [| done].
  rewrite !for_each_apply_async. simpl.
  f_equal. unfold set_celery_queue. simpl. by rewrite <- app_assoc.
Qed.

Lemma create_cards_jars_only_deactivates (bank : BankAPI)
    (self : MonoAccount) (db : DB) :
  only_deactivated db (MonoAccount.create_cards_jars bank self None db).2.
Proof.
  rewrite create_cards_jars_fetch.
  destruct (client_info bank (acc_mono_token self)) as [data | e];
    [| reflexivity].
  cbv zeta. unfold only_deactivated. simpl.
  split; [| split; [| split; [| split]]].
  - intros id. rewrite map_lookup_imap.
    by destruct (mono_cards db !! id).
  - intros id c c' Hc. rewrite map_lookup_imap, Hc. simpl. intros [= <-].
    apply deactivate_card_cases.
  - intros id. rewrite map_lookup_imap.
    by destruct (mono_jars db !! id).
  - intros id c c' Hc. rewrite map_lookup_imap, Hc. simpl. intros [= <-].
    apply deactivate_jar_cases.
  - repeat split; try done. by eexists.
Qed.

(** X1. Whatever the bank answers, and whether [update_users] ends
    normally or with an exception, it adds and removes no card and no
    jar, changes a stored card or jar at most by setting [is_active] to
    [False], writes no other table, and only appends messages to the
    queue. *)
Theorem update_users_only_deactivates (bank : BankAPI) (db : DB) :
  only_deactivated db (update_users bank db).2.
Proof.
  unfold update_users. unfold mbind at 1. unfold M_bind.
  unfold mbind, M_bind, get_db, mret, M_ret. simpl.
  apply (for_each_invariant only_deactivated).
  intros user db' _. apply create_cards_jars_only_deactivates.
Qed.

(** Every account of a loop that ended normally was processed, in a
    state that the earlier steps left and that the later steps
    inherit. *)
Lemma for_each_reaches {A} (R : relation DB) `{!Reflexive R, !Transitive R}
    (xs : list A) (body : A → M unit) (x : A) :
  (∀ y db, y ∈ xs → R db (body y db).2) →
  x ∈ xs →
  ∀ db, (for_each xs body db).1 = Ok tt →
  ∃ db1 db2, R db db1 ∧ body x db1 = (Ok tt, db2) ∧
             R db2 (for_each xs body db).2.
Proof.
  induction xs as [| y xs IH]; intros Hstep Hx db Hok;
    [by apply elem_of_nil in Hx |].
  simpl in *. unfold mbind, M_bind in *.
  pose proof (Hstep y db ltac:(left)) as Hy.
  destruct (body y db) as [[[] | e] db1] eqn:Hbody; simpl in *; [| done].
  apply elem_of_cons in Hx as [-> | Hx].
  - exists db, db1. split; [done |]. split; [done |].
    apply (for_each_invariant R). intros z db' Hz. apply Hstep. by right.
  - destruct (IH (λ z db' Hz, Hstep z db' ltac:(by right)) Hx db1 Hok)
      as (db2 & db3 & H12 & Hb & H3).
    exists db2, db3. split; [by etrans |]. done.
Qed.

(** X2. [update_users] ends normally exactly when the bank answers the
    client-info request for every stored account; then every stored
    card (jar) of an account whose id is not among the accounts (jars)
    that the bank listed for that account is stored with
    [is_active = False] and its other fields unchanged. *)
Theorem update_users_marks_stale_inactive (bank : BankAPI) (db : DB) :
  ((update_users bank db).1 = Ok tt ↔
   ∀ a, a ∈ mono_accounts db →
        is_ok (client_info bank (acc_mono_token a)) = true) ∧
  ((update_users bank db).1 = Ok tt →
   let db' := (update_users bank db).2 in
   (∀ a data id c,
      a ∈ mono_accounts db →
      client_info bank (acc_mono_token a) = Ok data →
      mono_cards db !! id = Some c → card_monoaccount c = acc_pk a →
      (∀ cd, cd ∈ default [] (ci_accounts data) → cd_id cd ≠ Some id) →
      mono_cards db' !! id = Some (inactive_card c)) ∧
   (∀ a data id j,
      a ∈ mono_accounts db →
      client_info bank (acc_mono_token a) = Ok data →
      mono_jars db !! id = Some j → jar_monoaccount j = acc_pk a →
      (∀ jd, jd ∈ default [] (ci_jars data) → jd_id jd ≠ Some id) →
      mono_jars db' !! id = Some (inactive_jar j))).
Proof.
  unfold update_users. unfold mbind at 1 3 4. unfold M_bind.
  unfold mbind at 1 3 5, M_bind, get_db, mret, M_ret. simpl.
  set (users := merge_sort by_pk_desc (mono_accounts db)).
  set (body := λ user, MonoAccount.create_cards_jars bank user None).
  assert (∀ a, a ∈ users ↔ a ∈ mono_accounts db) as Husers.
  { intros a. subst users. by rewrite merge_sort_Permutation. }
  split.
  - rewrite (for_each_Ok
               (λ a, is_ok (client_info bank (acc_mono_token a)) = true)).
    + rewrite Forall_forall. by setoid_rewrite Husers.
    + intros a db0 _. subst body. simpl. rewrite create_cards_jars_fetch.
      by destruct (client_info bank (acc_mono_token a)).
  - intros Hok.
    assert (∀ y db0, y ∈ users → only_deactivated db0 (body y db0).2)
      as Hstep.
    { intros y db0 _. apply create_cards_jars_only_deactivates. }
    split.
    + intros a data id c Ha Hdata Hc Hacc Hstale.
      apply Husers in Ha.
      destruct (for_each_reaches only_deactivated users body a Hstep Ha db Hok)
        as (db1 & db2 & H1 & Hbody & H2).
      destruct H1 as (Hn1 & Hc1 & _).
      destruct (mono_cards db1 !! id) as [c1 |] eqn:Hlk1;
        [| apply Hn1 in Hlk1; congruence].
      assert (inactive_card c1 = inactive_card c ∧
              card_monoaccount c1 = acc_pk a) as [Hin1 Hacc1].
      { destruct (Hc1 id c c1 Hc Hlk1) as [-> | ->]; by split. }
      subst body. simpl in Hbody. rewrite create_cards_jars_fetch in Hbody.
      rewrite Hdata in Hbody. cbv zeta in Hbody.
      apply (f_equal snd) in Hbody. simpl in Hbody. subst db2.
      destruct H2 as (Hn2 & Hc2 & _). simpl in Hn2, Hc2.
      set (c2 := MonoAccount.deactivate_card a
                   (MonoAccount.truthy_ids cd_id
                      (default [] (ci_accounts data))) id c1).
      assert (c2 = inactive_card c) as Hc2eq.
      { subst c2. unfold MonoAccount.deactivate_card.
        rewrite bool_decide_true by done.
        rewrite bool_decide_false; [exact Hin1 |].
        intros (cd & Hcd & Hid)%truthy_ids_elem_of. by eapply Hstale. }
      match goal with
      | |- ?m !! id = _ => destruct (m !! id) as [c3 |] eqn:Hlk3
      end.
      * specialize (Hc2 id c2 c3). rewrite map_lookup_imap, Hlk1 in Hc2.
        destruct (Hc2 eq_refl Hlk3) as [-> | ->]; by rewrite Hc2eq.
      * apply Hn2 in Hlk3. by rewrite map_lookup_imap, Hlk1 in Hlk3.
    + intros a data id j Ha Hdata Hj Hacc Hstale.
      apply Husers in Ha.
      destruct (for_each_reaches only_deactivated users body a Hstep Ha db Hok)
        as (db1 & db2 & H1 & Hbody & H2).
      destruct H1 as (_ & _ & Hn1 & Hj1 & _).
      destruct (mono_jars db1 !! id) as [j1 |] eqn:Hlk1;
        [| apply Hn1 in Hlk1; congruence].
      assert (inactive_jar j1 = inactive_jar j ∧
              jar_monoaccount j1 = acc_pk a) as [Hin1 Hacc1].
      { destruct (Hj1 id j j1 Hj Hlk1) as [-> | ->]; by split. }
      subst body. simpl in Hbody. rewrite create_cards_jars_fetch in Hbody.
      rewrite Hdata in Hbody. cbv zeta in Hbody.
      apply (f_equal snd) in Hbody. simpl in Hbody. subst db2.
      destruct H2 as (_ & _ & Hn2 & Hj2 & _). simpl in Hn2, Hj2.
      set (j2 := MonoAccount.deactivate_jar a
                   (MonoAccount.truthy_ids jd_id
                      (default [] (ci_jars data))) id j1).
      assert (j2 = inactive_jar j) as Hj2eq.
      { subst j2. unfold MonoAccount.deactivate_jar.
        rewrite bool_decide_true by done.
        rewrite bool_decide_false; [exact Hin1 |].
        intros (jd & Hjd & Hid)%truthy_ids_elem_of. by eapply Hstale. }
      match goal with
      | |- ?m !! id = _ => destruct (m !! id) as [j3 |] eqn:Hlk3
      end.
      * specialize (Hj2 id j2 j3). rewrite map_lookup_imap, Hlk1 in Hj2.
        destruct (Hj2 eq_refl Hlk3) as [-> | ->]; by rewrite Hj2eq.
      * apply Hn2 in Hlk3. by rewrite map_lookup_imap, Hlk1 in Hlk3.
Qed.

(** ** [Category.create_custom_category] *)

Lemma next_pk_positive (pks : list Z) : 0 < next_pk pks.
Proof.
  unfold next_pk.
  assert (0 ≤ foldr Z.max 0 pks); [| lia].
  induction pks as [| a l IH]; simpl; lia.
Qed.

(** X3. [create_custom_category] raises [ValueError] and leaves the
    database unchanged when a category with the name is stored.
    Otherwise (the merchant code 999000 + pk being free) it stores one
    category with a fresh pk, the name, the symbol and
    [user_defined = True], and one [CategoryMSO] with the code
    999000 + pk, above 999000, for it; the unique columns stay unique,
    a second call with the same name raises [ValueError], and a
    statement item with that merchant code resolves to the new
    [CategoryMSO]. *)
Theorem create_custom_category_spec (name symbol : string) (db : DB) :
  let pk := next_pk (cat_pk <$> categories db) in
  (name ∈ cat_name <$> categories db →
   Category.create_custom_category name symbol db = (Raise ValueError, db)) ∧
  (name ∉ cat_name <$> categories db →
   (999000 + pk ∉ mso_mso <$> category_msos db) →
   let cat :=
     {| cat_pk := pk; cat_name := name; cat_symbol := Some symbol;
        cat_user_defined := true |} in
   let m :=
     {| mso_pk := next_pk (mso_pk <$> category_msos db);
        mso_category := pk; mso_mso := 999000 + pk |} in
   let db' :=
     set_category_msos (category_msos db ++ [m])
       (set_categories (categories db ++ [cat]) db) in
   Category.create_custom_category name symbol db = (Ok cat, db') ∧
   (pk ∉ cat_pk <$> categories db) ∧ 999000 < mso_mso m ∧
   (unique_columns db → unique_columns db') ∧
   (∀ symbol',
      Category.create_custom_category name symbol' db' =
        (Raise ValueError, db')) ∧
   (unique_columns db →
    ∀ td, td_mcc td = Some (999000 + pk) → resolve_mcc td db' = (Ok m, db'))).
Proof.
  intros pk. split.
  - intros Hin. unfold Category.create_custom_category. run_M.
    by rewrite bool_decide_true.
  - intros Hnew Hmso cat m db'.
    split; [| split; [| split; [| split; [| split]]]].
    + unfold Category.create_custom_category. run_M.
      rewrite bool_decide_false by done.
      unfold CategoryMSO_create. run_M.
      by rewrite bool_decide_false.
    + apply next_pk_fresh.
    + simpl. pose proof (next_pk_positive (cat_pk <$> categories db)).
      subst pk. lia.
    + intros (Hc & Hm & Hn). repeat split; simpl; try done.
      * rewrite fmap_app. apply NoDup_app. split; [done |].
        split; [| apply NoDup_singleton].
        intros x Hx [-> | Hx']%elem_of_cons; [done |].
        by apply elem_of_nil in Hx'.
      * rewrite fmap_app. apply NoDup_app. split; [done |].
        split; [| apply NoDup_singleton].
        intros x Hx [-> | Hx']%elem_of_cons; [done |].
        by apply elem_of_nil in Hx'.
    + intros symbol'. unfold Category.create_custom_category. run_M.
      rewrite bool_decide_true; [done |].
      rewrite fmap_app. apply elem_of_app. right. left.
    + intros (Hc & Hm & Hn) td Htd. unfold resolve_mcc. rewrite Htd.
      unfold CategoryMSO_get, get_one. run_M.
      assert (filter (λ c, mso_mso c = 999000 + pk) (category_msos db ++ [m])
              = [m]) as ->; [| done].
      rewrite filter_app, filter_nil_intro; simpl.
      * rewrite filter_cons, decide_True by done. done.
      * intros x Hx Heq. apply Hmso. apply list_elem_of_fmap. by exists x.
Qed.

Example create_custom_category_sample :
  let out := Category.create_custom_category "Кава" "c" sample_db in
  out.1 =
    Ok {| cat_pk := 2; cat_name := "Кава"; cat_symbol := Some "c";
          cat_user_defined := true |} ∧
  category_msos out.2 =
    category_msos sample_db ++
    [{| mso_pk := 2; mso_category := 2; mso_mso := 999002 |}] ∧
  (Category.create_custom_category "Кава" "c" out.2).1 = Raise ValueError.
Proof. vm_compute. repeat split; reflexivity. Qed.

(** ** The transaction tasks *)

(** Rows of a table with a unique column are told apart by it. *)
Lemma unique_column_eq {A B} (f : A → B) (l : list A) (x y : A) :
  NoDup (f <$> l) → x ∈ l → y ∈ l → f x = f y → x = y.
Proof.
  induction l as [| a l IH]; intros Hnd Hx Hy Hf;
    [by apply elem_of_nil in Hx |].
  rewrite fmap_cons in Hnd. apply NoDup_cons in Hnd as [Ha Hnd].
  apply elem_of_cons in Hx as [-> | Hx]; apply elem_of_cons in Hy as [-> | Hy].
  - done.
  - destruct Ha. rewrite Hf. apply list_elem_of_fmap. by exists y.
  - destruct Ha. rewrite <- Hf. apply list_elem_of_fmap. by exists x.
  - by apply IH.
Qed.

Lemma resolve_mcc_total (td : TransactionDict) (db : DB) :
  NoDup (mso_mso <$> category_msos db) →
  NoDup (cat_name <$> categories db) →
  ∃ m db1,
    resolve_mcc td db = (Ok m, db1) ∧
    mcc_resolved db db1 (mso_of td db) (mso_pk m) ∧
    m ∈ category_msos db1 ∧ mso_mso m = mso_of td db ∧
    NoDup (mso_mso <$> category_msos db1) ∧
    NoDup (cat_name <$> categories db1) ∧
    currencies db1 = currencies db ∧
    mono_accounts db1 = mono_accounts db ∧ mono_cards db1 = mono_cards db ∧
    mono_jars db1 = mono_jars db ∧
    mono_transactions db1 = mono_transactions db ∧
    jar_transactions db1 = jar_transactions db ∧
    celery_queue db1 = celery_queue db.
Proof.
  intros Hnd Hndc. unfold resolve_mcc, mso_of.
  set (mso := default (Z.of_nat (length (category_msos db))) (td_mcc td)).
  assert (try_except (pop (td_mcc td)) (is_exn KeyError)
            (db ← get_db; mret (Z.of_nat (length (category_msos db)))) db =
          (Ok mso, db)) as Hmso.
  { subst mso. by destruct (td_mcc td). }
  unfold mbind at 1. unfold M_bind at 1. rewrite Hmso. clearbody mso.
  unfold CategoryMSO_get, get_one. run_M.
  destruct (filter_unique_column mso_mso mso (category_msos db) Hnd)
    as [[Hnew Hf] | (m & Hin & Hm & Hf)]; rewrite Hf; simpl.
  - unfold Category_get_or_create, get_one. run_M.
    destruct (filter_unique_column cat_name OTHER_CATEGORY (categories db)
                Hndc)
      as [[Hcnew Hcf] | (cat & Hcin & Hcname & Hcf)]; rewrite Hcf; simpl.
    + unfold CategoryMSO_create. run_M.
      rewrite bool_decide_false by done.
      eexists _, _. split; [reflexivity |]. simpl.
      split; [| split; [apply elem_of_app; right; left |]].
      * eexists. split; [apply elem_of_app; right; left |].
        split; [done |]. split; [done |]. right. split; [done |].
        split; [done |]. eexists. split; [apply elem_of_app; right; left |].
        done.
      * split; [done |]. split.
        { rewrite fmap_app. apply NoDup_app. split; [done |].
          split; [| apply NoDup_singleton].
          intros x Hx [-> | Hx']%elem_of_cons; [done |].
          by apply elem_of_nil in Hx'. }
        split; [| done].
        rewrite fmap_app. apply NoDup_app. split; [done |].
        split; [| apply NoDup_singleton].
        intros x Hx [-> | Hx']%elem_of_cons; [done |].
        by apply elem_of_nil in Hx'.
    + unfold CategoryMSO_create. run_M.
      rewrite bool_decide_false by done.
      eexists _, _. split; [reflexivity |]. simpl.
      split; [| split; [apply elem_of_app; right; left |]].
      * eexists. split; [apply elem_of_app; right; left |].
        split; [done |]. split; [done |]. right. split; [done |].
        split; [done |]. by exists cat.
      * split; [done |]. split; [| done].
        rewrite fmap_app. apply NoDup_app. split; [done |].
        split; [| apply NoDup_singleton].
        intros x Hx [-> | Hx']%elem_of_cons; [done |].
        by apply elem_of_nil in Hx'.
  - exists m, db. split; [done |]. split; [| done].
    exists m. split; [done |]. split; [done |]. split; [done |]. by left.
Qed.

Lemma resolve_currency_total (code : Z) (db : DB) :
  NoDup (cur_code <$> currencies db) →
  ∃ cur db1,
    resolve_currency code db = (Ok cur, db1) ∧
    currency_resolved db db1 code (cur_pk cur) ∧
    cur ∈ currencies db1 ∧ cur_code cur = code ∧
    NoDup (cur_code <$> currencies db1) ∧
    categories db1 = categories db ∧
    category_msos db1 = category_msos db ∧
    mono_accounts db1 = mono_accounts db ∧ mono_cards db1 = mono_cards db ∧
    mono_jars db1 = mono_jars db ∧
    mono_transactions db1 = mono_transactions db ∧
    jar_transactions db1 = jar_transactions db ∧
    celery_queue db1 = celery_queue db.
Proof.
  intros Hnd.
  destruct (resolve_currency_spec code db Hnd)
    as [(cur & Hres & Hin & Hcode) | [Hnew Hres]].
  - exists cur, db. split; [done |]. split; [| done].
    exists cur. split; [done |]. split; [done |]. split; [done |]. by left.
  - simpl in Hres. eexists _, _. split; [exact Hres |]. simpl.
    split; [| split; [apply elem_of_app; right; left |]].
    + eexists. split; [apply elem_of_app; right; left |].
      split; [done |]. split; [done |]. by right.
    + split; [done |]. split; [| done].
      rewrite fmap_app. apply NoDup_app. split; [done |].
      split; [| apply NoDup_singleton].
      intros x Hx [-> | Hx']%elem_of_cons; [done |].
      by apply elem_of_nil in Hx'.
Qed.

Lemma resolve_mcc_found (td : TransactionDict) (m : CategoryMSO) (db : DB) :
  NoDup (mso_mso <$> category_msos db) →
  m ∈ category_msos db → td_mcc td = Some (mso_mso m) →
  resolve_mcc td db = (Ok m, db).
Proof.
  intros Hnd Hin Htd. unfold resolve_mcc. rewrite Htd.
  unfold CategoryMSO_get, get_one. run_M.
  destruct (filter_unique_column mso_mso (mso_mso m) (category_msos db) Hnd)
    as [[Hnew Hf] | (m' & Hin' & Hm & Hf)]; rewrite Hf; simpl.
  - destruct Hnew. apply list_elem_of_fmap. by exists m.
  - assert (m' = m) as ->; [| done].
    by apply (unique_column_eq mso_mso (category_msos db)).
Qed.

Lemma resolve_currency_found (cur : Currency) (db : DB) :
  NoDup (cur_code <$> currencies db) → cur ∈ currencies db →
  resolve_currency (cur_code cur) db = (Ok cur, db).
Proof.
  intros Hnd Hin.
  destruct (resolve_currency_spec (cur_code cur) db Hnd)
    as [(cur' & Hres & Hin' & Hcode) | [Hnew Hres]].
  - assert (cur' = cur) as ->; [| done].
    by apply (unique_column_eq cur_code (currencies db)).
  - destruct Hnew. apply list_elem_of_fmap. by exists cur.
Qed.

(** A lookup that names the key selects the row under that key, if it
    matches, and nothing else. *)
Lemma filter_at_most_one {A} `{EqDecision A} (P : A → Prop)
    `{!∀ x, Decision (P x)} (l : list A) (x : A) :
  NoDup l → (∀ y, y ∈ l → P y → y = x) →
  filter P l = if decide (x ∈ l ∧ P x) then [x] else [].
Proof.
  induction l as [| a l IH]; intros Hnd Huniq.
  - rewrite decide_False; [done |]. intros [Hx _]. by apply elem_of_nil in Hx.
  - apply NoDup_cons in Hnd as [Ha Hnd]. rewrite filter_cons.
    destruct (decide (P a)) as [HPa | HPa].
    + assert (a = x) as -> by (apply Huniq; [left | done]).
      rewrite decide_True by (split; [left | done]). f_equal.
      apply filter_nil_intro. intros y Hy HPy.
      assert (y = x) as -> by (apply Huniq; [by right | done]). done.
    + rewrite IH by (try done; intros y Hy; apply Huniq; by right).
      destruct (decide (x ∈ l ∧ P x)) as [[Hx HPx] | Hn].
      * rewrite decide_True; [done |]. split; [by right | done].
      * rewrite decide_False; [done |].
        intros [[-> | Hx]%elem_of_cons HPx]; [done |]. by apply Hn.
Qed.

Lemma filter_by_key {A} `{EqDecision A} (P : string * A → Prop)
    `{!∀ x, Decision (P x)} (m : gmap string A) (i : string) :
  (∀ j y, P (j, y) → j = i) →
  filter P (map_to_list m) =
  match m !! i with
  | Some x => if decide (P (i, x)) then [(i, x)] else []
  | None => []
  end.
Proof.
  intros Hkey. destruct (m !! i) as [x |] eqn:Hlk.
  - rewrite (filter_at_most_one P _ (i, x)).
    + destruct (decide (P (i, x))) as [HP | HP].
      * rewrite decide_True; [done |].
        split; [by apply elem_of_map_to_list | done].
      * rewrite decide_False; [done |]. by intros [_ ?].
    + apply NoDup_map_to_list.
    + intros [j y] Hy HPy. apply elem_of_map_to_list in Hy.
      assert (j = i) as -> by by eapply Hkey. congruence.
  - apply filter_nil_intro. intros [j y] Hy HPy.
    apply elem_of_map_to_list in Hy.
    assert (j = i) as -> by by eapply Hkey. congruence.
Qed.

Lemma card_tx_lookup_key (account : string) (mcc : CategoryMSO)
    (currency : Currency) (td : TransactionDict) (id : string) :
  td_id td = Some id →
  ∀ j y, MonoTransaction.lookup_matches account mcc currency td (j, y) → j = id.
Proof.
  intros Hid j y Hm. unfold MonoTransaction.lookup_matches in Hm.
  rewrite Hid in Hm. simpl in Hm. rewrite !andb_True in Hm. destruct_and!.
  repeat match goal with
         | H : Is_true (bool_decide _) |- _ => apply bool_decide_unpack in H
         end.
  congruence.
Qed.

Lemma jar_tx_lookup_key (account : string) (mcc : CategoryMSO)
    (currency : Currency) (td : TransactionDict) (id : string) :
  td_id td = Some id →
  ∀ j y, JarTransaction.lookup_matches account mcc currency td (j, y) → j = id.
Proof.
  intros Hid j y Hm. unfold JarTransaction.lookup_matches in Hm.
  rewrite Hid in Hm. simpl in Hm. rewrite !andb_True in Hm. destruct_and!.
  repeat match goal with
         | H : Is_true (bool_decide _) |- _ => apply bool_decide_unpack in H
         end.
  congruence.
Qed.

Lemma card_tx_new_row_id (account : string) (m : CategoryMSO)
    (cur : Currency) (td : TransactionDict) (id : string)
    (row : MonoTransaction) :
  MonoTransaction.new_row account m cur td = Some (id, row) →
  id = default "" (td_id td).
Proof.
  unfold MonoTransaction.new_row.
  destruct (td_time td), (td_amount td), (td_balance td), (td_hold td),
    (td_cashback_amount td); simpl; try done.
  by intros [= <- _].
Qed.

Lemma jar_tx_new_row_id (account : string) (m : CategoryMSO)
    (cur : Currency) (td : TransactionDict) (id : string)
    (row : JarTransaction) :
  JarTransaction.new_row account m cur td = Some (id, row) →
  id = default "" (td_id td).
Proof.
  unfold JarTransaction.new_row.
  destruct (td_time td), (td_amount td), (td_balance td), (td_hold td),
    (td_cashback_amount td); simpl; try done.
  by intros [= <- _].
Qed.

(** [get_or_create] with the id of the statement item among the
    keywords: the stored row when it matches every keyword, a new row
    when the id is free, and else the IntegrityError of the primary
    key (or of a missing column). *)
Lemma card_tx_get_or_create (account : string) (m : CategoryMSO)
    (cur : Currency) (td : TransactionDict) (id : string) (db : DB) :
  td_id td = Some id →
  MonoTransaction.get_or_create account m cur td db =
  match mono_transactions db !! id with
  | Some old =>
      if MonoTransaction.lookup_matches account m cur td (id, old)
      then (Ok (id, old), db) else (Raise IntegrityError, db)
  | None =>
      match MonoTransaction.new_row account m cur td with
      | Some (_, row) =>
          (Ok (id, row),
           set_mono_transactions (<[id := row]> (mono_transactions db)) db)
      | None => (Raise IntegrityError, db)
      end
  end.
Proof.
  intros Hid. unfold MonoTransaction.get_or_create. run_M.
  rewrite (filter_by_key _ _ id) by (by apply card_tx_lookup_key).
  destruct (MonoTransaction.new_row account m cur td) as [[id' row] |]
    eqn:Hrow.
  - apply card_tx_new_row_id in Hrow. rewrite Hid in Hrow. simpl in Hrow.
    subst id'.
    destruct (mono_transactions db !! id) as [old |] eqn:Hold; simpl;
      [| done].
    destruct (decide _) as [Hm | Hm]; simpl.
    + apply Is_true_true in Hm. by rewrite Hm.
    + apply Is_true_false in Hm. by rewrite Hm.
  - destruct (mono_transactions db !! id) as [old |] eqn:Hold; simpl;
      [| done].
    destruct (decide _) as [Hm | Hm]; simpl.
    + apply Is_true_true in Hm. by rewrite Hm.
    + apply Is_true_false in Hm. by rewrite Hm.
Qed.

Lemma jar_tx_get_or_create (account : string) (m : CategoryMSO)
    (cur : Currency) (td : TransactionDict) (id : string) (db : DB) :
  td_id td = Some id → td_receipt_id td = None →
  JarTransaction.get_or_create account m cur td db =
  match jar_transactions db !! id with
  | Some old =>
      if JarTransaction.lookup_matches account m cur td (id, old)
      then (Ok (id, old), db) else (Raise IntegrityError, db)
  | None =>
      match JarTransaction.new_row account m cur td with
      | Some (_, row) =>
          (Ok (id, row),
           set_jar_transactions (<[id := row]> (jar_transactions db)) db)
      | None => (Raise IntegrityError, db)
      end
  end.
Proof.
  intros Hid Hrec. unfold JarTransaction.get_or_create. run_M.
  rewrite Hrec. simpl.
  rewrite (filter_by_key _ _ id) by (by apply jar_tx_lookup_key).
  destruct (JarTransaction.new_row account m cur td) as [[id' row] |]
    eqn:Hrow.
  - apply jar_tx_new_row_id in Hrow. rewrite Hid in Hrow. simpl in Hrow.
    subst id'.
    destruct (jar_transactions db !! id) as [old |] eqn:Hold; simpl;
      [| done].
    destruct (decide _) as [Hm | Hm]; simpl.
    + apply Is_true_true in Hm. by rewrite Hm.
    + apply Is_true_false in Hm. by rewrite Hm.
  - destruct (jar_transactions db !! id) as [old |] eqn:Hold; simpl;
      [| done].
    destruct (decide _) as [Hm | Hm]; simpl.
    + apply Is_true_true in Hm. by rewrite Hm.
    + apply Is_true_false in Hm. by rewrite Hm.
Qed.

(** Up to [get_or_create], the two tasks resolve the merchant code and
    the currency. *)
Lemma resolve_both (td : TransactionDict) (code : Z) (db : DB) :
  unique_columns db →
  ∃ m cur db2,
    (mcc ← resolve_mcc td; currency ← resolve_currency code;
     mret (mcc, currency)) db = (Ok (m, cur), db2) ∧
    unique_columns db2 ∧
    m ∈ category_msos db2 ∧ mso_mso m = mso_of td db ∧
    cur ∈ currencies db2 ∧ cur_code cur = code ∧
    same_entities db db2 ∧
    mono_transactions db2 = mono_transactions db ∧
    jar_transactions db2 = jar_transactions db.
Proof.
  intros (Hndc & Hndm & Hndn).
  destruct (resolve_mcc_total td db Hndm Hndn)
    as (m & db1 & Hm & _ & Hmin & Hmso & Hndm1 & Hndn1 & Hcur1 & Ha1 & Hc1 &
        Hj1 & Ht1 & Hjt1 & Hq1).
  assert (NoDup (cur_code <$> currencies db1)) as Hndc1 by by rewrite Hcur1.
  destruct (resolve_currency_total code db1 Hndc1)
    as (cur & db2 & Hc & _ & Hcin & Hcode & Hndc2 & Hcat2 & Hmso2 & Ha2 &
        Hc2 & Hj2 & Ht2 & Hjt2 & Hq2).
  exists m, cur, db2. run_M. rewrite Hm. simpl. rewrite Hc. simpl.
  split; [done |].
  split; [unfold unique_columns; by rewrite Hmso2, Hcat2 |].
  rewrite Hmso2. do 4 (split; [done |]).
  split; [| by rewrite Ht2, Hjt2].
  unfold same_entities. by rewrite Ha2, Hc2, Hj2, Hq2.
Qed.

Lemma card_task_unfold (card_id : string) (card : MonoCard)
    (td : TransactionDict) (code : Z) (m : CategoryMSO) (cur : Currency)
    (db db2 : DB) :
  mono_cards db !! card_id = Some card → td_currency_code td = Some code →
  (mcc ← resolve_mcc td; currency ← resolve_currency code;
   mret (mcc, currency)) db = (Ok (m, cur), db2) →
  MonoTransaction.create_transaction_from_webhook card_id td db =
    try_except (MonoTransaction.get_or_create card_id m cur td;; mret tt)
      (is_exn IntegrityError) (mret tt) db2.
Proof.
  intros Hcard Hcode Hres.
  unfold MonoTransaction.create_transaction_from_webhook, get_by_id.
  revert Hres. run_M. rewrite Hcard, Hcode. simpl.
  destruct (resolve_mcc td db) as [[m' | e] db1]; simpl; [| done].
  destruct (resolve_currency code db1) as [[cur' | e] db2']; simpl; [| done].
  by intros [= -> -> ->].
Qed.

Lemma jar_task_unfold (jar_id : string) (jar : MonoJar)
    (td : TransactionDict) (code : Z) (m : CategoryMSO) (cur : Currency)
    (db db2 : DB) :
  mono_jars db !! jar_id = Some jar → td_currency_code td = Some code →
  (mcc ← resolve_mcc td; currency ← resolve_currency code;
   mret (mcc, currency)) db = (Ok (m, cur), db2) →
  JarTransaction.create_jar_transaction_from_webhook jar_id td db =
    (JarTransaction.get_or_create jar_id m cur td;; mret tt) db2.
Proof.
  intros Hjar Hcode Hres.
  unfold JarTransaction.create_jar_transaction_from_webhook, get_by_id.
  revert Hres. run_M. rewrite Hjar, Hcode. simpl.
  destruct (resolve_mcc td db) as [[m' | e] db1]; simpl; [| done].
  destruct (resolve_currency code db1) as [[cur' | e] db2']; simpl; [| done].
  by intros [= -> -> ->].
Qed.

(** What the card task does: nothing when the id is stored, whether
    or not the stored row matches the statement item (the
    IntegrityError is swallowed), and else one insertion, unless a
    column is missing. *)
Lemma card_task_run (card_id : string) (card : MonoCard)
    (td : TransactionDict) (id : string) (code : Z) (m : CategoryMSO)
    (cur : Currency) (db db2 : DB) :
  mono_cards db !! card_id = Some card →
  td_id td = Some id → td_currency_code td = Some code →
  (mcc ← resolve_mcc td; currency ← resolve_currency code;
   mret (mcc, currency)) db = (Ok (m, cur), db2) →
  MonoTransaction.create_transaction_from_webhook card_id td db =
  match mono_transactions db2 !! id with
  | Some old => (Ok tt, db2)
  | None =>
      match MonoTransaction.new_row card_id m cur td with
      | Some (_, row) =>
          (Ok tt,
           set_mono_transactions (<[id := row]> (mono_transactions db2)) db2)
      | None => (Ok tt, db2)
      end
  end.
Proof.
  intros Hcard Hid Hcode Hres.
  rewrite (card_task_unfold _ _ _ _ _ _ _ _ Hcard Hcode Hres).
  unfold try_except, mbind, M_bind.
  rewrite (card_tx_get_or_create _ _ _ _ id) by done.
  destruct (mono_transactions db2 !! id) as [old |] eqn:Hold.
  - by destruct (MonoTransaction.lookup_matches _ _ _ _ _).
  - by destruct (MonoTransaction.new_row card_id m cur td) as [[id' row] |].
Qed.

(** What the jar task does: the IntegrityError of a stored id whose
    row does not match, or of a missing column, is not caught. *)
Lemma jar_task_run (jar_id : string) (jar : MonoJar)
    (td : TransactionDict) (id : string) (code : Z) (m : CategoryMSO)
    (cur : Currency) (db db2 : DB) :
  mono_jars db !! jar_id = Some jar →
  td_id td = Some id → td_currency_code td = Some code →
  td_receipt_id td = None →
  (mcc ← resolve_mcc td; currency ← resolve_currency code;
   mret (mcc, currency)) db = (Ok (m, cur), db2) →
  JarTransaction.create_jar_transaction_from_webhook jar_id td db =
  match jar_transactions db2 !! id with
  | Some old =>
      if JarTransaction.lookup_matches jar_id m cur td (id, old)
      then (Ok tt, db2) else (Raise IntegrityError, db2)
  | None =>
      match JarTransaction.new_row jar_id m cur td with
      | Some (_, row) =>
          (Ok tt,
           set_jar_transactions (<[id := row]> (jar_transactions db2)) db2)
      | None => (Raise IntegrityError, db2)
      end
  end.
Proof.
  intros Hjar Hid Hcode Hrec Hres.
  rewrite (jar_task_unfold _ _ _ _ _ _ _ _ Hjar Hcode Hres).
  unfold mbind, M_bind.
  rewrite (jar_tx_get_or_create _ _ _ _ id) by done.
  destruct (jar_transactions db2 !! id) as [old |] eqn:Hold.
  - by destruct (JarTransaction.lookup_matches _ _ _ _ _).
  - by destruct (JarTransaction.new_row jar_id m cur td) as [[id' row] |].
Qed.

Lemma card_tx_new_row_account (account : string) (m : CategoryMSO)
    (cur : Currency) (td : TransactionDict) (id : string)
    (row : MonoTransaction) :
  MonoTransaction.new_row account m cur td = Some (id, row) →
  tx_account row = account ∧ tx_mcc row = mso_pk m ∧
  tx_currency row = Some (cur_pk cur).
Proof.
  unfold MonoTransaction.new_row.
  destruct (td_time td), (td_amount td), (td_balance td), (td_hold td),
    (td_cashback_amount td); simpl; try done.
  by intros [= _ <-].
Qed.

Lemma jar_tx_new_row_account (account : string) (m : CategoryMSO)
    (cur : Currency) (td : TransactionDict) (id : string)
    (row : JarTransaction) :
  JarTransaction.new_row account m cur td = Some (id, row) →
  jtx_account row = account ∧ jtx_mcc row = mso_pk m ∧
  jtx_currency row = Some (cur_pk cur).
Proof.
  unfold JarTransaction.new_row.
  destruct (td_time td), (td_amount td), (td_balance td), (td_hold td),
    (td_cashback_amount td); simpl; try done.
  by intros [= _ <-].
Qed.

(** The step of the card task, for a statement item that has its id
    and its currency code. *)
Lemma card_task_step (card_id : string) (card : MonoCard)
    (td : TransactionDict) (id : string) (code : Z) (db : DB) :
  unique_columns db →
  mono_cards db !! card_id = Some card →
  td_id td = Some id → td_currency_code td = Some code →
  let out := MonoTransaction.create_transaction_from_webhook card_id td db in
  out.1 = Ok tt ∧ unique_columns out.2 ∧ same_entities db out.2 ∧
  jar_transactions out.2 = jar_transactions db ∧
  (mono_transactions out.2 = mono_transactions db ∨
   mono_transactions db !! id = None ∧
   ∃ row, mono_transactions out.2 = <[id := row]> (mono_transactions db) ∧
          tx_account row = card_id) ∧
  (mono_transactions db !! id = None →
   is_Some (td_time td) → is_Some (td_amount td) → is_Some (td_balance td) →
   is_Some (td_hold td) → is_Some (td_cashback_amount td) →
   is_Some (mono_transactions out.2 !! id)).
Proof.
  intros Huniq Hcard Hid Hcode out.
  destruct (resolve_both td code db Huniq)
    as (m & cur & db2 & Hres & Huniq2 & Hmin & Hmso & Hcin & Hccode & Hsame &
        Htx & Hjtx).
  subst out. rewrite (card_task_run _ _ _ id _ _ _ _ _ Hcard Hid Hcode Hres).
  rewrite Htx.
  destruct (mono_transactions db !! id) as [old |] eqn:Hold; simpl.
  - do 4 (split; [done |]). split; [by left | done].
  - destruct (MonoTransaction.new_row card_id m cur td) as [[id' row] |]
      eqn:Hrow; simpl.
    + do 4 (split; [done |]). split.
      * right. split; [done |]. exists row. split; [done |].
        by apply card_tx_new_row_account in Hrow as [? _].
      * intros _ _ _ _ _ _. by rewrite lookup_insert_eq.
    + do 4 (split; [done |]). split; [by left |].
      intros _ [? Ht] [? Ha] [? Hb] [? Hh] [? Hc].
      unfold MonoTransaction.new_row in Hrow.
      by rewrite Ht, Ha, Hb, Hh, Hc in Hrow.
Qed.



Lemma jar_lookup_matches_agrees (account : string) (m : CategoryMSO)
    (cur : Currency) (td : TransactionDict) (id : string)
    (old : JarTransaction) :
  JarTransaction.lookup_matches account m cur td (id, old) = true →
  jar_row_agrees td old = true.
Proof.
  unfold JarTransaction.lookup_matches, jar_row_agrees.
  rewrite !andb_true_iff. tauto.
Qed.

Lemma kw_eq_refl {A} `{EqDecision A} (x : A) : kw_eq (Some x) x = true.
Proof. simpl. by rewrite bool_decide_true. Qed.

Lemma kw_eq_null_refl {A} `{EqDecision A} (x : option A) :
  kw_eq_null x x = true.
Proof. destruct x; simpl; [by rewrite bool_decide_true | done]. Qed.

Lemma jar_new_row_matches (account : string) (m : CategoryMSO)
    (cur : Currency) (td : TransactionDict) (id : string)
    (row : JarTransaction) :
  td_id td = Some id →
  JarTransaction.new_row account m cur td = Some (id, row) →
  JarTransaction.lookup_matches account m cur td (id, row) = true.
Proof.
  intros Hid. unfold JarTransaction.new_row, JarTransaction.lookup_matches.
  rewrite Hid.
  destruct (td_time td), (td_amount td), (td_balance td), (td_hold td),
    (td_cashback_amount td); simpl; try done.
  intros [= <-]. simpl.
  by rewrite !bool_decide_true, !kw_eq_null_refl by done.
Qed.

(** X5. For a stored jar and a statement item that has an id and a
    currency code, in a database whose unique columns hold no
    duplicates, [create_jar_transaction_from_webhook] raises
    [FieldError] when the item has a [receipt_id], and [IntegrityError]
    when a row with the id of the item is stored that differs from the
    item in one of the columns the item names; it never changes the jar
    transactions when the id is stored already, and never writes
    accounts, cards, jars, card transactions or the queue. *)
Theorem jar_statement_task_raises (jar_id : string) (jar : MonoJar)
    (td : TransactionDict) (id : string) (code : Z) (db : DB) :
  unique_columns db →
  mono_jars db !! jar_id = Some jar →
  td_id td = Some id → td_currency_code td = Some code →
  let out :=
    JarTransaction.create_jar_transaction_from_webhook jar_id td db in
  (is_Some (td_receipt_id td) → out.1 = Raise FieldError) ∧
  (∀ old, td_receipt_id td = None →
          jar_transactions db !! id = Some old →
          jar_row_agrees td old = false → out.1 = Raise IntegrityError) ∧
  (∀ old, jar_transactions db !! id = Some old →
          jar_transactions out.2 = jar_transactions db) ∧
  same_entities db out.2 ∧ mono_transactions out.2 = mono_transactions db.
Proof.
  intros Huniq Hjar Hid Hcode out.
  destruct (resolve_both td code db Huniq)
    as (m & cur & db2 & Hres & Huniq2 & Hmin & Hmso & Hcin & Hccode & Hsame &
        Htx & Hjtx).
  destruct (td_receipt_id td) as [receipt |] eqn:Hrec.
  - assert (out = (Raise FieldError, db2)) as ->.
    { subst out. rewrite (jar_task_unfold _ _ _ _ _ _ _ _ Hjar Hcode Hres).
      unfold JarTransaction.get_or_create. run_M. by rewrite Hrec. }
    simpl. split; [done |]. split; [done |]. split; [by intros ? _ | done].
  - subst out.
    rewrite (jar_task_run _ _ _ id _ _ _ _ _ Hjar Hid Hcode Hrec Hres).
    rewrite Hjtx. split; [by intros [? [=]] |].
    destruct (jar_transactions db !! id) as [old |] eqn:Hold.
    + destruct (JarTransaction.lookup_matches jar_id m cur td (id, old))
        eqn:Hm; simpl.
      * split; [| done]. intros old' _ [= <-] Hdis.
        apply jar_lookup_matches_agrees in Hm. congruence.
      * split; [| done]. by intros old' _ [= <-] Hdis.
    + split; [done |].
      by destruct (JarTransaction.new_row jar_id m cur td) as [[id' row] |].
Qed.

Lemma jar_statement_task_raises_witness :
  unique_columns sample_db ∧
  mono_jars sample_db !! "pre_created_jar_id" =
    Some (sample_jar 1 "pre_created_title" 1000 true) ∧
  (JarTransaction.create_jar_transaction_from_webhook "pre_created_jar_id"
     (sample_transaction_dict "tx1" (Some "receipt")) sample_db).1 =
    Raise FieldError.
Proof.
  assert (mono_jars sample_db !! "pre_created_jar_id" =
            Some (sample_jar 1 "pre_created_title" 1000 true)) as Hjar
    by by_lookup.
  split; [exact sample_db_unique_columns |]. split; [exact Hjar |].
  exact (proj1 (jar_statement_task_raises "pre_created_jar_id"
                  (sample_jar 1 "pre_created_title" 1000 true)
                  (sample_transaction_dict "tx1" (Some "receipt"))
                  "tx1" 978 sample_db sample_db_unique_columns Hjar
                  eq_refl eq_refl)
           (ex_intro _ "receipt" eq_refl)).
Defined.


Lemma sample_statement_payload (id : string) :
  statement_payload (sample_transaction_dict id None) id 5814 978.
Proof. repeat split; try reflexivity; by eexists. Qed.


(** The messages of a statement, run in the order of their
    publication. *)
Lemma run_card_statement (bank : BankAPI) (card_id : string)
    (card : MonoCard) (data : list TransactionDict) :
  (∀ td, td ∈ data → is_Some (td_id td) ∧ is_Some (td_currency_code td)) →
  ∀ db,
    unique_columns db → mono_cards db !! card_id = Some card →
    let out :=
      for_each (Task_create_transaction_from_webhook card_id <$> data)
        (run_task bank) db in
    out.1 = Ok tt ∧ unique_columns out.2 ∧ same_entities db out.2 ∧
    jar_transactions out.2 = jar_transactions db ∧
    (∀ i old, mono_transactions db !! i = Some old →
              mono_transactions out.2 !! i = Some old) ∧
    (∀ td i mso code,
       td ∈ data → statement_payload td i mso code →
       is_Some (mono_transactions out.2 !! i)) ∧
    (∀ i row, mono_transactions out.2 !! i = Some row →
              mono_transactions db !! i = Some row ∨
              tx_account row = card_id ∧
              ∃ td, td ∈ data ∧ td_id td = Some i).
Proof.
  induction data as [| td data IH]; intros Hdata db Huniq Hcard out.
  - subst out. simpl. do 2 (split; [done |]). split; [done |].
    split; [done |]. split; [done |].
    split; [| by left]. intros td i mso code Hin. by apply elem_of_nil in Hin.
  - destruct (Hdata td ltac:(left)) as [[id Hid] [code Hcode]].
    destruct (card_task_step card_id card td id code db Huniq Hcard Hid Hcode)
      as (Hok & Huniq1 & Hsame1 & Hjtx1 & Hcases & Hstored).
    subst out. rewrite fmap_cons. simpl. unfold mbind, M_bind.
    destruct (MonoTransaction.create_transaction_from_webhook card_id td db)
      as [r db1] eqn:Hrun. simpl in *. subst r.
    assert (mono_cards db1 !! card_id = Some card) as Hcard1.
    { destruct Hsame1 as (_ & -> & _). done. }
    destruct (IH (λ x Hx, Hdata x ltac:(by right)) db1 Huniq1 Hcard1)
      as (Hok2 & Huniq2 & Hsame2 & Hjtx2 & Hkeep2 & Hall2 & Honly2).
    assert (∀ i old, mono_transactions db !! i = Some old →
                     mono_transactions db1 !! i = Some old) as Hkeep1.
    { destruct Hcases as [-> | (Hnew & row & -> & _)]; [done |].
      intros i old Hold. rewrite lookup_insert_ne; [done |]. congruence. }
    split; [done |]. split; [done |]. split.
    { destruct Hsame1 as (? & ? & ? & ?), Hsame2 as (? & ? & ? & ?).
      unfold same_entities. repeat split; congruence. }
    split; [congruence |]. split; [by auto |]. split.
    + intros td' i mso code' [-> | Hin]%elem_of_cons Hpay.
      * destruct Hpay as (Hid' & _ & _ & Ht & Ha & Hb & Hh & Hc).
        assert (i = id) as -> by congruence.
        destruct (mono_transactions db !! id) as [old |] eqn:Hold.
        { exists old. by apply Hkeep2, Hkeep1. }
        destruct (Hstored eq_refl Ht Ha Hb Hh Hc) as [row Hrow].
        exists row. by apply Hkeep2.
      * by eapply Hall2.
    + intros i row Hrow.
      destruct (Honly2 i row Hrow) as [Hrow1 | (Hacc & td' & Hin & Hid')].
      * destruct Hcases as [Heq | (Hnew & row' & Heq & Hacc)];
          rewrite Heq in Hrow1; [by left |].
        destruct (decide (i = id)) as [-> | Hne].
        -- rewrite lookup_insert_eq in Hrow1. simplify_eq. right.
           split; [done |]. exists td. split; [left | done].
        -- rewrite lookup_insert_ne in Hrow1 by done. by left.
      * right. split; [done |]. exists td'. split; [by right | done].
Qed.



(** ** Ingestion of cards and jars: errors and repetition *)

Lemma MonoAccount_get_by_tg_id_tables (tg_id : string) (acct : MonoAccount)
    (db db' : DB) :
  MonoAccount_get_by_tg_id tg_id db = (Ok acct, db) →
  mono_accounts db' = mono_accounts db →
  MonoAccount_get_by_tg_id tg_id db' = (Ok acct, db').
Proof.
  unfold MonoAccount_get_by_tg_id, get_one. run_M. intros Hget ->.
  destruct (filter _ (mono_accounts db)) as [| a [| a' l]]; simpl in *;
    by simplify_eq.
Qed.

(** X8. [create_card_from_webhook] and [create_jar_from_webhook] raise
    [MonoAccount.DoesNotExist] and change nothing when no account
    belongs to the tg_id. For a stored account they raise [KeyError]
    and change nothing when the payload lacks "currency_code" (for a
    jar also "description"). For a new card whose payload lacks
    "balance" or "credit_limit", [create_card_from_webhook] raises
    [IntegrityError], stores no card and publishes nothing, yet a
    currency code that was unknown stays stored as a currency named
    "XXX". *)
Theorem ingestion_errors (bank : BankAPI) (tg_id : string) (upd : bool)
    (db : DB) :
  ((∀ a, a ∈ mono_accounts db → acc_user_tg_id a ≠ tg_id) →
   ∀ cd jd,
     MonoCard.create_card_from_webhook bank tg_id cd upd db =
       (Raise (DoesNotExist MonoAccountModel), db) ∧
     MonoJar.create_jar_from_webhook bank tg_id jd upd db =
       (Raise (DoesNotExist MonoAccountModel), db)) ∧
  (∀ acct,
     MonoAccount_get_by_tg_id tg_id db = (Ok acct, db) →
     (∀ cd, cd_currency_code cd = None →
        MonoCard.create_card_from_webhook bank tg_id cd upd db =
          (Raise KeyError, db)) ∧
     (∀ jd, jd_description jd = None ∨ jd_currency_code jd = None →
        MonoJar.create_jar_from_webhook bank tg_id jd upd db =
          (Raise KeyError, db)) ∧
     (NoDup (cur_code <$> currencies db) →
      ∀ cd id code,
        cd_id cd = Some id → cd_currency_code cd = Some code →
        mono_cards db !! id = None →
        cd_balance cd = None ∨ cd_credit_limit cd = None →
        let out := MonoCard.create_card_from_webhook bank tg_id cd upd db in
        out.1 = Raise IntegrityError ∧ mono_cards out.2 = mono_cards db ∧
        celery_queue out.2 = celery_queue db ∧
        (code ∉ cur_code <$> currencies db →
         ∃ cur, currencies out.2 = currencies db ++ [cur] ∧
                cur_code cur = code ∧ cur_name cur = "XXX"))).
Proof.
  split.
  - intros Hnone cd jd.
    unfold MonoCard.create_card_from_webhook, MonoJar.create_jar_from_webhook,
      MonoAccount_get_by_tg_id, get_one.
    run_M. rewrite filter_nil_intro; [done |].
    intros a Ha. by apply Hnone.
  - intros acct Hacct. split; [| split].
    + intros cd Hcode. unfold MonoCard.create_card_from_webhook. run_M.
      by rewrite Hacct, Hcode.
    + intros jd Hmissing. unfold MonoJar.create_jar_from_webhook. run_M.
      rewrite Hacct. simpl.
      destruct (jd_description jd) as [descr |]; simpl; [| done].
      destruct Hmissing as [? | ->]; done.
    + intros Hnd cd id code Hid Hcode Hnew Hmissing out.
      assert (∃ cur db1, resolve_currency code db = (Ok cur, db1) ∧
                mono_cards db1 = mono_cards db ∧
                celery_queue db1 = celery_queue db ∧
                (code ∉ cur_code <$> currencies db →
                 ∃ cur', currencies db1 = currencies db ++ [cur'] ∧
                         cur_code cur' = code ∧ cur_name cur' = "XXX"))
        as (cur & db1 & Hres & Hcards & Hq & Hcur).
      { destruct (resolve_currency_spec code db Hnd)
          as [(c & Hc & Hin & Hcc) | [Hn Hc]].
        - exists c, db. do 3 (split; [done |]). intros Hn. destruct Hn.
          apply list_elem_of_fmap. by exists c.
        - simpl in Hc. eexists _, _. split; [exact Hc |]. simpl.
          do 2 (split; [done |]). intros _. by eexists. }
      assert (out = (Raise IntegrityError, db1)) as ->; [| done].
      subst out. unfold MonoCard.create_card_from_webhook. run_M.
      rewrite Hacct, Hcode. simpl. rewrite Hres. simpl.
      unfold MonoCard.update_or_create, get_by_id. run_M.
      rewrite Hid, Hcards, Hnew. simpl.
      unfold MonoCard.get_or_create. run_M.
      rewrite filter_nil_intro; simpl.
      2: { intros [id' c] Hin Hm. apply elem_of_map_to_list in Hin.
           unfold MonoCard.lookup_matches in Hm. rewrite Hid in Hm.
           simpl in Hm. rewrite !andb_True in Hm. destruct_and!.
           repeat match goal with
                  | H : Is_true (bool_decide _) |- _ =>
                      apply bool_decide_unpack in H
                  end.
           congruence. }
      unfold MonoCard.new_row.
      destruct Hmissing as [-> | ->]; simpl; [done |].
      by destruct (cd_balance cd).
Qed.

Lemma card_setattrs_fixpoint (cd : CardData) (c : MonoCard) :
  card_carries cd c → card_is_active c = true → MonoCard.setattrs cd c = c.
Proof.
  intros (H1 & H2 & H3 & H4 & H5 & H6 & H7) Hact.
  destruct c; unfold MonoCard.setattrs; simpl in *. subst. f_equal.
  - destruct (cd_send_id cd); simpl; [symmetry; by apply H1 | done].
  - destruct (cd_cashback_type cd); simpl; [symmetry; by apply H2 | done].
  - destruct (cd_balance cd); simpl; [symmetry; by apply H3 | done].
  - destruct (cd_credit_limit cd); simpl; [symmetry; by apply H4 | done].
  - destruct (cd_masked_pan cd); simpl; [by rewrite (H5 _ eq_refl) | done].
  - destruct (cd_type cd); simpl; [symmetry; by apply H6 | done].
  - destruct (cd_iban cd); simpl; [symmetry; by apply H7 | done].
Qed.

Lemma jar_setattrs_fixpoint (jd : JarData) (j : MonoJar) :
  jar_carries jd j → jar_is_active j = true → MonoJar.setattrs jd j = j.
Proof.
  intros (H1 & H2 & H3 & H4) Hact.
  destruct j; unfold MonoJar.setattrs; simpl in *. subst. f_equal.
  - destruct (jd_send_id jd); simpl; [symmetry; by apply H1 | done].
  - destruct (jd_title jd); simpl; [symmetry; by apply H2 | done].
  - destruct (jd_balance jd); simpl; [symmetry; by apply H3 | done].
  - destruct (jd_goal jd); simpl; [by rewrite (H4 _ eq_refl) | done].
Qed.



(** ** Access of superusers *)

Lemma filter_True_id {A} (P : A → Prop) `{!∀ x, Decision (P x)} (l : list A) :
  (∀ x, x ∈ l → P x) → filter P l = l.
Proof.
  induction l as [| a l IH]; intros Hall; [done |].
  rewrite filter_cons, decide_True by (apply Hall; left).
  f_equal. apply IH. intros x Hx. apply Hall. by right.
Qed.

(** X10. For a superuser, [get_accessible_user_tg_ids] returns [None]
    (no filtering) unless the action is "list" and the parameter
    [users] is not empty, in which case (without family expansion) it
    returns exactly the comma-separated items of the parameter; with no
    filtering the list of cards holds exactly the active cards, the
    list of jars (without [is_budget]) exactly the active jars, the
    list of card transactions (without [cards]) every card transaction
    and the list of jar transactions (without [jars] and [time_from])
    every jar transaction. *)
Theorem superuser_access (rt : Runtime) (fam : FamilyLinks) (db : DB)
    (request : Request) :
  is_superuser (user request) = true →
  (∀ users_param with_family,
     truthy_str users_param = false ∨ action request ≠ "list" →
     get_accessible_user_tg_ids fam request users_param with_family = None) ∧
  (∀ s, s ≠ "" → action request = "list" →
     get_accessible_user_tg_ids fam request (Some s) false =
       Some (split_comma s)) ∧
  (truthy_str (q_users request) = false ∨ action request ≠ "list" →
   (∀ e, e ∈ MonoCardViewSet.get_queryset fam db request ↔
         mono_cards db !! e.1 = Some e.2 ∧ card_is_active e.2 = true) ∧
   (q_is_budget request = None →
    ∀ e, e ∈ MonoJarViewSet.get_queryset fam db request ↔
         mono_jars db !! e.1 = Some e.2 ∧ jar_is_active e.2 = true) ∧
   (truthy_str (q_cards request) = false →
    ∀ e, e ∈ MonoTransactionViewSet.get_queryset fam db request ↔
         mono_transactions db !! e.1 = Some e.2) ∧
   (truthy_str (q_jars request) = false →
    truthy_str (q_time_from request) = false →
    ∀ e, e ∈ MonoJarTransactionViewSet.get_queryset rt fam db request ↔
         jar_transactions db !! e.1 = Some e.2)).
Proof.
  intros Hsu.
  assert (∀ users_param with_family,
            truthy_str users_param = false ∨ action request ≠ "list" →
            get_accessible_user_tg_ids fam request users_param with_family =
              None) as Hnone.
  { intros users_param with_family Hcase.
    unfold get_accessible_user_tg_ids. rewrite Hsu.
    destruct Hcase as [-> | Hact]; [done |].
    rewrite (bool_decide_false _ Hact). by rewrite andb_false_r. }
  split; [done |]. split.
  - intros s Hs Hact. unfold get_accessible_user_tg_ids. rewrite Hsu.
    simpl. apply String.eqb_neq in Hs. rewrite Hs. simpl.
    by rewrite bool_decide_true.
  - intros Hcase. split; [| split; [| split]].
    + intros [id c]. unfold MonoCardViewSet.get_queryset.
      rewrite (Hnone _ _ Hcase). simpl.
      rewrite filter_True_id by done.
      rewrite merge_sort_Permutation, list_elem_of_filter.
      rewrite elem_of_map_to_list. simpl. tauto.
    + intros Hb [id j]. unfold MonoJarViewSet.get_queryset.
      rewrite (Hnone _ _ Hcase), Hb. simpl.
      rewrite filter_True_id by done.
      rewrite merge_sort_Permutation, list_elem_of_filter.
      rewrite elem_of_map_to_list. simpl. tauto.
    + intros Hc [id t]. unfold MonoTransactionViewSet.get_queryset.
      rewrite (Hnone _ _ Hcase), Hc. simpl.
      rewrite filter_True_id by done.
      by rewrite merge_sort_Permutation, elem_of_map_to_list.
    + intros Hj Ht [id t]. unfold MonoJarTransactionViewSet.get_queryset.
      rewrite (Hnone _ _ Hcase), Hj, Ht. simpl.
      rewrite filter_True_id by done.
      by rewrite merge_sort_Permutation, elem_of_map_to_list.
Qed.

Lemma superuser_access_witness :
  let request := sample_request "admin_tg_id" true None None in
  is_superuser (user request) = true ∧
  ∀ e, e ∈ MonoCardViewSet.get_queryset sample_family sample_db request ↔
       mono_cards sample_db !! e.1 = Some e.2 ∧ card_is_active e.2 = true.
Proof.
  intros request. split; [reflexivity |].
  exact (proj1 (proj2 (proj2 (superuser_access utc_runtime sample_family
                                sample_db request eq_refl))
                  (or_introl eq_refl))).
Defined.

(** ** The object permission and the list filters *)

Section DetailActions.
Import IsOwnerOrFamilyOrAdminPermission.

(** An object whose owner passes the filter of a list endpoint passes
    the object permission. *)
Lemma owned_by_has_object_permission (fam : FamilyLinks) (db : DB)
    (request : Request) (users_param : option string) (with_family : bool)
    (obj : ViewObject) (pk : option Z) :
  target_tg_id db obj = pk ≫= owner_tg_id db →
  owned_by db
    (get_accessible_user_tg_ids fam request users_param with_family) pk →
  has_object_permission fam db request obj = true.
Proof.
  intros Htarget Hown. unfold has_object_permission.
  destruct (is_superuser (user request)) eqn:Hsu; [done |].
  destruct (owned_by_accessible fam request Hsu db users_param with_family
              pk Hown) as (tg & Htg & Hrel).
  unfold owned_by_tg_id in Htg. rewrite Htarget, Htg.
  apply bool_decide_true. by apply elem_of_list_to_set.
Qed.

Lemma jar_listed_permitted (fam : FamilyLinks) (db : DB) (request : Request)
    (e : string * MonoJar) :
  e ∈ MonoJarViewSet.get_queryset fam db request →
  has_object_permission fam db request (JarObject e.2) = true.
Proof.
  intros He. unfold MonoJarViewSet.get_queryset in He.
  destruct (q_is_budget request);
    [apply list_elem_of_filter in He as [_ He] |];
    apply list_elem_of_filter in He as [Hown _];
    by eapply (owned_by_has_object_permission _ _ _ _ _ _
                 (Some (jar_monoaccount e.2))).
Qed.

(** X11. Every card, jar, card transaction and jar transaction that a
    list queryset returns for a request passes
    [has_object_permission] for that request; and for a requester who
    is no superuser the object permission holds exactly when the owner
    of the object exists and has a tg_id among the related tg_ids of
    the requester. *)
Theorem listed_objects_are_permitted (rt : Runtime) (fam : FamilyLinks)
    (db : DB) (request : Request) :
  (∀ e, e ∈ MonoCardViewSet.get_queryset fam db request →
        has_object_permission fam db request (CardObject e.2) = true) ∧
  (∀ e, e ∈ MonoJarViewSet.get_queryset fam db request →
        has_object_permission fam db request (JarObject e.2) = true) ∧
  (∀ e, e ∈ MonoTransactionViewSet.get_queryset fam db request →
        has_object_permission fam db request (CardTransactionObject e.2) =
          true) ∧
  (∀ e, e ∈ MonoJarTransactionViewSet.get_queryset rt fam db request →
        has_object_permission fam db request (JarTransactionObject e.2) =
          true) ∧
  (is_superuser (user request) = false →
   ∀ obj,
     has_object_permission fam db request obj = true ↔
     ∃ tg, target_tg_id db obj = Some tg ∧
           tg ∈ get_related_tg_ids fam (user request)).
Proof.
  split; [| split; [| split; [| split]]].
  - intros e He. unfold MonoCardViewSet.get_queryset in He.
    apply list_elem_of_filter in He as [Hown _].
    by eapply (owned_by_has_object_permission _ _ _ _ _ _
                 (Some (card_monoaccount e.2))).
  - apply jar_listed_permitted.
  - intros e He. unfold MonoTransactionViewSet.get_queryset in He.
    apply list_elem_of_filter in He as [Hown _].
    eapply (owned_by_has_object_permission _ _ _ _ _ _
              (card_monoaccount <$> mono_cards db !! tx_account e.2));
      [| exact Hown].
    simpl. by destruct (mono_cards db !! tx_account e.2).
  - intros e He. unfold MonoJarTransactionViewSet.get_queryset in He.
    apply list_elem_of_filter in He as [Hown _].
    eapply (owned_by_has_object_permission _ _ _ _ _ _
              (jar_monoaccount <$> mono_jars db !! jtx_account e.2));
      [| exact Hown].
    simpl. by destruct (mono_jars db !! jtx_account e.2).
  - intros Hsu obj. unfold has_object_permission. rewrite Hsu.
    destruct (target_tg_id db obj) as [tg |].
    + rewrite bool_decide_eq_true, elem_of_list_to_set. split.
      * intros Hin. by exists tg.
      * by intros (tg' & [= <-] & Hin).
    + split; [done |]. by intros (tg & [=] & _).
Qed.

(** ** [set_invested] and [set_budget_status] *)

Lemma jar_queryset_elem (fam : FamilyLinks) (db : DB) (request : Request)
    (e : string * MonoJar) :
  e ∈ MonoJarViewSet.get_queryset fam db request ↔
  mono_jars db !! e.1 = Some e.2 ∧ jar_is_active e.2 = true ∧
  owned_by db
    (get_accessible_user_tg_ids fam request (q_users request)
       (flag_param (q_with_family request)))
    (Some (jar_monoaccount e.2)) ∧
  (∀ v, q_is_budget request = Some v →
        jar_is_budget e.2 = flag_param (Some v)).
Proof.
  unfold MonoJarViewSet.get_queryset. destruct e as [id j]. simpl.
  destruct (q_is_budget request) as [v |].
  - rewrite !list_elem_of_filter, merge_sort_Permutation,
      list_elem_of_filter, elem_of_map_to_list. simpl.
    split.
    + intros (Hb & Hown & Hact & Hlk). repeat split; try done.
      by intros ? [= <-].
    + intros (Hlk & Hact & Hown & Hb). repeat split; try done.
      by apply Hb.
  - rewrite list_elem_of_filter, merge_sort_Permutation,
      list_elem_of_filter, elem_of_map_to_list. simpl.
    split; [intros (? & ? & ?) | intros (? & ? & ? & _)]; done.
Qed.

Lemma jar_queryset_NoDup (fam : FamilyLinks) (db : DB) (request : Request) :
  NoDup (MonoJarViewSet.get_queryset fam db request).
Proof.
  unfold MonoJarViewSet.get_queryset.
  assert (NoDup (merge_sort by_id
                   (filter (λ e : string * MonoJar, jar_is_active e.2 = true)
                      (map_to_list (mono_jars db))))) as Hnd.
  { rewrite merge_sort_Permutation. apply NoDup_filter, NoDup_map_to_list. }
  destruct (q_is_budget request); repeat apply NoDup_filter; done.
Qed.

(** [get_object] finds the row of the queryset under the key, and the
    object permission never refuses it. *)
Lemma jar_get_object (fam : FamilyLinks) (db : DB) (request : Request)
    (pk : string) :
  match mono_jars db !! pk with
  | Some jar =>
      if decide ((pk, jar) ∈ MonoJarViewSet.get_queryset fam db request)
      then JarActions.get_object fam db request pk = inr (pk, jar)
      else JarActions.get_object fam db request pk = inl Http404
  | None => JarActions.get_object fam db request pk = inl Http404
  end.
Proof.
  unfold JarActions.get_object.
  set (qs := MonoJarViewSet.get_queryset fam db request).
  assert (∀ e, e ∈ qs → e.1 = pk → mono_jars db !! pk = Some e.2) as Hkey.
  { intros e He <-. by apply jar_queryset_elem in He as (? & _). }
  destruct (mono_jars db !! pk) as [jar |] eqn:Hlk.
  - rewrite (filter_at_most_one _ qs (pk, jar)).
    + destruct (decide ((pk, jar) ∈ qs)) as [Hin | Hout].
      * rewrite decide_True by done. simpl.
        pose proof (jar_listed_permitted fam db request (pk, jar) Hin)
          as Hperm.
        simpl in Hperm. by rewrite Hperm.
      * rewrite decide_False by (by intros [? _]). done.
    + apply jar_queryset_NoDup.
    + intros [id j] He Hid. simpl in Hid. subst id.
      specialize (Hkey _ He eq_refl). simpl in Hkey. congruence.
  - rewrite filter_nil_intro; [done |].
    intros e He Hid. specialize (Hkey e He Hid). done.
Qed.

(** X12. When the jar with the primary key of the URL is missing,
    inactive, or (for a requester who is no superuser) owned by nobody
    among the related tg_ids of the requester, [set_invested] and
    [set_budget_status] answer 404, whatever the body, and write
    nothing. *)
Theorem jar_actions_hide_foreign_jars (fam : FamilyLinks) (db : DB)
    (request : Request) (pk : string) :
  (∀ jar, mono_jars db !! pk = Some jar →
     jar_is_active jar = false ∨
     (is_superuser (user request) = false ∧
      ∀ tg, owned_by_tg_id db (Some (jar_monoaccount jar)) tg →
            tg ∉ get_related_tg_ids fam (user request))) →
  ∀ invested is_budget,
    JarActions.set_invested fam request pk invested db =
      (Ok (inl Http404), db) ∧
    JarActions.set_budget_status fam request pk is_budget db =
      (Ok (inl Http404), db).
Proof.
  intros Hhidden invested is_budget.
  assert (JarActions.get_object fam db request pk = inl Http404) as Hget.
  { pose proof (jar_get_object fam db request pk) as Hobj.
    destruct (mono_jars db !! pk) as [jar |] eqn:Hlk; [| done].
    destruct (decide _) as [Hin | _]; [| done]. exfalso.
    apply jar_queryset_elem in Hin as (_ & Hact & Hown & _). simpl in *.
    destruct (Hhidden jar eq_refl) as [Hinact | [Hsu Hforeign]];
      [congruence |].
    destruct (owned_by_accessible fam request Hsu db _ _ _ Hown)
      as (tg & Htg & Hrel).
    by apply (Hforeign tg). }
  unfold JarActions.set_invested, JarActions.set_budget_status. run_M.
  by rewrite Hget.
Qed.

Lemma jar_actions_hide_foreign_jars_witness :
  let request := sample_request "some_user" false None None in
  (∀ jar, mono_jars sample_db !! "pre_created_jar_id" = Some jar →
     jar_is_active jar = false ∨
     (is_superuser (user request) = false ∧
      ∀ tg, owned_by_tg_id sample_db (Some (jar_monoaccount jar)) tg →
            tg ∉ get_related_tg_ids sample_family (user request))) ∧
  JarActions.set_invested sample_family request "pre_created_jar_id"
    (Some 100) sample_db = (Ok (inl Http404), sample_db).
Proof.
  intros request.
  assert (∀ jar, mono_jars sample_db !! "pre_created_jar_id" = Some jar →
     jar_is_active jar = false ∨
     (is_superuser (user request) = false ∧
      ∀ tg, owned_by_tg_id sample_db (Some (jar_monoaccount jar)) tg →
            tg ∉ get_related_tg_ids sample_family (user request))) as Hforeign.
  { intros jar Hjar.
    assert (jar = sample_jar 1 "pre_created_title" 1000 true) as ->.
    { vm_compute in Hjar. by injection Hjar. }
    right. split; [reflexivity |]. intros tg Htg.
    vm_compute in Htg. injection Htg as <-.
    apply (bool_decide_unpack _). vm_compute. exact I. }
  split; [exact Hforeign |].
  exact (proj1 (jar_actions_hide_foreign_jars sample_family sample_db request
                  "pre_created_jar_id" Hforeign (Some 100) None)).
Defined.


Lemma sample_jar_listed :
  ("pre_created_jar_id", sample_jar 1 "pre_created_title" 1000 true) ∈
  MonoJarViewSet.get_queryset sample_family sample_db
    (sample_request "precreated_user_tg_id" false None None).
Proof.
  apply jar_queryset_elem. split; [by_lookup |]. split; [reflexivity |].
  split; [| intros v Hv; discriminate].
  apply (bool_decide_unpack _). vm_compute. exact I.
Qed.


(** ** [str] of an integer has no letters *)

Lemma pretty_N_char_digit (x : N) : digit_or_dash (pretty_N_char x) = true.
Proof. unfold pretty_N_char. by repeat case_match. Qed.

Lemma pretty_N_go_digits (x : N) (s : string) :
  digits_only s = true → digits_only (pretty_N_go x s) = true.
Proof.
  revert s. induction (N.lt_wf_0 x) as [x _ IH]; intros s Hs.
  assert (x = 0 ∨ 0 < x)%N as [-> | Hpos] by lia.
  - by rewrite pretty_N_go_0.
  - rewrite pretty_N_go_step by done. apply IH.
    + by apply N.div_lt.
    + simpl. by rewrite pretty_N_char_digit.
Qed.

Lemma pretty_Z_digits (n : Z) : digits_only (pretty n) = true.
Proof.
  unfold pretty, pretty_Z. destruct n as [| p | p]; [done | |].
  - unfold pretty, pretty_positive, pretty, pretty_N.
    case_decide; [done |]. by apply pretty_N_go_digits.
  - unfold pretty, pretty_positive, pretty, pretty_N.
    case_decide; [done |]. simpl. by apply pretty_N_go_digits.
Qed.

Lemma lower_ascii_digit (c : ascii) :
  digit_or_dash c = true → lower_ascii c = c.
Proof.
  destruct c as [[] [] [] [] [] [] [] []]; vm_compute; congruence.
Qed.

Lemma lower_digits (s : string) : digits_only s = true → lower s = s.
Proof.
  induction s as [| c s IH]; simpl; [done |].
  intros [Hc Hs]%andb_true_iff. by rewrite lower_ascii_digit, IH.
Qed.

Lemma budget_flag_int (n : Z) : budget_flag (JInt n) = bool_decide (n = 1).
Proof.
  unfold budget_flag. simpl.
  rewrite lower_digits by apply pretty_Z_digits.
  apply bool_decide_ext. rewrite !elem_of_cons, elem_of_nil. split.
  - intros [H1 | [H2 | [H3 | []]]].
    + by apply (inj pretty n 1).
    + pose proof (pretty_Z_digits n) as Hd. by rewrite H2 in Hd.
    + pose proof (pretty_Z_digits n) as Hd. by rewrite H3 in Hd.
  - intros ->. by left.
Qed.

(** X14. For a jar that the jar queryset of the requester holds,
    [set_budget_status] answers 400 with an error and writes nothing
    when "is_budget" is missing or null; otherwise it stores a flag in
    the field [is_budget] of that jar only and answers with the updated
    jar. The flag is the value itself for a boolean, true exactly for
    the integer 1, and for a string true exactly when its lower-cased
    text is "1", "true" or "yes". *)
Theorem set_budget_status_spec (fam : FamilyLinks) (db : DB)
    (request : Request) (pk : string) (jar : MonoJar) :
  (pk, jar) ∈ MonoJarViewSet.get_queryset fam db request →
  (∀ is_budget,
     is_budget = None ∨ is_budget = Some JNull →
     JarActions.set_budget_status fam request pk is_budget db =
       (Ok (inr (JarError 400 "is_budget parameter is required")), db)) ∧
  (∀ v, v ≠ JNull →
     let jar' := with_is_budget (budget_flag v) jar in
     JarActions.set_budget_status fam request pk (Some v) db =
       (Ok (inr (JarSerialized (pk, jar'))),
        set_mono_jars (<[pk := jar']> (mono_jars db)) db)) ∧
  (∀ b, budget_flag (JBool b) = b) ∧
  (∀ n, budget_flag (JInt n) = bool_decide (n = 1)) ∧
  (∀ s, budget_flag (JStr s) = flag_param (Some s)).
Proof.
  intros Hin.
  assert (JarActions.get_object fam db request pk = inr (pk, jar)) as Hget.
  { pose proof (jar_get_object fam db request pk) as Hobj.
    pose proof Hin as (Hlk & _)%jar_queryset_elem. simpl in Hlk.
    rewrite Hlk in Hobj. by rewrite decide_True in Hobj. }
  split; [| split; [| split; [| split]]].
  - intros is_budget Hnone. unfold JarActions.set_budget_status. run_M.
    rewrite Hget. by destruct Hnone as [-> | ->].
  - intros v Hv jar'. unfold JarActions.set_budget_status. run_M.
    rewrite Hget. by destruct v.
  - by intros [].
  - apply budget_flag_int.
  - done.
Qed.

Lemma set_budget_status_spec_witness :
  let request := sample_request "precreated_user_tg_id" false None None in
  let jar := sample_jar 1 "pre_created_title" 1000 true in
  ("pre_created_jar_id", jar) ∈
    MonoJarViewSet.get_queryset sample_family sample_db request ∧
  JarActions.set_budget_status sample_family request "pre_created_jar_id"
    None sample_db =
    (Ok (inr (JarError 400 "is_budget parameter is required")), sample_db).
Proof.
  intros request jar. split; [exact sample_jar_listed |].
  exact (proj1 (set_budget_status_spec sample_family sample_db request
                  "pre_created_jar_id" jar sample_jar_listed)
           None (or_introl eq_refl)).
Defined.

End DetailActions.

(** ** The order of dates and of their ordinals *)

Lemma days_before_month_end (y m : Z) :
  1 ≤ m ≤ 12 →
  _days_before_month y m + _days_in_month y m ≤ days_in_year y.
Proof.
  intros Hm. destruct (decide (m = 12)) as [-> | Hne].
  - unfold _days_before_month, _days_in_month, days_in_year.
    destruct (_is_leap y); simpl; lia.
  - rewrite <- days_before_month_succ by lia.
    pose proof (days_before_month_bounds y (m + 1)).
    unfold days_in_year. destruct (_is_leap y); lia.
Qed.

Lemma toordinal_lt (a b : date) :
  valid_date a → valid_date b → date_lt a b → toordinal a < toordinal b.
Proof.
  intros (Hya & Hma & Hda) (Hyb & Hmb & Hdb) Hlt.
  unfold toordinal, _ymd2ord.
  destruct Hlt as [Hy | [Hy [Hm | [Hm Hd]]]].
  - pose proof (days_before_year_mono (year a + 1) (year b)) as Hmono.
    rewrite days_before_year_succ in Hmono.
    pose proof (days_before_month_end (year a) (month a) Hma).
    pose proof (days_before_month_bounds (year b) (month b) Hmb).
    lia.
  - rewrite Hy in *.
    pose proof (days_before_month_succ (year b) (month a)) as Hsucc.
    pose proof (days_before_month_mono (year b) (month a + 1) (month b))
      as Hmono.
    lia.
  - rewrite Hy, Hm. lia.
Qed.

Lemma toordinal_le (a b : date) :
  valid_date a → valid_date b → date_le a b ↔ toordinal a ≤ toordinal b.
Proof.
  intros Ha Hb. split.
  - intros [Hlt | ->]; [| lia]. pose proof (toordinal_lt a b Ha Hb Hlt). lia.
  - intros Hle. destruct (total date_le a b) as [? | [Hlt | ->]]; [done | |].
    + pose proof (toordinal_lt b a Hb Ha Hlt). lia.
    + by right.
Qed.

(** The local date of an instant, in a zone with a fixed offset. *)
Lemma fromtimestamp_ordinal (off t : Z) (dt : datetime) :
  fromtimestamp (λ _, off) t = Ok dt →
  valid_date (dt_date dt) ∧
  toordinal (dt_date dt) = (t + off) / 86400 + 719163.
Proof.
  intros Hdt. split; [by eapply fromtimestamp_Ok_valid |].
  unfold fromtimestamp, SECONDS_PER_DAY, EPOCH_ORDINAL in Hdt.
  destruct (ord2ymd_spec ((t + off) / 86400 + 719163))
    as (y & m & d & Heq & Hm & Hd & Hord).
  rewrite Heq in Hdt.
  destruct (date_new y m d) as [dte |] eqn:Hnew; simpl in Hdt; [| done].
  apply date_new_Ok in Hnew as [-> _]. by simplify_eq.
Qed.

(** Local midnight of [d] is at or before the instant [t] exactly when
    [d] is at or before the local date of [t]. *)
Lemma midnight_le_iff (off t : Z) (d : date) (dt : datetime) :
  valid_date d → fromtimestamp (λ _, off) t = Ok dt →
  midnight_timestamp (λ l, l - off) d ≤ t ↔ date_le d (dt_date dt).
Proof.
  intros Hd Hdt. apply fromtimestamp_ordinal in Hdt as [Hv Hord].
  rewrite (toordinal_le d (dt_date dt) Hd Hv), Hord.
  unfold midnight_timestamp, SECONDS_PER_DAY, EPOCH_ORDINAL.
  generalize (toordinal d). intros n. Z.div_mod_to_equations. lia.
Qed.

(** ** The lists of transactions *)

#[global] Instance jar_by_time_desc_id_trans :
  Transitive MonoJarTransactionViewSet.by_time_desc_id.
Proof.
  intros a b c [Hab | [Hab Hab']] [Hbc | [Hbc Hbc']];
    unfold MonoJarTransactionViewSet.by_time_desc_id; try lia.
  right. split; [lia |]. by etrans.
Qed.

#[global] Instance jar_by_time_desc_id_total :
  Total MonoJarTransactionViewSet.by_time_desc_id.
Proof.
  intros a b. unfold MonoJarTransactionViewSet.by_time_desc_id.
  destruct (Z.lt_trichotomy (jtx_time a.2) (jtx_time b.2)) as [? | [? | ?]];
    [right; left; lia | | left; left; lia].
  destruct (total String.le a.1 b.1); [left | right]; right; split;
    done || lia.
Qed.

#[global] Instance card_by_time_desc_id_trans :
  Transitive MonoTransactionViewSet.by_time_desc_id.
Proof.
  intros a b c [Hab | [Hab Hab']] [Hbc | [Hbc Hbc']];
    unfold MonoTransactionViewSet.by_time_desc_id; try lia.
  right. split; [lia |]. by etrans.
Qed.

#[global] Instance card_by_time_desc_id_total :
  Total MonoTransactionViewSet.by_time_desc_id.
Proof.
  intros a b. unfold MonoTransactionViewSet.by_time_desc_id.
  destruct (Z.lt_trichotomy (tx_time a.2) (tx_time b.2)) as [? | [? | ?]];
    [right; left; lia | | left; left; lia].
  destruct (total String.le a.1 b.1); [left | right]; right; split;
    done || lia.
Qed.

Lemma StronglySorted_filter {A} (R : relation A) (P : A → Prop)
    `{!∀ x, Decision (P x)} (l : list A) :
  StronglySorted R l → StronglySorted R (filter P l).
Proof.
  induction 1 as [| a l Hl IH Hall]; [constructor |].
  rewrite filter_cons. destruct (decide (P a)); [| done].
  constructor; [done |].
  apply Forall_forall. intros x [_ Hx]%list_elem_of_filter.
  by eapply Forall_forall in Hall.
Qed.


(** ** [DailyReportSchedulerApiView] *)

Section DailyReport.
Import DailyReportSchedulerApiView.

Lemma get_or_create_schedule_spec (beat : Beat) :
  one_daily_schedule beat →
  ∃ schedule beat1,
    get_or_create_schedule beat = (inr schedule, beat1) ∧
    is_daily_21 schedule ∧ schedule ∈ crontabs beat1 ∧
    periodic_tasks beat1 = periodic_tasks beat ∧
    one_daily_schedule beat1 ∧
    (∀ beat2, crontabs beat2 = crontabs beat1 →
              get_or_create_schedule beat2 = (inr schedule, beat2)).
Proof.
  unfold one_daily_schedule, get_or_create_schedule. intros Hone.
  destruct (filter is_daily_21 (crontabs beat)) as [| a [| b l]] eqn:Hf.
  - set (schedule := {| cron_pk := next_pk (cron_pk <$> crontabs beat);
                        cron_minute := "0" |}).
    assert (filter is_daily_21 (crontabs beat ++ [schedule]) = [schedule])
      as Hf'.
    { rewrite filter_app, Hf. simpl. rewrite filter_cons, decide_True; [done |].
      by repeat split. }
    eexists _, _. split; [reflexivity |]. simpl.
    split; [by repeat split |].
    split; [apply elem_of_app; right; left |]. split; [done |].
    split; [by rewrite Hf' |].
    intros beat2 Hc. simpl in Hc. by rewrite Hc, Hf'.
  - assert (a ∈ filter is_daily_21 (crontabs beat)) as Ha
      by (rewrite Hf; left).
    apply list_elem_of_filter in Ha as [HPa Ha].
    exists a, beat. split; [done |]. split; [done |]. split; [done |].
    split; [done |]. split; [by rewrite Hf |].
    intros beat2 Hc. by rewrite Hc, Hf.
  - simpl in Hone. lia.
Qed.

(** X16. With a non-empty tg_id and at most one stored schedule "daily
    at 21:00", [post] registers the enabled task named after the tg_id
    on that schedule, answering 201 when the task is new and 200
    otherwise, and never stores a second such schedule; [post] again
    answers 200 and changes nothing; [delete] without a true "delete"
    disables the task, and a later [post] restores exactly the
    registered state; [delete] with a true "delete" removes the task,
    and a second [delete] answers 404. *)
Theorem daily_report_lifecycle (tg_id : JSON) (beat : Beat) :
  py_truthy tg_id = true → one_daily_schedule beat →
  ∃ schedule beat1,
    is_daily_21 schedule ∧ schedule ∈ crontabs beat1 ∧
    one_daily_schedule beat1 ∧
    (* registering *)
    post true (Some tg_id) beat =
      (inr (Registered
              (if bool_decide (periodic_tasks beat !! task_name tg_id = None)
               then 201 else 200)
              (task_name tg_id) "daily at 21:00" (py_str tg_id)),
       beat1) ∧
    periodic_tasks beat1 =
      <[task_name tg_id := daily_task schedule tg_id]> (periodic_tasks beat) ∧
    (* registering again *)
    post true (Some tg_id) beat1 =
      (inr (Registered 200 (task_name tg_id) "daily at 21:00" (py_str tg_id)),
       beat1) ∧
    (* disabling, and registering again *)
    (∀ delete_flag,
       delete_flag = None ∨ (∃ v, delete_flag = Some v ∧ py_truthy v = false) →
       ∃ beat2,
         delete true (Some tg_id) delete_flag beat1 =
           (inr (Unregistered 200 "disabled" (task_name tg_id)), beat2) ∧
         periodic_tasks beat2 =
           <[task_name tg_id := disabled (daily_task schedule tg_id)]>
             (periodic_tasks beat) ∧
         post true (Some tg_id) beat2 =
           (inr (Registered 200 (task_name tg_id) "daily at 21:00"
                   (py_str tg_id)),
            beat1)) ∧
    (* deleting *)
    (∀ v, py_truthy v = true →
       ∃ beat2,
         delete true (Some tg_id) (Some v) beat1 =
           (inr (Unregistered 200 "deleted" (task_name tg_id)), beat2) ∧
         periodic_tasks beat2 =
           base.delete (task_name tg_id) (periodic_tasks beat) ∧
         delete true (Some tg_id) (Some v) beat2 =
           (inr (SchedulerError 404 "task not found"), beat2)).
Proof.
  intros Htg Hone.
  destruct (get_or_create_schedule_spec beat Hone)
    as (schedule & beat0 & Hget & Hdaily & Hin & Htasks & Hone0 & Hagain).
  set (name := task_name tg_id).
  set (beat1 := {| crontabs := crontabs beat0;
                   periodic_tasks :=
                     <[name := daily_task schedule tg_id]>
                       (periodic_tasks beat0) |}).
  exists schedule, beat1.
  split; [done |]. split; [done |]. split; [done |].
  assert (∀ b, crontabs b = crontabs beat0 →
               post true (Some tg_id) b =
               (inr (Registered
                       (if bool_decide (periodic_tasks b !! name = None)
                        then 201 else 200)
                       name "daily at 21:00" (py_str tg_id)),
                {| crontabs := crontabs b;
                   periodic_tasks :=
                     <[name := daily_task schedule tg_id]>
                       (periodic_tasks b) |})) as Hpost.
  { intros b Hb. unfold post. rewrite Htg. simpl. by rewrite (Hagain b Hb). }
  split; [| split; [| split; [| split]]].
  - unfold post. rewrite Htg. simpl. rewrite Hget. fold name.
    subst beat1. by rewrite Htasks.
  - subst beat1. simpl. by rewrite Htasks.
  - rewrite (Hpost beat1 eq_refl). subst beat1. simpl.
    rewrite lookup_insert_eq, bool_decide_false by done.
    by rewrite insert_insert_eq.
  - intros delete_flag Hflag.
    assert (match delete_flag with Some v => py_truthy v | None => false end
            = false) as Hfalse.
    { by destruct Hflag as [-> | (v & -> & ?)]. }
    eexists. split; [| split].
    + unfold delete. rewrite Htg. simpl. fold name.
      rewrite lookup_insert_eq, Hfalse. reflexivity.
    + simpl. by rewrite insert_insert_eq, Htasks.
    + rewrite Hpost by done. simpl.
      rewrite lookup_insert_eq, bool_decide_false by done.
      by rewrite !insert_insert_eq.
  - intros v Hv. eexists. split; [| split].
    + unfold delete. rewrite Htg. simpl. fold name.
      rewrite lookup_insert_eq, Hv. reflexivity.
    + simpl. by rewrite delete_insert_eq, Htasks.
    + unfold delete. rewrite Htg. simpl. fold name.
      by rewrite lookup_delete_eq.
Qed.

Lemma daily_report_lifecycle_witness :
  py_truthy (JInt 552901111) = true ∧ one_daily_schedule empty_beat ∧
  ∃ schedule beat1,
    DailyReportSchedulerApiView.is_daily_21 schedule ∧
    schedule ∈ crontabs beat1 ∧
    DailyReportSchedulerApiView.post true (Some (JInt 552901111)) beat1 =
      (inr (Registered 200
              (DailyReportSchedulerApiView.task_name (JInt 552901111))
              "daily at 21:00" (py_str (JInt 552901111))),
       beat1).
Proof.
  assert (one_daily_schedule empty_beat) as Hone.
  { unfold one_daily_schedule. simpl. lia. }
  split; [reflexivity |]. split; [exact Hone |].
  destruct (daily_report_lifecycle (JInt 552901111) empty_beat eq_refl Hone)
    as (schedule & beat1 & Hdaily & Hin & _ & _ & _ & Hagain & _).
  exists schedule, beat1.
  split; [exact Hdaily |]. split; [exact Hin |]. exact Hagain.
Defined.

(** X17. [post] and [delete] answer 500 and write nothing when the
    scheduler cannot be imported, and 400 when "tg_id" is missing or
    falsy; [delete] answers 404 for a tg_id without a task. A request
    never touches a task with another name, and two values of "tg_id"
    address the same task exactly when their [str] agree, so the
    integer n and the string of its decimal digits name the same
    task. *)
Theorem daily_report_errors_and_isolation (beat : Beat) :
  (∀ tg_id delete_flag,
     post false tg_id beat =
       (inr (SchedulerError 500 "scheduler is not available"), beat) ∧
     delete false tg_id delete_flag beat =
       (inr (SchedulerError 500 "scheduler is not available"), beat)) ∧
  (∀ tg_id delete_flag,
     tg_id = None ∨ (∃ v, tg_id = Some v ∧ py_truthy v = false) →
     post true tg_id beat =
       (inr (SchedulerError 400 "tg_id is required"), beat) ∧
     delete true tg_id delete_flag beat =
       (inr (SchedulerError 400 "tg_id is required"), beat)) ∧
  (∀ v delete_flag,
     py_truthy v = true → periodic_tasks beat !! task_name v = None →
     delete true (Some v) delete_flag beat =
       (inr (SchedulerError 404 "task not found"), beat)) ∧
  (∀ tg_id delete_flag other,
     (∀ v, tg_id = Some v → other ≠ task_name v) →
     periodic_tasks (post true tg_id beat).2 !! other =
       periodic_tasks beat !! other ∧
     periodic_tasks (delete true tg_id delete_flag beat).2 !! other =
       periodic_tasks beat !! other) ∧
  (∀ v v', task_name v = task_name v' ↔ py_str v = py_str v') ∧
  (∀ n, task_name (JInt n) = task_name (JStr (pretty n))).
Proof.
  split; [done |]. split; [| split; [| split; [| split]]].
  - intros tg_id delete_flag [-> | (v & -> & Hv)]; [done |].
    unfold post, delete. by rewrite Hv.
  - intros v delete_flag Hv Hnone. unfold delete. by rewrite Hv, Hnone.
  - intros tg_id delete_flag other Hother. unfold post, delete.
    destruct tg_id as [v |]; [| done]. specialize (Hother v eq_refl).
    destruct (py_truthy v); simpl; [| done]. split.
    + unfold get_or_create_schedule.
      destruct (filter is_daily_21 (crontabs beat)) as [| a [| b l]]; simpl;
        try done; by rewrite lookup_insert_ne.
    + destruct (periodic_tasks beat !! task_name v); [| done].
      destruct (match delete_flag with Some _ => _ | None => _ end); simpl.
      * by rewrite lookup_delete_ne.
      * by rewrite lookup_insert_ne.
  - intros v v'. unfold task_name. split; [| by intros ->].
    apply (inj (String.app _)).
  - done.
Qed.

Example daily_report_sample :
  let beat := {| crontabs := []; periodic_tasks := ∅ |} in
  let '(r1, beat1) := post true (Some (JStr "552901111")) beat in
  let '(r2, beat2) := delete true (Some (JInt 552901111)) None beat1 in
  let '(r3, beat3) :=
    delete true (Some (JStr "552901111")) (Some (JStr "false")) beat2 in
  r1 = inr (Registered 201
              "Daily mono transactions report for TG 552901111"
              "daily at 21:00" "552901111") ∧
  r2 = inr (Unregistered 200 "disabled"
              "Daily mono transactions report for TG 552901111") ∧
  r3 = inr (Unregistered 200 "deleted"
              "Daily mono transactions report for TG 552901111") ∧
  periodic_tasks beat3 = ∅ ∧ length (crontabs beat3) = 1%nat.
Proof. vm_compute. repeat split; reflexivity. Qed.

End DailyReport.

(** ** Dates as text, and the endpoints of the months *)

Lemma digit_val_digit (n : Z) : digit_val (digit n) = Some (n mod 10).
Proof.
  unfold digit_val, digit.
  assert (0 ≤ n mod 10 < 10) as Hn by (apply Z.mod_pos_bound; lia).
  rewrite N_ascii_embedding by lia.
  replace ((48 <=? Z.to_N (48 + n mod 10)) &&
           (Z.to_N (48 + n mod 10) <=? 57))%N with true.
  - f_equal. lia.
  - symmetry. apply andb_true_iff. split; apply N.leb_le; lia.
Qed.

Lemma parse_year_fmt04 (y : Z) (r : list ascii) :
  0 ≤ y < 10000 →
  parse_year (list_ascii_of_string (fmt04 y) ++ r) = Some (y, r).
Proof.
  intros Hy. unfold fmt04, fmt02. simpl. rewrite !digit_val_digit. simpl.
  do 2 f_equal. Z.div_mod_to_equations. lia.
Qed.

Lemma parse_month_fmt02 (m : Z) (r : list ascii) :
  1 ≤ m ≤ 12 →
  parse_month (list_ascii_of_string (fmt02 m) ++ dash :: r) = Some (m, r).
Proof.
  intros Hm.
  assert (m = 1 ∨ m = 2 ∨ m = 3 ∨ m = 4 ∨ m = 5 ∨ m = 6 ∨ m = 7 ∨ m = 8 ∨
          m = 9 ∨ m = 10 ∨ m = 11 ∨ m = 12) as Hcases by lia.
  repeat (destruct Hcases as [-> | Hcases]; [reflexivity |]).
  by subst m.
Qed.

Lemma parse_day_fmt02 (d : Z) :
  1 ≤ d ≤ 31 →
  parse_day (list_ascii_of_string (fmt02 d)) = Some (d, []).
Proof.
  intros Hd.
  assert (∃ k : nat, d = 1 + Z.of_nat k ∧ (k < 31)%nat) as (k & -> & Hk).
  { exists (Z.to_nat (d - 1)). lia. }
  do 31 (destruct k as [| k]; [reflexivity |]). lia.
Qed.

Lemma list_ascii_of_string_app (s1 s2 : string) :
  list_ascii_of_string (s1 +:+ s2) =
  list_ascii_of_string s1 ++ list_ascii_of_string s2.
Proof. induction s1 as [| c s1 IH]; simpl; [done |]. by rewrite <- IH. Qed.

Lemma isoformat_chars (d : date) :
  list_ascii_of_string (isoformat d) =
  list_ascii_of_string (fmt04 (year d)) ++
  dash :: (list_ascii_of_string (fmt02 (month d)) ++
           dash :: list_ascii_of_string (fmt02 (day d))).
Proof.
  unfold isoformat. by rewrite !list_ascii_of_string_app.
Qed.

Lemma strptime_isoformat_chars (d : date) :
  valid_date d → strptime_ascii (isoformat d) = Ok d.
Proof.
  intros Hv. pose proof Hv as (Hy & Hm & Hd).
  unfold MINYEAR, MAXYEAR in Hy.
  assert (_days_in_month (year d) (month d) ≤ 31) as Hdim.
  { unfold _days_in_month.
    assert (month d = 1 ∨ month d = 2 ∨ month d = 3 ∨ month d = 4 ∨
            month d = 5 ∨ month d = 6 ∨ month d = 7 ∨ month d = 8 ∨
            month d = 9 ∨ month d = 10 ∨ month d = 11 ∨ month d = 12)
      as Hcases by lia.
    destruct (_is_leap (year d));
      repeat (destruct Hcases as [-> | Hcases]; [simpl; lia |]);
      rewrite Hcases; simpl; lia. }
  unfold strptime_ascii. rewrite isoformat_chars.
  rewrite parse_year_fmt04 by lia.
  remember (list_ascii_of_string (fmt02 (month d)) ++
            dash :: list_ascii_of_string (fmt02 (day d))) as rest eqn:Hrest.
  simpl. subst rest. rewrite parse_month_fmt02 by lia.
  remember (list_ascii_of_string (fmt02 (day d))) as rest eqn:Hrest.
  simpl. subst rest. rewrite parse_day_fmt02 by lia. simpl.
  destruct d as [y m dd]. by apply date_new_Ok.
Qed.

(** [mapM] in the monad [result]: what a result says of the calls. *)
Lemma mapM_result_inv {A B} (f : A → result B) (l : list A) (l' : list B) :
  mapM f l = Ok l' → Forall2 (λ x y, f x = Ok y) l l'.
Proof.
  revert l'. induction l as [| x l IH]; intros l'; simpl.
  - intros [= <-]. constructor.
  - destruct (f x) as [y |] eqn:Hfx; simpl; [| done].
    destruct (mapM f l) as [k |] eqn:Hk; simpl; [| done].
    intros [= <-]. constructor; [done |]. by apply IH.
Qed.

(** [mapM] when every call returns or raises [e]: the calls all
    return, or [mapM] raises [e]. *)
Lemma mapM_result_cases {A B} (f : A → result B) (e : exn) (l : list A) :
  (∀ x, x ∈ l → f x = Raise e ∨ ∃ y, f x = Ok y) →
  (mapM f l = Raise e ∧ ∃ x, x ∈ l ∧ f x = Raise e) ∨
  (∃ l', mapM f l = Ok l' ∧ ∀ x, x ∈ l → ∃ y, f x = Ok y).
Proof.
  induction l as [| x l IH]; intros Hall.
  - right. exists []. split; [done |]. intros x Hx.
    by apply elem_of_nil in Hx.
  - simpl. destruct (Hall x) as [Hx | [y Hx]]; [left | |]; rewrite Hx; simpl.
    { left. split; [done |]. exists x. split; [left | done]. }
    destruct IH as [[Hr (x0 & Hin & Hx0)] | (l' & Hl' & Hok)].
    + intros x' Hx'. apply Hall. by right.
    + left. rewrite Hr. split; [done |]. exists x0. split; [by right | done].
    + right. exists (y :: l'). rewrite Hl'. split; [done |].
      intros x' [-> | Hx']%elem_of_cons; [by exists y | by apply Hok].
Qed.

(** The loop of [get_available_months] ends without an exception only
    if every timestamp has a local date. *)
Lemma collect_year_month_inv (rt : Runtime) (timestamps : list Z)
    (acc S : gset (Z * Z)) :
  MonoJar.collect_year_month rt timestamps acc = Ok S →
  ∀ ts, ts ∈ timestamps → ∃ dt, fromtimestamp (utcoffset rt) ts = Ok dt.
Proof.
  revert acc. induction timestamps as [| t l IH]; intros acc Hrun ts Hts.
  - by apply elem_of_nil in Hts.
  - simpl in Hrun.
    destruct (fromtimestamp (utcoffset rt) t) as [dt |] eqn:Hdt;
      simpl in Hrun; [| done].
    apply elem_of_cons in Hts as [-> | Hts]; [by exists dt |].
    by eapply IH.
Qed.

(** [get_available_months] returns exactly when every transaction of
    the jar has a local date, and then the first days of the months that
    hold one. *)
Lemma available_months_run (rt : Runtime) (db : DB) (self : string) :
  (times_representable rt db self ↔
   ∃ months, MonoJar.get_available_months rt db self = Ok months) ∧
  ∀ months, MonoJar.get_available_months rt db self = Ok months →
    ∀ d, d ∈ months ↔
      valid_date d ∧ day d = 1 ∧
      has_transaction_in rt db self (year d) (month d).
Proof.
  unfold MonoJar.get_available_months.
  set (txs := MonoJar.transactions_of db self).
  assert (times_representable rt db self ↔
          ∀ ts, ts ∈ (λ e, jtx_time e.2) <$> txs →
                ∃ dt, fromtimestamp (utcoffset rt) ts = Ok dt) as Hrep.
  { split.
    - intros Hrep ts Hts.
      apply list_elem_of_fmap in Hts as ([id tx] & -> & He).
      apply elem_of_transactions_of in He as [Hlk Hacc]. by eapply Hrep.
    - intros Hall id tx Hlk Hacc. apply Hall, list_elem_of_fmap.
      exists (id, tx). split; [done |]. by apply elem_of_transactions_of. }
  destruct (MonoJar.collect_year_month rt ((λ e, jtx_time e.2) <$> txs) ∅)
    as [S | e] eqn:HS; simpl.
  2: { split; [| done]. rewrite Hrep. split; [| by intros [? ?]].
       intros Hall.
       destruct (collect_year_month_Ok rt _ ∅ Hall) as (S & HS' & _).
       congruence. }
  pose proof (collect_year_month_inv rt _ _ _ HS) as Hall.
  destruct (collect_year_month_Ok rt _ ∅ Hall) as (S' & HS' & Hmem).
  assert (S' = S) as -> by congruence.
  assert (∀ ym, ym ∈ S ↔ has_transaction_in rt db self ym.1 ym.2) as HmemS.
  { intros [y m]. rewrite Hmem. simpl. split.
    - intros [Hemp | (ts & dt & Hts & Hdt & [= -> ->])]; [set_solver |].
      apply list_elem_of_fmap in Hts as (e & -> & He).
      apply elem_of_transactions_of in He as [Hlk Hacc].
      by exists e, dt.
    - intros (e & dt & Hlk & Hacc & Hdt & <- & <-). right.
      exists (jtx_time e.2), dt. split; [| done].
      apply list_elem_of_fmap. exists e. split; [done |].
      by apply elem_of_transactions_of. }
  assert (∀ ym, ym ∈ S → valid_date (Date ym.1 ym.2 1)) as Hvalid.
  { intros [y m] (e & dt & _ & _ & Hdt & <- & <-)%HmemS.
    apply fromtimestamp_Ok_valid in Hdt as (Hy & Hm & _).
    repeat split; simpl; try lia.
    pose proof
      (days_in_month_ge_28 (year (dt_date dt)) (month (dt_date dt)) Hm).
    lia. }
  rewrite (mapM_result_Ok _ (λ ym, Date ym.1 ym.2 1)).
  2: { intros ym Hym. apply date_new_Ok. split; [done |].
       apply Hvalid. by apply elem_of_elements. }
  simpl. split.
  { split; [by eexists | intros _; by apply Hrep]. }
  intros months [= <-] d.
  rewrite merge_sort_elem_of, list_elem_of_fmap.
  setoid_rewrite elem_of_elements. split.
  - intros (ym & -> & Hym). split; [by apply Hvalid |]. split; [done |].
    by apply HmemS.
  - intros (Hv & Hday & Hhas). exists (year d, month d).
    split; [| by apply HmemS]. destruct d as [y m dd]. simpl in *. by subst.
Qed.



(** X19. For every valid date, [strptime] with the format of
    [month_summary] reads the ten characters that [isoformat], the
    format of [available_months], writes back to the same date, and two
    valid dates with the same [isoformat] are equal. *)
Theorem isoformat_round_trip (d : date) :
  valid_date d →
  strptime_ascii (isoformat d) = Ok d ∧
  String.length (isoformat d) = 10%nat ∧
  ∀ d', valid_date d' → isoformat d = isoformat d' → d = d'.
Proof.
  intros Hv. split; [by apply strptime_isoformat_chars |]. split; [done |].
  intros d' Hv' Heq.
  pose proof (strptime_isoformat_chars d Hv) as H1.
  pose proof (strptime_isoformat_chars d' Hv') as H2.
  rewrite Heq in H1. congruence.
Qed.

Example isoformat_samples :
  isoformat (Date 987 6 5) = "0987-06-05" ∧
  isoformat (Date 2025 12 31) = "2025-12-31".
Proof. split; vm_compute; reflexivity. Qed.

Lemma isoformat_round_trip_witness :
  valid_date (Date 2024 2 29) ∧
  strptime_ascii (isoformat (Date 2024 2 29)) = Ok (Date 2024 2 29).
Proof.
  assert (valid_date (Date 2024 2 29)) as Hv by by_evaluation.
  split; [exact Hv |].
  exact (proj1 (isoformat_round_trip (Date 2024 2 29) Hv)).
Defined.


Example test_endpoint_get_sample :
  TestEndpoint.get utc_runtime sample_db =
  Ok [("stranger_title", [], []);
      ("family_jar_title", [Date 1970 1 1],
       [{| MonoJar.start_balance := 70000; MonoJar.budget := 70000;
           MonoJar.end_balance := 70000; MonoJar.spent := -70000 |}]);
      ("pre_created_title2", [], []);
      ("pre_created_title", [Date 1970 1 1; Date 1970 2 1],
       [{| MonoJar.start_balance := 9500; MonoJar.budget := 2000;
           MonoJar.end_balance := 11800; MonoJar.spent := -4300 |};
        {| MonoJar.start_balance := 11000; MonoJar.budget := 0;
           MonoJar.end_balance := 11000; MonoJar.spent := 0 |}])].
Proof. vm_compute. reflexivity. Qed.
